(** * rain forecast: the prediction pipeline of [internal/cmd/forecast/forecast.go]

    A shallow embedding of the forecasting engine: the YAML node tree it
    walks, the reference resolver that rewrites [Ref]s in place, the
    [Forecast] accumulator, the per-resource pipeline [forecastForType], the
    document walk [predict] and the exit signal of the command.

    Conventions.
    - A [*yaml.Node] that points into the parsed template is a [loc]: the
      child indices leading to it from the document root.  The document
      itself lives in the run state, so that a write through one pointer is
      seen through every other one.
    - A Go panic is the [Panic] outcome of the [result] type; it ends the run.
    - The spinner and [config.Debugf] are console side channels and are left
      out; the lines printed by [predict] are kept as a list of [OutLine]s.
    - Functions of this program whose source is not part of the tree at hand
      (the existence probe, the permission check, the per-type predictors,
      the caller identity, the map lookup helper of package s11n, the
      estimate formatter) are fields of the class [External]. *)

From stdpp Require Import base strings gmap list pretty.
From Stdlib Require Import ZArith Lia Ascii.

#[local] Open Scope string_scope.
#[local] Open Scope list_scope.

(** ** Outcomes of code that may panic *)

Inductive result (A : Type) : Type :=
| Ok (a : A)
| Panic (msg : string).
Arguments Ok {A} a.
Arguments Panic {A} msg.

Definition rbind {A B} (r : result A) (k : A -> result B) : result B :=
  match r with
  | Ok a => k a
  | Panic m => Panic m
  end.

Definition isOk {A} (r : result A) : bool :=
  match r with Ok _ => true | Panic _ => false end.

(** ** The yaml.v3 node tree *)

(** [yaml.Kind]. *)
Inductive YamlKind : Set :=
| DocumentNode | SequenceNode | MappingNode | ScalarNode | AliasNode.

Definition YamlKind_eqb (a b : YamlKind) : bool :=
  match a, b with
  | DocumentNode, DocumentNode | SequenceNode, SequenceNode
  | MappingNode, MappingNode | ScalarNode, ScalarNode
  | AliasNode, AliasNode => true
  | _, _ => false
  end.

(** [yaml.Node], with the fields this package reads or writes.  The other
    fields (style, tag, anchor, comments, column) are never inspected here
    and are zero in every node the resolver builds. *)
#[local] Unset Elimination Schemes.
Inductive Node : Type := mkNode {
  Kind : YamlKind;
  Value : string;
  Line : Z;
  Content : list Node
}.
#[local] Set Elimination Schemes.

(** [yaml.Node{Kind: yaml.ScalarNode, Value: v}]: everything else is zero. *)
Definition scalarNode (v : string) : Node :=
  {| Kind := ScalarNode; Value := v; Line := 0; Content := [] |}.

(** [n.Content[j] = c] seen from the owner of [n]: the child pointer stays,
    the pointee changed. *)
Definition setChild (n : Node) (j : nat) (c : Node) : Node :=
  {| Kind := Kind n; Value := Value n; Line := Line n;
     Content := <[j := c]> (Content n) |}.

(** A pointer into the document: child indices from the root. *)
Definition loc : Type := list nat.

Fixpoint nodeAt (p : loc) (root : Node) : option Node :=
  match p with
  | [] => Some root
  | j :: p' =>
      match Content root !! j with
      | Some c => nodeAt p' c
      | None => None
      end
  end.

(** Overwrite the pointee of [p] (no effect when [p] dangles). *)
Fixpoint storeAt (p : loc) (new : Node) (root : Node) : Node :=
  match p with
  | [] => new
  | j :: p' =>
      match Content root !! j with
      | Some c => setChild root j (storeAt p' new c)
      | None => root
      end
  end.

(** Mapping nodes of a parsed document hold key/value pairs: the parser
    never builds one with an odd number of children. *)
Fixpoint wellFormed (n : Node) : bool :=
  match n with
  | mkNode k _ _ cs =>
      (if YamlKind_eqb k MappingNode then Nat.even (length cs) else true)
      && (fix all (l : list Node) : bool :=
            match l with
            | [] => true
            | c :: l' => wellFormed c && all l'
            end) cs
  end.

(** ** Deploy configuration *)

(** [types.Parameter] of the CloudFormation SDK.  The deploy configuration
    is built with both strings set, so the two pointers are never nil. *)
Record StackParameter : Set := {
  ParameterKey : string;
  ParameterValue : string
}.

Record DeployConfig : Set := {
  Params : list StackParameter;
  Tags : list (string * string)
}.

(** ** Reference resolver *)

(** What a call of [resolveParamRefs] may have written.  Its first branch
    assigns to [*parent] and leaves [prop] alone; the other two only write
    below [prop]. *)
Inductive Touched : Type :=
| TouchedParent (parent' : Node)
| TouchedProp (prop' : Node).

(** The body of [for _, param := range dc.Params] (lines 134-142), one
    parameter at a time, on the current contents of [*parent]. *)
Definition assignParam (prop : Node) (parent : Node) (param : StackParameter) : Node :=
  if String.eqb (ParameterKey param) (Value prop) then
    if YamlKind_eqb (Kind parent) MappingNode then
      scalarNode (ParameterValue param)
    else parent
  else parent.

Definition rangeParams (dc : DeployConfig) (prop parent : Node) : Node :=
  fold_left (assignParam prop) (Params dc) parent.

(** [resolveParamRefs(name, prop, dc, parent)].  In the two loops [todo]
    is [prop.Content[i:]], the children not visited yet, and [cur] is what
    [*prop] holds by now; the loop condition reads [len(prop.Content)] from
    [cur], so an overwritten [prop] (a scalar, no children) ends the loop. *)
Fixpoint resolveParamRefs (name : string) (prop : Node) (dc : DeployConfig)
    (parent : Node) {struct prop} : result Touched :=
  if String.eqb name "Ref" && YamlKind_eqb (Kind prop) ScalarNode then
    Ok (TouchedParent (rangeParams dc prop parent))
  else if YamlKind_eqb (Kind prop) MappingNode then
    (fix pairs (todo : list Node) (i : nat) (cur : Node) {struct todo}
       : result Touched :=
       if negb (i <? length (Content cur))%nat then Ok (TouchedProp cur)
       else
         match todo with
         | k :: v :: rest =>
             match resolveParamRefs (Value k) v dc cur with
             | Ok (TouchedParent cur') => pairs rest (S (S i)) cur'
             | Ok (TouchedProp v') => pairs rest (S (S i)) (setChild cur (S i) v')
             | Panic m => Panic m
             end
         | [_] => Panic "index out of range"
         | [] => Ok (TouchedProp cur)
         end) (Content prop) 0%nat prop
  else if YamlKind_eqb (Kind prop) SequenceNode then
    (fix each (todo : list Node) (j : nat) (cur : Node) {struct todo}
       : result Touched :=
       match todo with
       | [] => Ok (TouchedProp cur)
       | p :: rest =>
           match resolveParamRefs "" p dc cur with
           | Ok (TouchedParent cur') => each rest (S j) cur'
           | Ok (TouchedProp p') => each rest (S j) (setChild cur j p')
           | Panic m => Panic m
           end
       end) (Content prop) 0%nat prop
  else Ok (TouchedProp prop).

(** The loop of [resolveRefs] over [props.Content] (lines 158-160), with
    [todo], [i] and [cur] as above. *)
Fixpoint resolvePairs (dc : DeployConfig) (todo : list Node) (i : nat)
    (cur : Node) {struct todo} : result Node :=
  if negb (i <? length (Content cur))%nat then Ok cur
  else
    match todo with
    | k :: v :: rest =>
        match resolveParamRefs (Value k) v dc cur with
        | Ok (TouchedParent cur') => resolvePairs dc rest (S (S i)) cur'
        | Ok (TouchedProp v') => resolvePairs dc rest (S (S i)) (setChild cur (S i) v')
        | Panic m => Panic m
        end
    | [_] => Panic "index out of range"
    | [] => Ok cur
    end.

(** ** Vocabulary for the properties of the resolver *)

Section ResolverDefs.

Variable dc : DeployConfig.

(** The value the deploy configuration gives to a parameter name: the
    first entry of [dc.Params] with that key. *)
Definition paramValue (name : string) : option string :=
  match find (fun param => String.eqb (ParameterKey param) name) (Params dc) with
  | Some param => Some (ParameterValue param)
  | None => None
  end.

(** The sequence loop of [resolveParamRefs] as a function of its own. *)
Fixpoint resolveEach (todo : list Node) (j : nat) (cur : Node) {struct todo}
    : result Node :=
  match todo with
  | [] => Ok cur
  | p :: rest =>
      match resolveParamRefs "" p dc cur with
      | Ok (TouchedParent cur') => resolveEach rest (S j) cur'
      | Ok (TouchedProp p') => resolveEach rest (S j) (setChild cur j p')
      | Panic m => Panic m
      end
  end.

Definition touchedProp (r : result Node) : result Touched :=
  match r with
  | Ok n => Ok (TouchedProp n)
  | Panic m => Panic m
  end.

(** Is this call in the first branch of [resolveParamRefs]? *)
Definition isRefScalar (name : string) (prop : Node) : bool :=
  String.eqb name "Ref" && YamlKind_eqb (Kind prop) ScalarNode.

(** What [*prop] holds after [resolveParamRefs] ran on a property that is
    not itself the scalar of a [Ref]. *)
Definition resolved (prop : Node) : Node :=
  match resolveParamRefs "" prop dc prop with
  | Ok (TouchedProp prop') => prop'
  | Ok (TouchedParent prop') => prop'
  | Panic _ => prop
  end.

(** No key of these key/value pairs is called [Ref]. *)
Fixpoint plainKeys (content : list Node) : bool :=
  match content with
  | k :: _ :: rest => negb (String.eqb (Value k) "Ref") && plainKeys rest
  | _ => true
  end.

(** Key/value pairs with every value resolved. *)
Fixpoint mapValues (content : list Node) : list Node :=
  match content with
  | k :: v :: rest => k :: resolved v :: mapValues rest
  | rest => rest
  end.

Definition withContent (n : Node) (cs : list Node) : Node :=
  {| Kind := Kind n; Value := Value n; Line := Line n; Content := cs |}.

(** An intrinsic reference to the parameter [P]: the mapping [{Ref: P}]. *)
Definition isReference (P : string) (n : Node) : bool :=
  YamlKind_eqb (Kind n) MappingNode
  && match Content n with
     | [k; v] =>
         String.eqb (Value k) "Ref" && YamlKind_eqb (Kind v) ScalarNode
         && String.eqb (Value v) P
     | _ => false
     end.

(** The property subtree [n] contains a reference to [P] at the end of the
    path [p], below values of mappings with plain keys and elements of
    sequences. *)
Fixpoint refAt (P : string) (p : loc) (n : Node) : bool :=
  match p with
  | [] => isReference P n
  | j :: p' =>
      match Content n !! j with
      | Some c =>
          refAt P p' c
          && (YamlKind_eqb (Kind n) SequenceNode
              || (YamlKind_eqb (Kind n) MappingNode && Nat.odd j
                  && plainKeys (Content n)))
      | None => false
      end
  end.

End ResolverDefs.

(** ** Forecast: the per-resource and the top-level accumulator *)

Record Forecast : Set := {
  TypeName : string;
  LogicalId : string;
  Passed : list string;
  Failed : list string
}.

Definition GetNumChecked (f : Forecast) : nat :=
  (length (Passed f) + length (Failed f))%nat.

Definition GetNumFailed (f : Forecast) : nat := length (Failed f).

Definition GetNumPassed (f : Forecast) : nat := length (Passed f).

Definition Append (f forecast : Forecast) : Forecast :=
  {| TypeName := TypeName f; LogicalId := LogicalId f;
     Passed := Passed f ++ Passed forecast;
     Failed := Failed f ++ Failed forecast |}.

(** [Add]: the message is built from the package variable [LineNumber],
    passed here as the value it holds at the call. *)
Definition Add (LineNumber : Z) (f : Forecast) (passed : bool) (message : string)
    : Forecast :=
  let msg := pretty LineNumber +:+ ": " +:+ TypeName f +:+ " " +:+ LogicalId f
             +:+ " - " +:+ message in
  if passed then
    {| TypeName := TypeName f; LogicalId := LogicalId f;
       Passed := Passed f ++ [msg]; Failed := Failed f |}
  else
    {| TypeName := TypeName f; LogicalId := LogicalId f;
       Passed := Passed f; Failed := Failed f ++ [msg] |}.

Definition makeForecast (typeName logicalId : string) : Forecast :=
  {| TypeName := typeName; LogicalId := logicalId; Passed := []; Failed := [] |}.

(** The zero value [Forecast{}]. *)
Definition zeroForecast : Forecast :=
  {| TypeName := ""; LogicalId := ""; Passed := []; Failed := [] |}.

(** ** Run state, inputs and collaborators *)

(** A line written by [fmt.Println], with the colour the console gave it. *)
Inductive OutLine : Set :=
| Red (s : string)
| Green (s : string)
| Plain (s : string).

(** What the package and the services behind it remember between calls:
    the package variable [LineNumber] and the account [world]. *)
Record Ambient (W : Type) : Type := {
  LineNumber : Z;
  world : W
}.
Arguments LineNumber {W} _.
Arguments world {W} _.

(** The whole run state: the ambient part, the parsed template that
    [source.Node] points to, and what was printed so far. *)
Record St (W : Type) : Type := {
  amb : Ambient W;
  doc : Node;
  stdout : list OutLine
}.
Arguments amb {W} _.
Arguments doc {W} _.
Arguments stdout {W} _.

(** The command-line flags, package variables set before the run. *)
Record Flags : Set := {
  RoleArn : string;
  ResourceType : string;
  SkipIAM : bool;
  all : bool
}.

Record Env : Set := {
  partition : string;
  region : string;
  account : string
}.

Inductive StackAction : Set := Create | Update.

#[global] Instance StackAction_eq_dec : EqDecision StackAction.
Proof. solve_decision. Defined.

#[global] Instance StackAction_countable : Countable StackAction.
Proof.
  refine (inj_countable' (fun a => match a with Create => false | Update => true end)
                         (fun b : bool => if b then Update else Create) _).
  intros []; reflexivity.
Defined.

(** [PredictionInput].  [source] and [resource] are pointers into the
    document; [stack] is the SDK's stack descriptor, opaque here. *)
Record PredictionInput (S : Type) : Type := {
  source : loc;
  stackName : string;
  resource : loc;
  logicalId : string;
  stackExists : bool;
  stack : S;
  typeName : string;
  dc : DeployConfig;
  env : Env;
  roleArn : string
}.
Arguments source {S} _.
Arguments stackName {S} _.
Arguments resource {S} _.
Arguments logicalId {S} _.
Arguments stackExists {S} _.
Arguments stack {S} _.
Arguments typeName {S} _.
Arguments dc {S} _.
Arguments env {S} _.
Arguments roleArn {S} _.

(** The collaborators.  Each one reads the document it is shown and may
    change the ambient state, never the document.
    - [GetMapValue m name] is the position in [m.Content] of the value node
      the lookup returns, [None] for a nil result.
    - [ResourceAlreadyExists typeName resource stackExists template dc].
    - [checkPermissions input template forecast] returns the forecast it
      was handed, with whatever it added, and the error if any.
    - [forecasters] is the registry filled by [init].
    - [awsRegion] is [aws.Config().Region]; [GetCallerArn] is [None] on
      error.
    - [Estimates] is the estimate table, [FormatEstimate] its printer. *)
Class External : Type := {
  World : Type;
  Stack : Type;
  GetMapValue : Node -> string -> option nat;
  ResourceAlreadyExists :
    string -> Node -> bool -> Node -> DeployConfig -> World -> bool * World;
  checkPermissions :
    PredictionInput Stack -> Node -> Forecast -> Ambient World ->
    (Forecast * option string) * Ambient World;
  forecasters :
    gmap string (PredictionInput Stack -> Node -> Ambient World ->
                 Forecast * Ambient World);
  awsRegion : World -> string * World;
  GetCallerArn : World -> option string * World;
  Estimates : gmap (string * StackAction) Z;
  FormatEstimate : Z -> string
}.

(** [strings.Split(s, sep)] for a one-byte separator. *)
Fixpoint Split (s : string) (sep : Ascii.ascii) : list string :=
  match s with
  | EmptyString => [""]
  | String a s' =>
      if Ascii.eqb a sep then "" :: Split s' sep
      else match Split s' sep with
           | t :: ts => String a t :: ts
           | [] => [String a ""]
           end
  end.

(** ** The pipeline *)

Section Pipeline.

Context `{ext : External}.
Variable flags : Flags.

(** Code that reads and writes the run state and may panic. *)
Definition M (A : Type) : Type := St World -> result (A * St World).

Definition ret {A} (a : A) : M A := fun st => Ok (a, st).

Definition bind {A B} (m : M A) (k : A -> M B) : M B :=
  fun st =>
    match m st with
    | Ok (a, st') => k a st'
    | Panic msg => Panic msg
    end.

Definition panic {A} (msg : string) : M A := fun _ => Panic msg.

Notation "'let*' x ':=' c 'in' k" := (bind c (fun x => k))
  (at level 10, x name, c at level 100, k at level 200).
Notation "'let*' ' p ':=' c 'in' k" := (bind c (fun x => match x with p => k end))
  (at level 10, p pattern, c at level 100, k at level 200).

(** Reading through a pointer into the document. *)
Definition deref (p : loc) : M Node :=
  fun st =>
    match nodeAt p (doc st) with
    | Some n => Ok (n, st)
    | None => Panic "invalid memory address or nil pointer dereference"
    end.

(** Writing through a pointer into the document. *)
Definition store (p : loc) (n : Node) : M unit :=
  fun st =>
    Ok (tt, {| amb := amb st; doc := storeAt p n (doc st); stdout := stdout st |}).

Definition setLineNumber (l : Z) : M unit :=
  fun st =>
    Ok (tt, {| amb := {| LineNumber := l; world := world (amb st) |};
               doc := doc st; stdout := stdout st |}).

(** [forecast.Add(passed, message)] at the current [LineNumber]. *)
Definition add (forecast : Forecast) (passed : bool) (message : string) : M Forecast :=
  fun st => Ok (Add (LineNumber (amb st)) forecast passed message, st).

(** A call into the account. *)
Definition callWorld {A} (f : World -> A * World) : M A :=
  fun st =>
    let (a, w) := f (world (amb st)) in
    Ok (a, {| amb := {| LineNumber := LineNumber (amb st); world := w |};
              doc := doc st; stdout := stdout st |}).

(** A call of a collaborator of this package: it sees the document and
    owns the ambient state while it runs. *)
Definition callAmbient {A} (f : Node -> Ambient World -> A * Ambient World) : M A :=
  fun st =>
    let (a, am) := f (doc st) (amb st) in
    Ok (a, {| amb := am; doc := doc st; stdout := stdout st |}).

Definition println (l : OutLine) : M unit :=
  fun st => Ok (tt, {| amb := amb st; doc := doc st; stdout := stdout st ++ [l] |}).

Definition liftResult {A} (r : result A) : M A :=
  fun st => match r with Ok a => Ok (a, st) | Panic m => Panic m end.

(** The value node of [GetMapValue] with its position; a nil result is
    [None]. *)
Definition getMapValue (m : Node) (name : string) : option (nat * Node) :=
  match GetMapValue m name with
  | Some j =>
      match Content m !! j with
      | Some v => Some (j, v)
      | None => None
      end
  | None => None
  end.

(** [resolveRefs(input)]: the resolver loop on the resource's Properties
    node, written back through the pointer. *)
Definition resolveRefs (input : PredictionInput Stack) : M unit :=
  let* r := deref (resource input) in
  match getMapValue r "Properties" with
  | Some (j, props) =>
      let* props' := liftResult (resolvePairs (dc input) (Content props) 0 props) in
      store (resource input ++ [j]) props'
  | None => ret tt
  end.

(** *** Time estimator *)

(** Modelled from the spec: [GetResourceEstimate] is not in the tree at
    hand.  "looks up the static table": the entry for the type and the
    action, an error when there is none. *)
Definition GetResourceEstimate (typeName : string) (action : StackAction)
    : option Z :=
  Estimates !! (typeName, action).

(** Lines 181-186: the action is read off the stack-exists flag. *)
Definition actionFor (stackExists : bool) : StackAction :=
  if stackExists then Update else Create.

(** Lines 187-191: the estimate of one resource, 1 when the lookup fails.
    [forecastForType] only shows it on the spinner. *)
Definition estimate (typeName : string) (action : StackAction) : Z :=
  match GetResourceEstimate typeName action with
  | Some est => est
  | None => 1
  end.

(** The type identifier of a resource node, empty when it has none. *)
Definition typeNameOf (resource : Node) : string :=
  match getMapValue resource "Type" with
  | Some (_, typeNode) => Value typeNode
  | None => ""
  end.

(** Modelled from the spec: [PredictTotalEstimate] is not in the tree at
    hand.  "sums estimate over every resource in the template's Resources
    section, using Action inferred once from stackExists and applied
    uniformly to all resources". *)
Fixpoint sumEstimates (action : StackAction) (content : list Node) : Z :=
  match content with
  | _ :: resource :: rest =>
      (estimate (typeNameOf resource) action + sumEstimates action rest)%Z
  | _ => 0%Z
  end.

Definition PredictTotalEstimate (template : Node) (stackExists : bool) : Z :=
  match Content template !! 0%nat with
  | Some rootMap =>
      match getMapValue rootMap "Resources" with
      | Some (_, resources) =>
          sumEstimates (actionFor stackExists) (Content resources)
      | None => 0%Z
      end
  | None => 0%Z
  end.

(** The resource nodes of a Resources section, the values of its pairs,
    and those of a whole template. *)
Fixpoint resourceNodes (content : list Node) : list Node :=
  match content with
  | _ :: resource :: rest => resource :: resourceNodes rest
  | _ => []
  end.

Definition resourcesOf (template : Node) : list Node :=
  match Content template !! 0%nat with
  | Some rootMap =>
      match getMapValue rootMap "Resources" with
      | Some (_, resources) => resourceNodes (Content resources)
      | None => []
      end
  | None => []
  end.

(** *** One resource *)

(** Lines 231-242: the predictor registered for the type, if any. *)
Definition runForecaster (input : PredictionInput Stack) (forecast : Forecast)
    : M Forecast :=
  match forecasters !! typeName input with
  | Some fn =>
      let* f := callAmbient (fn input) in
      ret (Append forecast f)
  | None => ret forecast
  end.

(** Lines 176-210: reference resolution, then the existence probe on the
    resolved resource; the result is the accumulator with the probe's
    entry. *)
Definition resolveAndProbe (input : PredictionInput Stack) : M Forecast :=
  let forecast := makeForecast (typeName input) (logicalId input) in
  let* _ := resolveRefs input in
  let* r := deref (resource input) in
  let* template := deref (source input) in
  let* found := callWorld (ResourceAlreadyExists (typeName input) r
                             (stackExists input) template (dc input)) in
  if found : bool then add forecast false "Already exists"
  else
    let* _ := setLineNumber (Line r) in
    add forecast true "Does not exist".

(** [forecastForType(input)]. *)
Definition forecastForType (input : PredictionInput Stack) : M Forecast :=
  let forecast := makeForecast (typeName input) (logicalId input) in
  if negb (String.eqb (ResourceType flags) "")
     && negb (String.eqb (ResourceType flags) (typeName input)) then
    ret forecast
  else
    let* forecast := resolveAndProbe input in
    if negb (SkipIAM flags) then
      let* ' (forecast, err) :=
        callAmbient (fun template => checkPermissions input template forecast) in
      match err with
      | Some _ => ret zeroForecast
      | None => runForecaster input forecast
      end
    else runForecaster input forecast.

(** *** The document walk *)

(** Lines 277-317 of the loop of [predict] for an even index [i]: the
    input built for the resource at [resources.Content[i+1]]; [resources]
    points to the Resources node. *)
Definition makeInput (source : loc) (stackName : string) (stack : Stack)
    (stackExists : bool) (dc : DeployConfig) (resources : loc) (i : nat)
    : M (PredictionInput Stack) :=
  let* r := deref (resources ++ [i]) in
  let logicalId := Value r in
  let* _ := setLineNumber (Line r) in
  let* rs := deref resources in
  match Content rs !! S i with
  | None => panic "index out of range"
  | Some resource =>
      match getMapValue resource "Type" with
      | None => panic ("Expected " +:+ logicalId +:+ " to have a Type")
      | Some (_, typeNode) =>
          let typeName := Value typeNode in
          let* cfgRegion := callWorld awsRegion in
          let* caller := callWorld GetCallerArn in
          match caller with
          | None => panic "unable to get caller arn"
          | Some callerArn =>
              let arnTokens := Split callerArn ":"%char in
              if negb (length arnTokens =? 6)%nat then
                panic ("unexpected number of tokens in caller arn: " +:+ callerArn)
              else
                ret {| source := source; stackName := stackName;
                       resource := resources ++ [S i];
                       logicalId := logicalId; stackExists := stackExists;
                       stack := stack; typeName := typeName; dc := dc;
                       env := {| partition := nth 1 arnTokens "";
                                 region := cfgRegion;
                                 account := nth 4 arnTokens "" |};
                       roleArn := if String.eqb (RoleArn flags) "" then callerArn
                                  else RoleArn flags |}
          end
      end
  end.

(** Lines 277-319: one resource, from the input to
    [forecast.Append(forecastForType(input))]. *)
Definition predictResource (source : loc) (stackName : string) (stack : Stack)
    (stackExists : bool) (dc : DeployConfig) (resources : loc) (i : nat)
    (forecast : Forecast) : M Forecast :=
  let* input := makeInput source stackName stack stackExists dc resources i in
  let* f := forecastForType input in
  ret (Append forecast f).

(** [for i, r := range resources.Content]: [todo] is the rest of the slice
    taken when the loop started. *)
Fixpoint rangeResources (source : loc) (stackName : string) (stack : Stack)
    (stackExists : bool) (dc : DeployConfig) (resources : loc)
    (todo : list Node) (i : nat) (forecast : Forecast) {struct todo}
    : M Forecast :=
  match todo with
  | [] => ret forecast
  | _ :: todo' =>
      if Nat.odd i then
        rangeResources source stackName stack stackExists dc resources todo' (S i)
          forecast
      else
        let* forecast :=
          predictResource source stackName stack stackExists dc resources i
            forecast in
        rangeResources source stackName stack stackExists dc resources todo' (S i)
          forecast
  end.

(** Lines 258-322: the top-level accumulator after every resource. *)
Definition predictAll (source : loc) (stackName : string) (stack : Stack)
    (stackExists : bool) (dc : DeployConfig) : M Forecast :=
  let forecast := makeForecast "" "" in
  let* root := deref source in
  match Content root !! 0%nat with
  | None => panic "index out of range"
  | Some rootMap =>
      match getMapValue rootMap "Resources" with
      | None => panic "Expected to find a Resources section in the template"
      | Some (j, resources) =>
          rangeResources source stackName stack stackExists dc
            (source ++ [0%nat; j]) (Content resources) 0 forecast
      end
  end.

Fixpoint printAll (colour : string -> OutLine) (reasons : list string) : M unit :=
  match reasons with
  | [] => ret tt
  | reason :: rest =>
      let* _ := println (colour reason) in
      printAll colour rest
  end.

(** Lines 330-364: the verdict and the report. *)
Definition report (forecast : Forecast) (totalSeconds : Z) : M bool :=
  if (0 <? GetNumFailed forecast)%nat then
    let* _ := println (Red "Stormy weather ahead! 🌪") in
    let* _ := println (Plain "") in
    let* _ := println (Red (pretty (GetNumFailed forecast)
                            +:+ " checks failed out of "
                            +:+ pretty (GetNumChecked forecast)
                            +:+ " total checks")) in
    let* _ := printAll Red (Failed forecast) in
    let* _ :=
      (if all flags then
         let* _ := println (Plain "") in
         let* _ := println (Green (pretty (GetNumPassed forecast)
                                   +:+ " checks passed out of "
                                   +:+ pretty (GetNumChecked forecast)
                                   +:+ " total checks")) in
         printAll Green (Passed forecast)
       else ret tt) in
    ret false
  else
    let* _ := println (Green ("Clear skies! 🌞 All "
                              +:+ pretty (GetNumChecked forecast)
                              +:+ " checks passed. Estimated time: "
                              +:+ FormatEstimate totalSeconds)) in
    let* _ :=
      (if all flags then
         let* _ := println (Plain "") in
         printAll Green (Passed forecast)
       else ret tt) in
    ret true.

(** [predict]. *)
Definition predict (source : loc) (stackName : string) (stack : Stack)
    (stackExists : bool) (dc : DeployConfig) : M bool :=
  let* forecast := predictAll source stackName stack stackExists dc in
  let* template := deref source in
  let totalSeconds := PredictTotalEstimate template stackExists in
  report forecast totalSeconds.

(** The end of [Cmd.Run] (lines 457-459) as the exit status of the
    process: [os.Exit(1)] ends it with 1 and a return from [Run] with 0.
    A panic that nothing recovers ends a Go program with a status that is
    not 0, 2 unless the caller of [Run] decides otherwise; the theorems
    use of it only that it is not 0. *)
Definition exitStatus (r : result (bool * St World)) : Z :=
  match r with
  | Panic _ => 2%Z
  | Ok (false, _) => 1%Z
  | Ok (true, _) => 0%Z
  end.

(** The resource passes the [--type] filter of lines 171-174. *)
Definition passesFilter (typeName : string) : bool :=
  String.eqb (ResourceType flags) ""
  || String.eqb (ResourceType flags) typeName.

(** The Properties node of a resource, if any, holds key/value pairs. *)
Definition propertiesPaired (r : Node) : bool :=
  match getMapValue r "Properties" with
  | Some (_, props) => Nat.even (length (Content props))
  | None => true
  end.

(** The pointers of an input are good: the template is above the
    resource, and the resource is a well-formed tree. *)
Definition validInput (input : PredictionInput Stack) (st : St World) : bool :=
  bool_decide (source input `prefix_of` resource input)
  && match nodeAt (resource input) (doc st) with
     | Some r => wellFormed r && propertiesPaired r
     | None => false
     end.

(** The pointer [p] is as good after the step as before. *)
Definition keeps (p : loc) (st st' : St World) : Prop :=
  is_Some (nodeAt p (doc st)) -> is_Some (nodeAt p (doc st')).

End Pipeline.

(** ** A recording account and sample templates *)

Module Demo.

Definition scalar (line : Z) (v : string) : Node :=
  {| Kind := ScalarNode; Value := v; Line := line; Content := [] |}.

Definition mapping (line : Z) (cs : list Node) : Node :=
  {| Kind := MappingNode; Value := ""; Line := line; Content := cs |}.

Definition sequence (line : Z) (cs : list Node) : Node :=
  {| Kind := SequenceNode; Value := ""; Line := line; Content := cs |}.

Definition document (root : Node) : Node :=
  {| Kind := DocumentNode; Value := ""; Line := 1; Content := [root] |}.

(** The value paired with the first key called [name]. *)
Fixpoint lookupKey (content : list Node) (name : string) (i : nat) : option nat :=
  match content with
  | k :: _ :: rest =>
      if String.eqb (Value k) name then Some (S i)
      else lookupKey rest name (S (S i))
  | _ => None
  end.

(** The calls the account has seen, oldest first. *)
Inductive Call : Type :=
| CallIdentity
| CallExists (typeName : string) (resource : Node)
| CallPermissions (logicalId : string) (forecast : Forecast)
| CallPredictor (typeName logicalId : string).

(** An account that records every call.  [taken] tells which resource
    types already exist outside the stack, [failing] for which logical ids
    the policy simulator breaks down, [registered] which types have a
    predictor; [arn] is the caller identity. *)
Definition recording (taken : string -> bool) (failing : string -> bool)
    (registered : list string) (arn : option string) : External :=
  {| World := list Call;
     Stack := unit;
     GetMapValue := fun m name => lookupKey (Content m) name 0;
     ResourceAlreadyExists := fun t r _ _ _ w => (taken t, w ++ [CallExists t r]);
     checkPermissions := fun input _ f a =>
       ((Add (LineNumber a) f true "may create",
         if failing (logicalId input) then Some "throttled" else None),
        {| LineNumber := LineNumber a;
           world := world a ++ [CallPermissions (logicalId input) f] |});
     forecasters :=
       list_to_map
         (map (fun t =>
                 (t, fun (input : PredictionInput unit) (_ : Node)
                         (a : Ambient (list Call)) =>
                       (Add (LineNumber a)
                          (makeForecast (typeName input) (logicalId input))
                          false "bucket not empty",
                        {| LineNumber := LineNumber a;
                           world := world a
                                    ++ [CallPredictor t (logicalId input)] |})))
              registered);
     awsRegion := fun w => ("us-east-1", w);
     GetCallerArn := fun w => (arn, w ++ [CallIdentity]);
     Estimates := {[ ("AWS::SNS::Topic", Create) := 5%Z ]};
     FormatEstimate := fun z => pretty z +:+ " seconds" |}.

Definition admin : option string := Some "arn:aws:iam::755952356119:role/Admin".

(** [[
Resources:
  Topic:
    Type: AWS::SNS::Topic
    Properties:
      TopicName: !Ref Name
  Queue:
    Type: AWS::SQS::Queue
]] *)
Definition topicProperties : Node :=
  mapping 5 [scalar 5 "TopicName"; mapping 5 [scalar 5 "Ref"; scalar 5 "Name"]].

Definition twoResources : Node :=
  document
    (mapping 1
       [scalar 1 "Resources";
        mapping 2
          [scalar 2 "Topic";
           mapping 3 [scalar 3 "Type"; scalar 3 "AWS::SNS::Topic";
                      scalar 4 "Properties"; topicProperties];
           scalar 6 "Queue";
           mapping 7 [scalar 7 "Type"; scalar 7 "AWS::SQS::Queue"]]]).

(** A template whose Resources section is there and holds nothing. *)
Definition emptyResources : Node :=
  document (mapping 1 [scalar 1 "Resources"; mapping 1 []]).

(** A template without a Resources section. *)
Definition noResources : Node :=
  document (mapping 1 [scalar 1 "Description"; scalar 1 "nothing here"]).

Definition queueNode3 : Node :=
  mapping 3 [scalar 3 "Type"; scalar 3 "AWS::SQS::Queue"].



Definition named : DeployConfig :=
  {| Params := [{| ParameterKey := "Name"; ParameterValue := "alerts" |}];
     Tags := [] |}.

Definition start (template : Node) : St (list Call) :=
  {| amb := {| LineNumber := 0; world := [] |}; doc := template; stdout := [] |}.

Definition flagsDefault : Flags :=
  {| RoleArn := ""; ResourceType := ""; SkipIAM := false; all := false |}.

Definition flagsSkipIAM : Flags :=
  {| RoleArn := ""; ResourceType := ""; SkipIAM := true; all := false |}.

(** [--type AWS::S3::Bucket --skip-iam] *)
Definition flagsOnlyBuckets : Flags :=
  {| RoleArn := ""; ResourceType := "AWS::S3::Bucket"; SkipIAM := true;
     all := false |}.

(** The input [predict] builds for a resource of [twoResources]. *)
Definition inputFor (logicalId typeName : string) (slot : nat)
    : PredictionInput unit :=
  {| source := []; stackName := "demo"; resource := [0; 1; slot]%nat;
     logicalId := logicalId; stackExists := false; stack := tt;
     typeName := typeName; dc := named;
     env := {| partition := "aws"; region := "us-east-1";
               account := "755952356119" |};
     roleArn := "arn:aws:iam::755952356119:role/Admin" |}.

(** [[
Resources:
  Queue:
    Type: AWS::SQS::Queue
]] *)
Definition oneQueue : Node :=
  document
    (mapping 1
       [scalar 1 "Resources";
        mapping 2 [scalar 2 "Queue"; queueNode3]]).

(** Nothing exists yet, the simulator answers, no predictor is
    registered. *)
Definition quiet : External :=
  recording (fun _ => false) (fun _ => false) [] admin.

(** The simulator breaks down on the resource [Queue]; both types have a
    predictor. *)
Definition throttled : External :=
  recording (fun _ => false) (fun l => String.eqb l "Queue")
    ["AWS::SNS::Topic"; "AWS::SQS::Queue"] admin.

(** The accumulator of [Queue] after its existence probe. *)
Definition queueProbed : Forecast :=
  Add 7 (makeForecast "AWS::SQS::Queue" "Queue") true "Does not exist".

Definition queueNode : Node :=
  mapping 7 [scalar 7 "Type"; scalar 7 "AWS::SQS::Queue"].

(** Every queue is taken already, outside the stack. *)
Definition crowded : External :=
  recording (fun t => String.eqb t "AWS::SQS::Queue") (fun _ => false) [] admin.

Definition topicInput : PredictionInput unit := inputFor "Topic" "AWS::SNS::Topic" 1.

Definition queueInput : PredictionInput unit := inputFor "Queue" "AWS::SQS::Queue" 3.

End Demo.

(** ** More vocabulary for the resolver and for pointers *)

(** The names the first branch of [resolveParamRefs] may look up among
    these key/value pairs: the scalars that stand under a key [Ref]. *)
Fixpoint refNamesOfPairs (content : list Node) : list string :=
  match content with
  | k :: v :: rest =>
      (if String.eqb (Value k) "Ref" && YamlKind_eqb (Kind v) ScalarNode
       then [Value v] else [])
      ++ refNamesOfPairs rest
  | _ => []
  end.

(** The same for a whole tree. *)
Fixpoint refNames (n : Node) : list string :=
  match n with
  | mkNode k _ _ cs =>
      (if YamlKind_eqb k MappingNode then refNamesOfPairs cs else [])
      ++ (fix below (l : list Node) : list string :=
            match l with
            | [] => []
            | c :: l' => refNames c ++ below l'
            end) cs
  end.

(** Two pointers part ways: neither leads into the subtree of the other. *)
Fixpoint apart (p q : loc) : bool :=
  match p, q with
  | a :: p', b :: q' => if Nat.eqb a b then apart p' q' else true
  | _, _ => false
  end.

(** The number of bytes of [s] equal to [sep]. *)
Fixpoint countByte (sep : Ascii.ascii) (s : string) : nat :=
  match s with
  | EmptyString => 0
  | String a s' => (if Ascii.eqb a sep then 1 else 0) + countByte sep s'
  end.

(** The outcome of a call is well-formed: whichever node it wrote. *)
Definition keepsWellFormed (r : result Touched) : Prop :=
  match r with
  | Ok (TouchedProp prop') => wellFormed prop' = true
  | Ok (TouchedParent parent') => wellFormed parent' = true
  | Panic _ => False
  end.

(** A tree that no call of [resolveParamRefs] changes. *)
Definition untouched (dc : DeployConfig) (c : Node) : Prop :=
  forall name parent,
    isRefScalar name c = false ->
    resolveParamRefs name c dc parent = Ok (TouchedProp c).

(** Between two run states nothing was printed and every node apart from
    [p] reads the same. *)
Definition sameOutside {W : Type} (p : loc) (st st' : St W) : Prop :=
  stdout st' = stdout st
  /\ forall q, apart p q = true -> nodeAt q (doc st') = nodeAt q (doc st).

(** Every resource of these key/value pairs has a Type, and none is of
    the type [filter]. *)
Fixpoint allOtherTypes `{External} (filter : string) (content : list Node) : bool :=
  match content with
  | [] => true
  | _ :: resource :: rest =>
      match getMapValue resource "Type" with
      | Some (_, typeNode) => negb (String.eqb (Value typeNode) filter)
      | None => false
      end
      && allOtherTypes filter rest
  | [_] => false
  end.

(** A tree in which [Ref] is only used the way templates use it: each
    mapping is either a reference, [{Ref: name}] with a scalar name, or has
    no key called [Ref] at all. *)
Fixpoint clean (n : Node) : bool :=
  match n with
  | mkNode k _ _ cs =>
      (if YamlKind_eqb k MappingNode then
         match cs with
         | [a; b] =>
             (String.eqb (Value a) "Ref" && YamlKind_eqb (Kind b) ScalarNode)
             || plainKeys cs
         | _ => plainKeys cs
         end
       else true)
      && (fix all (l : list Node) : bool :=
            match l with
            | [] => true
            | c :: l' => clean c && all l'
            end) cs
  end.

(** Every resource of these key/value pairs has a Type and is a
    well-formed tree whose Properties node, if any, holds key/value
    pairs. *)
Fixpoint typedResources `{External} (content : list Node) : bool :=
  match content with
  | [] => true
  | _ :: resource :: rest =>
      match getMapValue resource "Type" with
      | Some _ => true
      | None => false
      end
      && wellFormed resource && propertiesPaired resource
      && typedResources rest
  | [_] => false
  end.

(** No resource of these key/value pairs is of a type with a registered
    predictor. *)
Fixpoint noPredictors `{External} (content : list Node) : bool :=
  match content with
  | _ :: resource :: rest =>
      match forecasters !! typeNameOf resource with
      | Some _ => false
      | None => true
      end
      && noPredictors rest
  | _ => true
  end.

(** ** The fmt command *)

(** A Go error value returned beside a result. *)
Inductive outcome (A : Type) : Type :=
| Val (a : A)
| Err (e : string).
Arguments Val {A} a.
Arguments Err {A} e.

Module Fmt.

(** The flags of [fmtCmd]. *)
Record Flags : Set := {
  compactFlag : bool;
  jsonFlag : bool;
  verifyFlag : bool;
  writeFlag : bool
}.

(** Packages parse and format, whose source is not part of the tree at
    hand: the template type, the parser, the formatter with its two
    switches, and the check of the output against the source. *)
Class Library : Type := {
  Template : Type;
  Formatter : Type;
  ReadString : string -> outcome Template;
  NewFormatter : Formatter;
  SetJSON : Formatter -> Formatter;
  SetCompact : Formatter -> Formatter;
  Format : Formatter -> Template -> string;
  VerifyOutput : Template -> string -> option string
}.

(** What becomes of a write.  [ioutil.WriteFile] opens the file, which
    empties it, writes the data and closes the file.  The file system may
    refuse to open it, and the file stays as it was; the write may break
    off after the file was emptied and leave the first bytes of the data,
    at most [n] of them, none when [n] is [0]; or all the data is
    written. *)
Inductive WriteFate : Set :=
| Refused
| Torn (n : nat)
| Written.

(** The files on disk, by name, what the file system will do with a write
    to each of them, and the lines written to the terminal. *)
Record Sys : Type := {
  files : gmap string string;
  fate : string -> WriteFate;
  printed : list string
}.

Definition Println (s : string) (sys : Sys) : Sys :=
  {| files := files sys; fate := fate sys; printed := printed sys ++ [s] |}.

(** [ioutil.WriteFile(fn, data, 0644)].  The command drops the error it
    returns, so only what the call did to the file is left of it. *)
Definition WriteFile (fn data : string) (sys : Sys) : Sys :=
  match fate sys fn with
  | Refused => sys
  | Torn n =>
      {| files := <[fn := String.substring 0 n data]> (files sys);
         fate := fate sys; printed := printed sys |}
  | Written =>
      {| files := <[fn := data]> (files sys);
         fate := fate sys; printed := printed sys |}
  end.

(** [ioutil.ReadFile(fn)]. *)
Definition ReadFile (fn : string) (sys : Sys) : outcome string :=
  match files sys !! fn with
  | Some data => Val data
  | None => Err ("open " +:+ fn +:+ ": no such file or directory")
  end.

Section Run.

Context `{lib : Library}.

(** The formatter as the flags set it up. *)
Definition formatterFor (flags : Flags) : Formatter :=
  let formatter := NewFormatter in
  let formatter := if jsonFlag flags then SetJSON formatter else formatter in
  if compactFlag flags then SetCompact formatter else formatter.

(** [fmtCmd.Run]. *)
Definition Run (flags : Flags) (args : list string) (sys : Sys) : result Sys :=
  match args !! 0%nat with
  | None => Panic "index out of range"
  | Some fn =>
      match ReadFile fn sys with
      | Err e => Panic ("Unable to read '" +:+ fn +:+ "': " +:+ e)
      | Val input =>
          match ReadString input with
          | Err e => Panic ("Unable to parse '" +:+ fn +:+ "': " +:+ e)
          | Val source =>
              let output := Format (formatterFor flags) source in
              if verifyFlag flags then
                if negb (String.eqb input output) then Panic output
                else Ok (Println "Formatted OK" sys)
              else
                match VerifyOutput source output with
                | Some e => Panic e
                | None =>
                    if writeFlag flags then Ok (WriteFile fn output sys)
                    else Ok (Println output sys)
                end
          end
      end
  end.

End Run.

End Fmt.

(** ** The CloudFormation client of [client/cfn/cfn.go] *)

(** [strings.HasSuffix]. *)
Definition HasSuffix (s suffix : string) : bool :=
  (String.length suffix <=? String.length s)%nat
  && String.eqb
       (String.substring (String.length s - String.length suffix)
          (String.length suffix) s)
       suffix.

Module Cfn.

(** An error of the SDK; [apiError] tells whether [errors.As] finds a
    [smithy.GenericAPIError] in it. *)
Record GoError : Set := {
  apiError : bool;
  text : string
}.

(** [types.StackSummary] and [types.Stack], with the fields read here. *)
Record StackSummary : Set := {
  StackName : string;
  SummaryStatus : string
}.

Record Stack : Set := {
  StackStatus : string
}.

(** [types.Tag]. *)
Record Tag : Set := {
  Key : string;
  Value : string
}.

Definition liveStatuses : list string :=
  ["CREATE_IN_PROGRESS"; "CREATE_FAILED"; "CREATE_COMPLETE";
   "ROLLBACK_IN_PROGRESS"; "ROLLBACK_FAILED"; "ROLLBACK_COMPLETE";
   "DELETE_IN_PROGRESS"; "DELETE_FAILED";
   "UPDATE_IN_PROGRESS"; "UPDATE_COMPLETE_CLEANUP_IN_PROGRESS";
   "UPDATE_COMPLETE"; "UPDATE_ROLLBACK_IN_PROGRESS";
   "UPDATE_ROLLBACK_FAILED";
   "UPDATE_ROLLBACK_COMPLETE_CLEANUP_IN_PROGRESS";
   "UPDATE_ROLLBACK_COMPLETE"; "REVIEW_IN_PROGRESS"].

(** [cloudformation.CreateChangeSetInput] as [CreateChangeSet] fills it. *)
Record ChangeSetInput : Type := {
  ChangeSetType : string;
  ChangeSetName : string;
  ForStack : string;
  TemplateBody : string;
  Tags : list Tag;
  Parameters : list StackParameter;
  Capabilities : list string
}.

(** The service behind [getClient()]: each call answers with an error or
    a result and leaves the account in a new state.  A page of a listing
    comes with the token of the next page, if there is one.  [Sleep] is
    [time.Sleep(time.Second * 2)], [Now] is [time.Now().Unix()],
    [FormatTemplate] is [format.Template] with no options, and
    [DescribeChangeSet name stack] answers with the status and the status
    reason of the change set. *)
Class Api : Type := {
  Account : Type;
  StackEvent : Type;
  ListStacksPage :
    option string -> list string -> Account ->
    (GoError + list StackSummary * option string) * Account;
  DescribeStackEventsPage :
    string -> option string -> Account ->
    (GoError + list StackEvent * option string) * Account;
  DescribeStacks : string -> Account -> (GoError + list Stack) * Account;
  Sleep : Account -> Account;
  CfnTemplate : Type;
  FormatTemplate : CfnTemplate -> string;
  Now : Account -> Z * Account;
  CreateChangeSetCall : ChangeSetInput -> Account -> option GoError * Account;
  DescribeChangeSet :
    string -> string -> Account -> (GoError + string * string) * Account
}.

(** [makeTags].  Go walks a map in no fixed order; [map_to_list] stands
    for the order it happens to take. *)
Definition makeTags (tags : gmap string string) : list Tag :=
  (fun kv => {| Key := fst kv; Value := snd kv |}) <$> map_to_list tags.

Section Paginate.

Context {W A : Type}.
Variable page : option string -> W -> (GoError + list A * option string) * W.

(** The loop shared by [ListStacks] and [GetStackEvents]: ask for a page,
    return what was gathered with the error if the call fails, append the
    page, stop when there is no next token.  [None] is a loop that has not
    ended within [fuel] calls. *)
Fixpoint paginate (fuel : nat) (gathered : list A) (token : option string)
    (w : W) : option ((list A * option GoError) * W) :=
  match fuel with
  | O => None
  | S fuel' =>
      match page token w with
      | (inl err, w') => Some ((gathered, Some err), w')
      | (inr (items, next), w') =>
          let gathered := gathered ++ items in
          match next with
          | None => Some ((gathered, None), w')
          | Some t => paginate fuel' gathered (Some t) w'
          end
      end
  end.

(** The service answers a listing started at [token] with these pages, one
    call each, and ends it with [err]: no further token after the last
    page, or a failed call. *)
Inductive Paged : option string -> W -> list (list A) -> option GoError -> W -> Prop :=
| Paged_last token w items w' :
    page token w = (inr (items, None), w') ->
    Paged token w [items] None w'
| Paged_failed token w err w' :
    page token w = (inl err, w') ->
    Paged token w [] (Some err) w'
| Paged_more token w items t w1 pages err w' :
    page token w = (inr (items, Some t), w1) ->
    Paged (Some t) w1 pages err w' ->
    Paged token w (items :: pages) err w'.

End Paginate.

Section Client.

Context `{api : Api}.

(** [ListStacks]. *)
Definition ListStacks (fuel : nat) (w : Account)
    : option ((list StackSummary * option GoError) * Account) :=
  paginate (fun token => ListStacksPage token liveStatuses) fuel [] None w.

(** [GetStackEvents]. *)
Definition GetStackEvents (fuel : nat) (stackName : string) (w : Account)
    : option ((list StackEvent * option GoError) * Account) :=
  paginate (DescribeStackEventsPage stackName) fuel [] None w.

(** [StackExists]. *)
Definition StackExists (fuel : nat) (stackName : string) (w : Account)
    : option ((bool * option GoError) * Account) :=
  match ListStacks fuel w with
  | None => None
  | Some ((stacks, Some err), w') => Some ((false, Some err), w')
  | Some ((stacks, None), w') =>
      Some ((existsb (fun s => String.eqb (StackName s) stackName) stacks, None),
            w')
  end.

(** [WaitUntilStackExists]. *)
Fixpoint WaitUntilStackExists (fuel : nat) (stackName : string) (w : Account)
    : option (option GoError * Account) :=
  match fuel with
  | O => None
  | S fuel' =>
      match DescribeStacks stackName w with
      | (inr _, w') => Some (None, w')
      | (inl err, w') =>
          if negb (apiError err) then Some (Some err, w')
          else WaitUntilStackExists fuel' stackName (Sleep w')
      end
  end.

(** [WaitUntilStackCreateComplete]. *)
Fixpoint WaitUntilStackCreateComplete (fuel : nat) (stackName : string)
    (w : Account) : option (option GoError * Account) :=
  match fuel with
  | O => None
  | S fuel' =>
      match DescribeStacks stackName w with
      | (inl err, w') => Some (Some err, w')
      | (inr stacks, w') =>
          match stacks with
          | [stack] =>
              if HasSuffix (StackStatus stack) "_COMPLETE"
                 || HasSuffix (StackStatus stack) "_FAILED"
              then Some (None, w')
              else WaitUntilStackCreateComplete fuel' stackName (Sleep w')
          | _ => Some (Some {| apiError := false; text := "Stack not found" |}, w')
          end
      end
  end.

(** The polling loop of [CreateChangeSet]. *)
Fixpoint awaitChangeSet (fuel : nat) (changeSetName stackName : string)
    (w : Account) : option ((string * option GoError) * Account) :=
  match fuel with
  | O => None
  | S fuel' =>
      match DescribeChangeSet changeSetName stackName w with
      | (inl err, w') => Some ((changeSetName, Some err), w')
      | (inr (status, reason), w') =>
          if String.eqb status "FAILED" then
            Some ((changeSetName,
                   Some {| apiError := false; text := reason |}), w')
          else if HasSuffix status "_COMPLETE" then
            Some ((changeSetName, None), w')
          else awaitChangeSet fuel' changeSetName stackName (Sleep w')
      end
  end.

(** [CreateChangeSet]. *)
Definition CreateChangeSet (fuel : nat) (template : CfnTemplate)
    (params : list StackParameter) (tags : gmap string string)
    (stackName : string) (w : Account)
    : option ((string * option GoError) * Account) :=
  let templateBody := FormatTemplate template in
  match StackExists fuel stackName w with
  | None => None
  | Some ((_, Some err), w1) => Some (("", Some err), w1)
  | Some ((found, None), w1) =>
      let changeSetType := if found then "UPDATE" else "CREATE" in
      let (seconds, w2) := Now w1 in
      let changeSetName := stackName +:+ "-" +:+ pretty seconds in
      match CreateChangeSetCall
              {| ChangeSetType := changeSetType;
                 ChangeSetName := changeSetName;
                 ForStack := stackName;
                 TemplateBody := templateBody;
                 Tags := makeTags tags;
                 Parameters := params;
                 Capabilities := ["CAPABILITY_NAMED_IAM";
                                  "CAPABILITY_AUTO_EXPAND"] |} w2 with
      | (Some err, w3) => Some ((changeSetName, Some err), w3)
      | (None, w3) => awaitChangeSet fuel changeSetName stackName w3
      end
  end.

End Client.

End Cfn.

(** ** More samples *)

Module Samples.

(** A deploy configuration that knows no parameter called [Name]. *)
Definition other : DeployConfig :=
  {| Params := [{| ParameterKey := "Other"; ParameterValue := "x" |}];
     Tags := [] |}.

Definition topicInputOther : PredictionInput unit :=
  {| source := []; stackName := "demo"; resource := [0; 1; 1]%nat;
     logicalId := "Topic"; stackExists := false; stack := tt;
     typeName := "AWS::SNS::Topic"; dc := other;
     env := {| partition := "aws"; region := "us-east-1";
               account := "755952356119" |};
     roleArn := "arn:aws:iam::755952356119:role/Admin" |}.

Definition topicResource : Node :=
  Demo.mapping 3 [Demo.scalar 3 "Type"; Demo.scalar 3 "AWS::SNS::Topic";
                  Demo.scalar 4 "Properties"; Demo.topicProperties].

(** Properties whose last key has lost its value. *)
Definition danglingProperties : Node :=
  Demo.mapping 5 [Demo.scalar 5 "TopicName"; Demo.scalar 5 "alerts";
                  Demo.scalar 6 "Orphan"].

Definition danglingResource : Node :=
  Demo.mapping 3 [Demo.scalar 3 "Type"; Demo.scalar 3 "AWS::SNS::Topic";
                  Demo.scalar 4 "Properties"; danglingProperties].

Definition danglingTemplate : Node :=
  Demo.document
    (Demo.mapping 1
       [Demo.scalar 1 "Resources";
        Demo.mapping 2 [Demo.scalar 2 "Topic"; danglingResource]]).

(** The second resource has no Type. *)
Definition untyped : Node :=
  Demo.mapping 7 [Demo.scalar 7 "Properties"; Demo.mapping 8 []].

Definition resourcesWithUntyped : Node :=
  Demo.mapping 2 [Demo.scalar 2 "Topic"; topicResource;
                  Demo.scalar 6 "Queue"; untyped].

Definition untypedTemplate : Node :=
  Demo.document
    (Demo.mapping 1 [Demo.scalar 1 "Resources"; resourcesWithUntyped]).

Definition resourcesOfTwo : Node :=
  Demo.mapping 2 [Demo.scalar 2 "Topic"; topicResource;
                  Demo.scalar 6 "Queue"; Demo.queueNode].

Definition rootOfTwo : Node :=
  Demo.mapping 1 [Demo.scalar 1 "Resources"; resourcesOfTwo].

(** A formatter that puts a comment mark in front of a text that has
    none, a parser that refuses the empty text. *)
Definition marker : Fmt.Library :=
  {| Fmt.Template := string;
     Fmt.Formatter := bool * bool;
     Fmt.ReadString := fun s => if String.eqb s "" then Err "empty template"
                                else Val s;
     Fmt.NewFormatter := (false, false);
     Fmt.SetJSON := fun f => (true, snd f);
     Fmt.SetCompact := fun f => (fst f, true);
     Fmt.Format := fun _ s => if String.prefix "# " s then s
                               else String "#" (String " " s);
     Fmt.VerifyOutput := fun _ _ => None |}.

Definition writeFlags : Fmt.Flags :=
  {| Fmt.compactFlag := false; Fmt.jsonFlag := false;
     Fmt.verifyFlag := false; Fmt.writeFlag := true |}.

Definition disk : Fmt.Sys :=
  {| Fmt.files := {[ "a.yaml" := "Resources: {}"; "b.yaml" := "# kept" ]};
     Fmt.fate := fun fn => if String.eqb fn "b.yaml" then Fmt.Torn 2
                           else Fmt.Written;
     Fmt.printed := [] |}.

Definition failure : Cfn.GoError := {| Cfn.apiError := false; Cfn.text := "timeout" |}.

(** An account that counts the calls it gets.  Its listings have two
    pages; a stack is in progress for the first two looks and has failed
    from the third on. *)
Definition counting : Cfn.Api :=
  {| Cfn.Account := nat;
     Cfn.StackEvent := string;
     Cfn.ListStacksPage := fun token _ w =>
       match token with
       | None =>
           (inr ([{| Cfn.StackName := "alpha"; Cfn.SummaryStatus := "CREATE_COMPLETE" |};
                  {| Cfn.StackName := "beta"; Cfn.SummaryStatus := "UPDATE_COMPLETE" |}],
                 Some "page2"), S w)
       | Some t =>
           if String.eqb t "page2" then
             (inr ([{| Cfn.StackName := "gamma"; Cfn.SummaryStatus := "CREATE_FAILED" |}],
                   None), S w)
           else (inl failure, S w)
       end;
     Cfn.DescribeStackEventsPage := fun _ token w =>
       match token with
       | None => (inr (["created"], Some "more"), S w)
       | Some _ => (inl failure, S w)
       end;
     Cfn.DescribeStacks := fun _ w =>
       (inr [{| Cfn.StackStatus := if (w <? 2)%nat then "CREATE_IN_PROGRESS"
                                   else "CREATE_FAILED" |}], S w);
     Cfn.Sleep := fun w => w;
     Cfn.CfnTemplate := string;
     Cfn.FormatTemplate := fun t => t;
     Cfn.Now := fun w => (1700000000%Z, w);
     Cfn.CreateChangeSetCall := fun _ w => (None, S w);
     Cfn.DescribeChangeSet := fun _ _ w => (inr ("CREATE_COMPLETE", ""), S w) |}.

(** An account in which the stack [ghost] never comes to exist and every
    other stack is being created for ever. *)
Definition pending : Cfn.Api :=
  {| Cfn.Account := nat;
     Cfn.StackEvent := string;
     Cfn.ListStacksPage := fun _ _ w => (inr ([], None), S w);
     Cfn.DescribeStackEventsPage := fun _ _ w => (inr ([], None), S w);
     Cfn.DescribeStacks := fun name w =>
       if String.eqb name "ghost" then
         (inl {| Cfn.apiError := true;
                 Cfn.text := "Stack with id ghost does not exist" |}, S w)
       else (inr [{| Cfn.StackStatus := "CREATE_IN_PROGRESS" |}], S w);
     Cfn.Sleep := fun w => w;
     Cfn.CfnTemplate := string;
     Cfn.FormatTemplate := fun t => t;
     Cfn.Now := fun w => (1700000000%Z, w);
     Cfn.CreateChangeSetCall := fun _ w => (None, S w);
     Cfn.DescribeChangeSet := fun _ _ w => (inr ("CREATE_PENDING", ""), S w) |}.



End Samples.

(** * Properties *)

(** ** Induction on node trees and on lists taken two at a time *)

Lemma Node_ind (P : Node -> Prop) :
  (forall k v l cs, Forall P cs -> P (mkNode k v l cs)) ->
  forall n, P n.
Proof.
  intros step.
  fix IH 1.
  intros [k v l cs]. apply step.
  induction cs as [|c cs IHcs]; constructor.
  - apply IH.
  - exact IHcs.
Qed.

Lemma list_pair_ind {A} (P : list A -> Prop) :
  P [] -> (forall x, P [x]) -> (forall x y l, P l -> P (x :: y :: l)) ->
  forall l, P l.
Proof.
  intros Hnil Hone Hstep l.
  assert (H : P l /\ forall x, P (x :: l)).
  { induction l as [|y l [IH1 IH2]]; split; auto. }
  exact (proj1 H).
Qed.

Lemma YamlKind_eqb_eq a b : YamlKind_eqb a b = true <-> a = b.
Proof. destruct a, b; simpl; split; intros; congruence. Qed.

Lemma YamlKind_eqb_refl a : YamlKind_eqb a a = true.
Proof. destruct a; reflexivity. Qed.

(** ** The resolver *)

Section Resolver.

Variable dc : DeployConfig.

#[local] Abbreviation paramValue := (paramValue dc).
#[local] Abbreviation resolveEach := (resolveEach dc).
#[local] Abbreviation resolved := (resolved dc).
#[local] Abbreviation mapValues := (mapValues dc).

Lemma assignParam_scalar prop v param :
  assignParam prop (scalarNode v) param = scalarNode v.
Proof. unfold assignParam. destruct (String.eqb _ _); reflexivity. Qed.

Lemma fold_assignParam_scalar prop v params :
  fold_left (assignParam prop) params (scalarNode v) = scalarNode v.
Proof.
  induction params as [|param params IH]; simpl; [reflexivity|].
  rewrite assignParam_scalar. exact IH.
Qed.

(** On a mapping parent the parameter loop writes the first match, once. *)
Lemma rangeParams_mapping prop parent :
  Kind parent = MappingNode ->
  rangeParams dc prop parent =
  match paramValue (Value prop) with
  | Some v => scalarNode v
  | None => parent
  end.
Proof.
  intros Hk. unfold rangeParams, paramValue.
  induction (Params dc) as [|param params IH]; simpl; [reflexivity|].
  unfold assignParam at 2. rewrite Hk. simpl.
  destruct (String.eqb (ParameterKey param) (Value prop)).
  - apply fold_assignParam_scalar.
  - exact IH.
Qed.

Lemma rangeParams_other prop parent :
  Kind parent <> MappingNode -> rangeParams dc prop parent = parent.
Proof.
  intros Hk. unfold rangeParams.
  induction (Params dc) as [|param params IH]; simpl; [reflexivity|].
  assert (Hp : assignParam prop parent param = parent).
  { unfold assignParam. destruct (String.eqb _ _); [|reflexivity].
    destruct (YamlKind_eqb (Kind parent) MappingNode) eqn:E; [|reflexivity].
    apply YamlKind_eqb_eq in E. contradiction. }
  rewrite Hp. exact IH.
Qed.

(** [resolveParamRefs] unfolded once, with its loops named. *)
Lemma resolveParamRefs_unfold name prop parent :
  resolveParamRefs name prop dc parent =
  if isRefScalar name prop then Ok (TouchedParent (rangeParams dc prop parent))
  else if YamlKind_eqb (Kind prop) MappingNode then
    touchedProp (resolvePairs dc (Content prop) 0 prop)
  else if YamlKind_eqb (Kind prop) SequenceNode then
    touchedProp (resolveEach (Content prop) 0 prop)
  else Ok (TouchedProp prop).
Proof.
  destruct prop as [k v l cs]. unfold isRefScalar. simpl.
  destruct (String.eqb name "Ref" && YamlKind_eqb k ScalarNode); [reflexivity|].
  destruct (YamlKind_eqb k MappingNode).
  - generalize (mkNode k v l cs) as cur. generalize 0%nat as i.
    induction cs as [| x | x y rest IH] using list_pair_ind; intros i cur.
    + simpl. destruct (negb _); reflexivity.
    + simpl. destruct (negb _); reflexivity.
    + simpl. destruct (negb _); [reflexivity|].
      destruct (resolveParamRefs (Value x) y dc cur) as [[cur'|v']|m];
        [apply IH | apply IH | reflexivity].
  - destruct (YamlKind_eqb k SequenceNode); [|reflexivity].
    generalize (mkNode k v l cs) as cur. generalize 0%nat as j.
    induction cs as [|x rest IH]; intros j cur; simpl; [reflexivity|].
    destruct (resolveParamRefs "" x dc cur) as [[cur'|p']|m];
      [apply IH | apply IH | reflexivity].
Qed.

(** Outside the first branch neither the name nor the parent matters. *)
Lemma resolveParamRefs_prop name prop parent :
  isRefScalar name prop = false ->
  resolveParamRefs name prop dc parent = resolveParamRefs "" prop dc prop.
Proof.
  intros Hb. rewrite !resolveParamRefs_unfold. rewrite Hb.
  reflexivity.
Qed.

(** *** Well-formed trees resolve without a panic *)

Lemma wellFormed_unfold n :
  wellFormed n =
  (if YamlKind_eqb (Kind n) MappingNode then Nat.even (length (Content n))
   else true)
  && forallb wellFormed (Content n).
Proof.
  destruct n as [k v l cs]. reflexivity.
Qed.

Lemma wellFormed_children n :
  wellFormed n = true -> Forall (fun c => wellFormed c = true) (Content n).
Proof.
  rewrite wellFormed_unfold. intros H.
  apply andb_prop in H as [_ H]. apply Forall_forall. intros c Hc.
  rewrite forallb_forall in H. apply H, list_elem_of_In, Hc.
Qed.

Lemma wellFormed_mapping_even n :
  wellFormed n = true -> Kind n = MappingNode ->
  Nat.even (length (Content n)) = true.
Proof.
  rewrite wellFormed_unfold. intros H Hk. rewrite Hk in H. simpl in H.
  apply andb_prop in H as [H _]. exact H.
Qed.

Lemma isRefScalar_empty prop : isRefScalar "" prop = false.
Proof. reflexivity. Qed.

Lemma resolvePairs_total todo :
  Nat.even (length todo) = true ->
  Forall (fun c => exists c', resolveParamRefs "" c dc c = Ok (TouchedProp c')) todo ->
  forall i cur, exists n', resolvePairs dc todo i cur = Ok n'.
Proof.
  induction todo as [| x | x y rest IH] using list_pair_ind;
    intros Hev Hall i cur; simpl.
  - destruct (negb _); eauto.
  - discriminate Hev.
  - destruct (negb _); [eauto|].
    inversion Hall as [|? ? _ Hall']; subst.
    inversion Hall' as [|? ? [y' Hy] Hrest]; subst.
    destruct (isRefScalar (Value x) y) eqn:Hb.
    + rewrite resolveParamRefs_unfold, Hb. apply IH; assumption.
    + rewrite (resolveParamRefs_prop _ _ _ Hb), Hy. apply IH; assumption.
Qed.

Lemma resolveEach_total todo :
  Forall (fun c => exists c', resolveParamRefs "" c dc c = Ok (TouchedProp c')) todo ->
  forall j cur, exists n', resolveEach todo j cur = Ok n'.
Proof.
  induction todo as [|x rest IH]; intros Hall j cur; simpl; [eauto|].
  inversion Hall as [|? ? [x' Hx] Hrest]; subst.
  rewrite (resolveParamRefs_prop _ _ cur (isRefScalar_empty x)), Hx.
  apply IH; assumption.
Qed.

Lemma resolveParamRefs_wellFormed prop :
  wellFormed prop = true ->
  exists prop', resolveParamRefs "" prop dc prop = Ok (TouchedProp prop').
Proof.
  induction prop as [k v l cs IH] using Node_ind. intros Hwf.
  pose proof (wellFormed_children _ Hwf) as Hcs. simpl in Hcs.
  assert (Hall : Forall (fun c => exists c',
              resolveParamRefs "" c dc c = Ok (TouchedProp c')) cs).
  { apply Forall_forall. intros c Hc.
    rewrite Forall_forall in IH, Hcs. apply IH; auto. }
  rewrite resolveParamRefs_unfold, isRefScalar_empty. simpl.
  destruct (YamlKind_eqb k MappingNode) eqn:Hk.
  - apply YamlKind_eqb_eq in Hk.
    pose proof (wellFormed_mapping_even _ Hwf Hk) as Hev. simpl in Hev.
    destruct (resolvePairs_total cs Hev Hall 0%nat (mkNode k v l cs)) as [n' Hn].
    rewrite Hn. simpl. eauto.
  - destruct (YamlKind_eqb k SequenceNode); [|eauto].
    destruct (resolveEach_total cs Hall 0%nat (mkNode k v l cs)) as [n' Hn].
    rewrite Hn. simpl. eauto.
Qed.

Lemma resolveParamRefs_resolved name prop parent :
  wellFormed prop = true -> isRefScalar name prop = false ->
  resolveParamRefs name prop dc parent = Ok (TouchedProp (resolved prop)).
Proof.
  intros Hwf Hb. rewrite (resolveParamRefs_prop _ _ _ Hb).
  unfold resolved.
  destruct (resolveParamRefs_wellFormed prop Hwf) as [prop' ->]. reflexivity.
Qed.

(** *** The shape of a resolved tree *)

Lemma withContent_same n : withContent n (Content n) = n.
Proof. destruct n; reflexivity. Qed.

Lemma ltb_length_app {A} (done todo : list A) :
  (length done <? length (done ++ todo))%nat = negb (Nat.eqb (length todo) 0).
Proof.
  rewrite length_app. destruct todo as [|a todo]; simpl.
  - rewrite Nat.add_0_r. apply Nat.ltb_irrefl.
  - apply Nat.ltb_lt. lia.
Qed.

(** The mapping loop over pairs with plain keys resolves each value where
    it stands and goes on with the rest. *)
Lemma resolvePairs_app pre :
  Nat.even (length pre) = true -> plainKeys pre = true ->
  Forall (fun c => wellFormed c = true) pre ->
  forall rest done cur,
    Content cur = done ++ pre ++ rest ->
    resolvePairs dc (pre ++ rest) (length done) cur =
    resolvePairs dc rest (length done + length pre)
      (withContent cur (done ++ mapValues pre ++ rest)).
Proof.
  induction pre as [| x | x y pre IH] using list_pair_ind;
    intros Hev Hplain Hwf rest done cur Hcur.
  - simpl in Hcur |- *.
    rewrite Nat.add_0_r, <- Hcur, withContent_same. reflexivity.
  - discriminate Hev.
  - simpl in Hplain. apply andb_prop in Hplain as [Hx Hplain].
    inversion Hwf as [|? ? _ Hwf']; subst.
    inversion Hwf' as [|? ? Hy Hwf'']; subst.
    cbn [app resolvePairs].
    rewrite Hcur, ltb_length_app. cbn [length Nat.eqb negb].
    assert (Hb : isRefScalar (Value x) y = false).
    { unfold isRefScalar. apply negb_true_iff in Hx. rewrite Hx. reflexivity. }
    rewrite (resolveParamRefs_resolved _ _ cur Hy Hb).
    specialize (IH Hev Hplain Hwf'' rest (done ++ [x; resolved y])
                  (setChild cur (S (length done)) (resolved y))).
    replace (length (done ++ [x; resolved y])) with (S (S (length done))) in IH
      by (rewrite length_app; simpl; lia).
    rewrite IH.
    + f_equal; [simpl; lia|].
      unfold withContent, setChild. simpl. f_equal.
      rewrite <- !app_assoc. reflexivity.
    + unfold setChild. simpl. rewrite Hcur.
      rewrite insert_app_r_alt by lia.
      replace (S (length done) - length done)%nat with 1%nat by lia.
      rewrite <- app_assoc. reflexivity.
Qed.

Lemma resolveEach_spec todo :
  Forall (fun c => wellFormed c = true) todo ->
  forall done cur,
    Content cur = done ++ todo ->
    resolveEach todo (length done) cur =
    Ok (withContent cur (done ++ map resolved todo)).
Proof.
  induction todo as [|x todo IH]; intros Hwf done cur Hcur.
  - simpl. rewrite <- Hcur, withContent_same. reflexivity.
  - inversion Hwf as [|? ? Hx Hwf']; subst.
    cbn [resolveEach].
    rewrite (resolveParamRefs_resolved _ _ cur Hx (isRefScalar_empty x)).
    specialize (IH Hwf' (done ++ [resolved x])
                  (setChild cur (length done) (resolved x))).
    replace (length (done ++ [resolved x])) with (S (length done)) in IH
      by (rewrite length_app; simpl; lia).
    rewrite IH.
    + unfold withContent, setChild. simpl. rewrite <- !app_assoc. reflexivity.
    + unfold setChild. simpl. rewrite Hcur.
      rewrite insert_app_r_alt by lia.
      replace (length done - length done)%nat with 0%nat by lia.
      rewrite <- app_assoc. reflexivity.
Qed.

Lemma resolvePairs_nil i cur : resolvePairs dc [] i cur = Ok cur.
Proof. simpl. destruct (negb _); reflexivity. Qed.

(** A mapping with plain keys keeps its shape: each value is resolved. *)
Lemma resolved_mapping n :
  Kind n = MappingNode -> wellFormed n = true -> plainKeys (Content n) = true ->
  resolved n = withContent n (mapValues (Content n)).
Proof.
  intros Hk Hwf Hplain. unfold resolved.
  rewrite resolveParamRefs_unfold, isRefScalar_empty, Hk. simpl.
  pose proof (resolvePairs_app (Content n)
                (wellFormed_mapping_even _ Hwf Hk) Hplain
                (wellFormed_children _ Hwf) [] [] n) as H.
  cbn [length app Nat.add] in H. rewrite !app_nil_r in H.
  rewrite H by reflexivity.
  rewrite resolvePairs_nil. reflexivity.
Qed.

(** A sequence keeps its shape: each element is resolved. *)
Lemma resolved_sequence n :
  Kind n = SequenceNode -> wellFormed n = true ->
  resolved n = withContent n (map resolved (Content n)).
Proof.
  intros Hk Hwf. unfold resolved.
  rewrite resolveParamRefs_unfold, isRefScalar_empty, Hk. simpl.
  pose proof (resolveEach_spec (Content n) (wellFormed_children _ Hwf) [] n) as H.
  cbn [length app] in H. rewrite H by reflexivity.
  reflexivity.
Qed.

Lemma mapValues_lookup_odd content j c :
  Nat.odd j = true -> content !! j = Some c ->
  mapValues content !! j = Some (resolved c).
Proof.
  revert j. induction content as [| x | x y rest IH] using list_pair_ind;
    intros j Hodd Hj.
  - discriminate Hj.
  - destruct j as [|[|j]]; discriminate.
  - destruct j as [|[|j]]; simpl in *.
    + discriminate Hodd.
    + congruence.
    + apply IH; [|exact Hj]. exact Hodd.
Qed.

(** *** References *)

Lemma resolved_reference P n :
  isReference P n = true ->
  resolved n = match paramValue P with
               | Some V => scalarNode V
               | None => n
               end.
Proof.
  unfold isReference. intros H. apply andb_prop in H as [Hk H].
  apply YamlKind_eqb_eq in Hk.
  destruct n as [kd val l cs]. simpl in Hk, H. subst kd.
  destruct cs as [|k [|v [|? ?]]]; try discriminate H.
  apply andb_prop in H as [H HP]. apply andb_prop in H as [Hname Hv].
  apply String.eqb_eq in HP. subst P.
  unfold resolved. rewrite resolveParamRefs_unfold, isRefScalar_empty.
  cbn [Kind YamlKind_eqb Content resolvePairs length Nat.ltb Nat.leb negb].
  rewrite resolveParamRefs_unfold. unfold isRefScalar. rewrite Hname, Hv.
  cbn [andb]. rewrite rangeParams_mapping by reflexivity.
  destruct (paramValue (Value v)); reflexivity.
Qed.


Lemma refAt_resolved P p : forall n,
  wellFormed n = true -> refAt P p n = true ->
  exists ref,
    nodeAt p n = Some ref /\ isReference P ref = true /\
    nodeAt p (resolved n) =
    Some (match paramValue P with
          | Some V => scalarNode V
          | None => ref
          end).
Proof.
  induction p as [|j p IH]; intros n Hwf Href; simpl in Href.
  - exists n. split; [reflexivity|]. split; [exact Href|].
    rewrite (resolved_reference P n Href). simpl.
    destruct (paramValue P); reflexivity.
  - destruct (Content n !! j) as [c|] eqn:Hc; [|discriminate].
    apply andb_prop in Href as [Hrec Hshape].
    assert (Hwfc : wellFormed c = true).
    { pose proof (wellFormed_children _ Hwf) as Hall.
      rewrite Forall_forall in Hall. apply Hall.
      apply list_elem_of_lookup. eauto. }
    destruct (IH c Hwfc Hrec) as (ref & Hat & Hisref & Hres).
    exists ref. split; [simpl; rewrite Hc; exact Hat|]. split; [exact Hisref|].
    assert (Hlk : Content (resolved n) !! j = Some (resolved c)).
    { apply orb_prop in Hshape as [Hseq|Hmap].
      - apply YamlKind_eqb_eq in Hseq.
        rewrite (resolved_sequence n Hseq Hwf). simpl.
        rewrite list_lookup_fmap, Hc. reflexivity.
      - apply andb_prop in Hmap as [Hmap Hplain].
        apply andb_prop in Hmap as [Hk Hodd]. apply YamlKind_eqb_eq in Hk.
        rewrite (resolved_mapping n Hk Hwf Hplain). simpl.
        apply mapValues_lookup_odd; assumption. }
    simpl. rewrite Hlk. exact Hres.
Qed.


End Resolver.

(** ** Pointers into the document *)

Lemma nodeAt_app p q root :
  nodeAt (p ++ q) root =
  match nodeAt p root with
  | Some n => nodeAt q n
  | None => None
  end.
Proof.
  revert root. induction p as [|j p IH]; intros root; simpl; [reflexivity|].
  destruct (Content root !! j); [apply IH | reflexivity].
Qed.

Lemma nodeAt_storeAt_below p q n root r :
  nodeAt p root = Some r ->
  nodeAt p (storeAt (p ++ q) n root) = Some (storeAt q n r).
Proof.
  revert root. induction p as [|j p IH]; intros root Hr; simpl in *.
  - congruence.
  - destruct (Content root !! j) as [c|] eqn:Hc; [|discriminate].
    simpl. rewrite list_lookup_insert_eq by (eapply lookup_lt_Some; eauto).
    apply IH, Hr.
Qed.

Lemma nodeAt_storeAt_same p n root :
  is_Some (nodeAt p root) -> nodeAt p (storeAt p n root) = Some n.
Proof.
  intros [r Hr]. pose proof (nodeAt_storeAt_below p [] n root r Hr) as H.
  rewrite app_nil_r in H. exact H.
Qed.

Lemma storeAt_child j n r :
  is_Some (Content r !! j) -> storeAt [j] n r = setChild r j n.
Proof. intros [c Hc]. simpl. rewrite Hc. reflexivity. Qed.

(** A write below [p] leaves the pointer [p] valid. *)
Lemma nodeAt_storeAt_valid p q n root :
  is_Some (nodeAt p root) -> is_Some (nodeAt p (storeAt (p ++ q) n root)).
Proof.
  intros [r Hr]. rewrite (nodeAt_storeAt_below p q n root r Hr). eauto.
Qed.

(** ** The accumulator *)

Lemma Append_zeroForecast f : Append f zeroForecast = f.
Proof. destruct f. unfold Append. simpl. rewrite !app_nil_r. reflexivity. Qed.

Lemma GetNumChecked_Add ln f passed message :
  GetNumChecked (Add ln f passed message) = S (GetNumChecked f).
Proof.
  unfold GetNumChecked, Add. destruct passed; simpl; rewrite length_app; simpl; lia.
Qed.

Lemma GetNumChecked_Append f g :
  GetNumChecked (Append f g) = (GetNumChecked f + GetNumChecked g)%nat.
Proof. unfold GetNumChecked, Append. simpl. rewrite !length_app. lia. Qed.

(** ** The pipeline *)

Section PipelineFacts.

Context `{ext : External}.
Variable flags : Flags.

Lemma getMapValue_lookup m name j v :
  getMapValue m name = Some (j, v) -> Content m !! j = Some v.
Proof.
  unfold getMapValue. destruct (GetMapValue m name) as [i|]; [|discriminate].
  destruct (Content m !! i) eqn:E; [|discriminate]. congruence.
Qed.

(** What [resolveRefs] leaves behind: the Properties node after the loop,
    everything else untouched. *)
Lemma resolveRefs_props input st r j props props' :
  nodeAt (resource input) (doc st) = Some r ->
  getMapValue r "Properties" = Some (j, props) ->
  resolvePairs (dc input) (Content props) 0 props = Ok props' ->
  resolveRefs input st =
  Ok (tt, {| amb := amb st;
             doc := storeAt (resource input ++ [j]) props' (doc st);
             stdout := stdout st |}).
Proof.
  intros Hr Hp Hres. unfold resolveRefs, bind, deref, liftResult, store.
  rewrite Hr, Hp, Hres. reflexivity.
Qed.

Lemma resolveRefs_no_props input st r :
  nodeAt (resource input) (doc st) = Some r ->
  getMapValue r "Properties" = None ->
  resolveRefs input st = Ok (tt, st).
Proof.
  intros Hr Hp. unfold resolveRefs, bind, deref, ret. rewrite Hr, Hp.
  reflexivity.
Qed.

(** On a valid input [resolveRefs] returns; the resource keeps its line
    and every pointer above it stays good. *)
Lemma resolveRefs_valid input st :
  validInput input st = true ->
  exists d r r',
    nodeAt (resource input) (doc st) = Some r /\
    resolveRefs input st = Ok (tt, {| amb := amb st; doc := d; stdout := stdout st |}) /\
    nodeAt (resource input) d = Some r' /\ Line r' = Line r /\
    is_Some (nodeAt (source input) d).
Proof.
  unfold validInput. intros H. apply andb_prop in H as [Hpre H].
  apply bool_decide_eq_true in Hpre. destruct Hpre as [q Hq].
  destruct (nodeAt (resource input) (doc st)) as [r|] eqn:Hr; [|discriminate].
  apply andb_prop in H as [Hwf Hpaired].
  assert (Hsrc : is_Some (nodeAt (source input) (doc st))).
  { rewrite Hq, nodeAt_app in Hr.
    destruct (nodeAt (source input) (doc st)); [eauto | discriminate]. }
  unfold propertiesPaired in Hpaired.
  destruct (getMapValue r "Properties") as [[j props]|] eqn:Hp.
  - pose proof (getMapValue_lookup _ _ _ _ Hp) as Hj.
    assert (Hwfp : wellFormed props = true).
    { pose proof (wellFormed_children _ Hwf) as Hall.
      rewrite Forall_forall in Hall. apply Hall.
      apply list_elem_of_lookup. eauto. }
    destruct (resolvePairs_total (dc input) (Content props) Hpaired) with
      (i := 0%nat) (cur := props) as [props' Hres].
    { pose proof (wellFormed_children _ Hwfp) as Hall.
      apply Forall_forall. intros c Hc. rewrite Forall_forall in Hall.
      apply resolveParamRefs_wellFormed, Hall, Hc. }
    exists (storeAt (resource input ++ [j]) props' (doc st)), r, (setChild r j props').
    split; [reflexivity|].
    split; [eapply resolveRefs_props; eauto|].
    split; [|split].
    + rewrite (nodeAt_storeAt_below _ [j] props' _ r Hr).
      rewrite storeAt_child by eauto. reflexivity.
    + reflexivity.
    + rewrite Hq, <- app_assoc. apply nodeAt_storeAt_valid, Hsrc.
  - exists (doc st), r, r. split; [reflexivity|].
    rewrite (resolveRefs_no_props input st r Hr Hp).
    destruct st; simpl in *. auto.
Qed.

(** *** Stepping through the state *)

Lemma bind_Ok {A B} (m : M A) (k : A -> M B) st b st' :
  bind m k st = Ok (b, st') ->
  exists a st1, m st = Ok (a, st1) /\ k a st1 = Ok (b, st').
Proof.
  unfold bind. destruct (m st) as [[a st1]|msg]; [eauto | discriminate].
Qed.

Lemma keeps_same_doc p st st' : doc st' = doc st -> keeps p st st'.
Proof. unfold keeps. intros ->. auto. Qed.

Lemma keeps_trans p st1 st2 st3 :
  keeps p st1 st2 -> keeps p st2 st3 -> keeps p st1 st3.
Proof. unfold keeps. auto. Qed.

Lemma deref_Ok p st n st' :
  deref p st = Ok (n, st') -> st' = st /\ nodeAt p (doc st) = Some n.
Proof.
  unfold deref. destruct (nodeAt p (doc st)); [|discriminate].
  intros H. inversion H. auto.
Qed.

Lemma callWorld_doc {A} (f : World -> A * World) st a st' :
  callWorld f st = Ok (a, st') -> doc st' = doc st.
Proof.
  unfold callWorld. destruct (f _). intros H. inversion H. reflexivity.
Qed.

Lemma callAmbient_doc {A} (f : Node -> Ambient World -> A * Ambient World)
    st a st' :
  callAmbient f st = Ok (a, st') -> doc st' = doc st.
Proof.
  unfold callAmbient. destruct (f _ _). intros H. inversion H. reflexivity.
Qed.

Lemma resolveRefs_keeps input st u st' p :
  p `prefix_of` resource input ->
  resolveRefs input st = Ok (u, st') -> keeps p st st'.
Proof.
  intros [q Hq] H. unfold resolveRefs in H.
  apply bind_Ok in H as (r & st1 & Hr & H). apply deref_Ok in Hr as [-> Hr].
  destruct (getMapValue r "Properties") as [[j props]|].
  - apply bind_Ok in H as (props' & st2 & Hres & H).
    unfold liftResult in Hres. destruct (resolvePairs _ _ _ _); [|discriminate].
    inversion Hres; subst. unfold store in H. inversion H; subst.
    unfold keeps. simpl. rewrite Hq, <- app_assoc. apply nodeAt_storeAt_valid.
  - inversion H. apply keeps_same_doc. reflexivity.
Qed.

Lemma resolveAndProbe_keeps input st f st' p :
  p `prefix_of` resource input ->
  resolveAndProbe input st = Ok (f, st') -> keeps p st st'.
Proof.
  intros Hp H. unfold resolveAndProbe in H.
  apply bind_Ok in H as (u & st1 & H1 & H).
  apply (resolveRefs_keeps _ _ _ _ p Hp) in H1.
  apply bind_Ok in H as (r & st2 & H2 & H). apply deref_Ok in H2 as [-> _].
  apply bind_Ok in H as (t & st3 & H3 & H). apply deref_Ok in H3 as [-> _].
  apply bind_Ok in H as (found & st4 & H4 & H). apply callWorld_doc in H4.
  eapply keeps_trans; [exact H1|]. apply keeps_same_doc. rewrite <- H4.
  destruct found.
  - unfold add in H. inversion H. reflexivity.
  - apply bind_Ok in H as (u' & st5 & H5 & H).
    unfold setLineNumber in H5. inversion H5; subst.
    unfold add in H. inversion H. reflexivity.
Qed.

Lemma runForecaster_eq (input : PredictionInput Stack) f (st : St World) :
  runForecaster input f st =
  match forecasters !! typeName input with
  | Some fn =>
      let '(f', am) := fn input (doc st) (amb st) in
      Ok (Append f f', {| amb := am; doc := doc st; stdout := stdout st |})
  | None => Ok (f, st)
  end.
Proof.
  unfold runForecaster. destruct (forecasters !! typeName input) as [fn|].
  - unfold bind, callAmbient, ret. destruct (fn input (doc st) (amb st)).
    reflexivity.
  - reflexivity.
Qed.

Lemma runForecaster_doc input f st f' st' :
  runForecaster input f st = Ok (f', st') -> doc st' = doc st.
Proof.
  rewrite runForecaster_eq. destruct (forecasters !! typeName input) as [fn|].
  - destruct (fn input (doc st) (amb st)). intros H. inversion H. reflexivity.
  - intros H. inversion H. reflexivity.
Qed.

Lemma forecastForType_keeps input st f st' p :
  p `prefix_of` resource input ->
  forecastForType flags input st = Ok (f, st') -> keeps p st st'.
Proof.
  intros Hp H. unfold forecastForType in H.
  destruct (negb _ && negb _).
  { inversion H. apply keeps_same_doc. reflexivity. }
  apply bind_Ok in H as (f1 & st1 & H1 & H).
  apply (resolveAndProbe_keeps _ _ _ _ p Hp) in H1.
  eapply keeps_trans; [exact H1|]. apply keeps_same_doc.
  destruct (negb (SkipIAM flags)).
  - apply bind_Ok in H as ([f2 err] & st2 & H2 & H).
    apply callAmbient_doc in H2. rewrite <- H2.
    destruct err.
    + inversion H. reflexivity.
    + eapply runForecaster_doc, H.
  - eapply runForecaster_doc, H.
Qed.

Lemma makeInput_Ok src stackName stack stackExists dc resources i st input st' :
  makeInput flags src stackName stack stackExists dc resources i st
  = Ok (input, st') ->
  source input = src /\ resource input = resources ++ [S i] /\
  doc st' = doc st.
Proof.
  unfold makeInput. intros H.
  apply bind_Ok in H as (r & st1 & H1 & H). apply deref_Ok in H1 as [-> _].
  apply bind_Ok in H as (u & st2 & H2 & H).
  unfold setLineNumber in H2. inversion H2; subst; clear H2.
  apply bind_Ok in H as (rs & st3 & H3 & H). apply deref_Ok in H3 as [-> _].
  destruct (Content rs !! S i); [|discriminate].
  destruct (getMapValue _ "Type") as [[j typeNode]|]; [|discriminate].
  apply bind_Ok in H as (reg & st4 & H4 & H). apply callWorld_doc in H4.
  apply bind_Ok in H as (caller & st5 & H5 & H). apply callWorld_doc in H5.
  destruct caller as [callerArn|]; [|discriminate].
  destruct (negb _); [discriminate|].
  inversion H; subst. simpl. rewrite H5, H4. auto.
Qed.

Lemma predictResource_keeps source stackName stack stackExists dc resources i
    forecast st f st' :
  source `prefix_of` resources ->
  predictResource flags source stackName stack stackExists dc resources i
    forecast st = Ok (f, st') ->
  keeps source st st'.
Proof.
  intros [q Hq] H. unfold predictResource in H.
  apply bind_Ok in H as (input & st1 & H1 & H).
  apply makeInput_Ok in H1 as (Hs & Hr & Hd).
  apply bind_Ok in H as (f1 & st2 & H2 & H). inversion H; subst st'.
  eapply keeps_trans; [apply keeps_same_doc, Hd|].
  eapply forecastForType_keeps; [|exact H2].
  rewrite Hr. exists (q ++ [S i]). rewrite Hq, <- app_assoc. reflexivity.
Qed.

Lemma rangeResources_keeps source stackName stack stackExists dc resources todo :
  source `prefix_of` resources ->
  forall i forecast st f st',
    rangeResources flags source stackName stack stackExists dc resources todo i
      forecast st = Ok (f, st') ->
    keeps source st st'.
Proof.
  intros Hp. induction todo as [|x todo IH]; intros i forecast st f st' H.
  - inversion H. apply keeps_same_doc. reflexivity.
  - cbn [rangeResources] in H. destruct (Nat.odd i).
    + eapply IH, H.
    + apply bind_Ok in H as (f1 & st1 & H1 & H).
      eapply keeps_trans; [eapply predictResource_keeps; eauto|].
      eapply IH, H.
Qed.

Lemma predictAll_keeps source stackName stack stackExists dc st top st' :
  predictAll flags source stackName stack stackExists dc st = Ok (top, st') ->
  is_Some (nodeAt source (doc st')).
Proof.
  unfold predictAll. intros H.
  apply bind_Ok in H as (root & st1 & H1 & H). apply deref_Ok in H1 as [-> Hroot].
  destruct (Content root !! 0%nat); [|discriminate].
  destruct (getMapValue _ "Resources") as [[j resources]|]; [|discriminate].
  eapply rangeResources_keeps in H.
  - apply H. eauto.
  - exists [0%nat; j]. reflexivity.
Qed.

(** *** The report *)

Lemma printAll_Ok colour reasons st :
  exists st', printAll colour reasons st = Ok (tt, st').
Proof.
  revert st. induction reasons as [|reason rest IH]; intros st; simpl.
  - unfold ret. eauto.
  - unfold bind, println. apply IH.
Qed.

Lemma report_Ok forecast totalSeconds st :
  exists st',
    report flags forecast totalSeconds st
    = Ok (Nat.eqb (GetNumFailed forecast) 0, st').
Proof.
  unfold report.
  destruct (GetNumFailed forecast) as [|n] eqn:Hn; cbn [Nat.ltb Nat.leb Nat.eqb].
  - unfold bind, println, ret. destruct (all flags).
    + destruct (printAll_Ok Green (Passed forecast)
                  {| amb := amb st; doc := doc st;
                     stdout := (stdout st ++ [Green ("Clear skies! 🌞 All "
                        +:+ pretty (GetNumChecked forecast)
                        +:+ " checks passed. Estimated time: "
                        +:+ FormatEstimate totalSeconds)]) ++ [Plain ""] |})
        as [st' Hst'].
      cbn [amb doc stdout]. rewrite Hst'. eauto.
    + eauto.
  - unfold bind at 1 2 3. unfold println at 1 2 3. cbn [amb doc stdout].
    unfold bind at 1.
    match goal with |- context [printAll Red ?l ?s] =>
      destruct (printAll_Ok Red l s) as [st1 H1]; rewrite H1 end.
    unfold bind, ret. destruct (all flags).
    + unfold println. cbn [amb doc stdout].
      match goal with |- context [printAll Green ?l ?s] =>
        destruct (printAll_Ok Green l s) as [st2 H2]; rewrite H2 end.
      eauto.
    + eauto.
Qed.

End PipelineFacts.

(** ** Reference resolution *)




Section ResolveRefs.

Context `{ext : External}.


(** The same on the document: below a Properties mapping, a reference is
    resolved where it stands in the template. *)
Lemma resolveRefs_reference (input : PredictionInput Stack) (st : St World)
    (r props : Node) (j : nat) (P : string) (p : loc) :
  nodeAt (resource input) (doc st) = Some r ->
  getMapValue r "Properties" = Some (j, props) ->
  Kind props = MappingNode ->
  wellFormed props = true ->
  refAt P p props = true ->
  exists st' ref,
    resolveRefs input st = Ok (tt, st') /\
    nodeAt ((resource input ++ [j]) ++ p) (doc st) = Some ref /\
    isReference P ref = true /\
    nodeAt ((resource input ++ [j]) ++ p) (doc st')
    = Some (match paramValue (dc input) P with
            | Some V =>
                {| Kind := ScalarNode; Value := V; Line := 0; Content := [] |}
            | None => ref
            end).
Proof.
  intros Hr Hp Hk Hwf Href.
  destruct (refAt_resolved (dc input) P p props Hwf Href)
    as (ref & Hat & Hisref & Hres).
  pose proof (getMapValue_lookup _ _ _ _ Hp) as Hj.
  assert (Hprops : nodeAt (resource input ++ [j]) (doc st) = Some props).
  { rewrite nodeAt_app, Hr. simpl. rewrite Hj. reflexivity. }
  assert (Hpairs : resolvePairs (dc input) (Content props) 0 props
                   = Ok (resolved (dc input) props)).
  { pose proof (resolveParamRefs_resolved (dc input) "" props props Hwf
                  (isRefScalar_empty props)) as H.
    rewrite resolveParamRefs_unfold, isRefScalar_empty, Hk in H. simpl in H.
    destruct (resolvePairs (dc input) (Content props) 0 props);
      simpl in H; congruence. }
  exists {| amb := amb st;
            doc := storeAt (resource input ++ [j]) (resolved (dc input) props)
                     (doc st);
            stdout := stdout st |}, ref.
  split; [eapply resolveRefs_props; eauto|].
  split; [rewrite nodeAt_app, Hprops; exact Hat|].
  split; [exact Hisref|].
  cbn [doc]. rewrite nodeAt_app, nodeAt_storeAt_same by eauto. exact Hres.
Qed.

End ResolveRefs.


(** ** The per-resource pipeline *)

Section ForecastForType.

Context `{ext : External}.
Variable flags : Flags.

Lemma passesFilter_guard typeName :
  passesFilter flags typeName = true ->
  negb (String.eqb (ResourceType flags) "")
  && negb (String.eqb (ResourceType flags) typeName) = false.
Proof.
  unfold passesFilter. intros H. rewrite <- negb_orb, H. reflexivity.
Qed.

(** On a valid input the first two steps return: the references are
    resolved, then the probe is asked about the resolved resource, and its
    answer is the one entry of the accumulator. *)
Lemma resolveAndProbe_valid (input : PredictionInput Stack) (st : St World) :
  validInput input st = true ->
  exists st1 r1 template found w2,
    resolveRefs input st = Ok (tt, st1) /\
    amb st1 = amb st /\ stdout st1 = stdout st /\
    nodeAt (resource input) (doc st1) = Some r1 /\
    nodeAt (source input) (doc st1) = Some template /\
    ResourceAlreadyExists (typeName input) r1 (stackExists input) template
      (dc input) (world (amb st1)) = (found, w2) /\
    resolveAndProbe input st =
    Ok (Add (if found then LineNumber (amb st) else Line r1)
          (makeForecast (typeName input) (logicalId input)) (negb found)
          (if found then "Already exists" else "Does not exist"),
        {| amb := {| LineNumber := if found then LineNumber (amb st) else Line r1;
                     world := w2 |};
           doc := doc st1; stdout := stdout st |}).
Proof.
  intros Hvalid.
  destruct (resolveRefs_valid input st Hvalid)
    as (d & r & r1 & Hr & Hres & Hr1 & Hline & [template Ht]).
  destruct (ResourceAlreadyExists (typeName input) r1 (stackExists input)
              template (dc input) (world (amb st))) as [found w2] eqn:Hprobe.
  eexists _, r1, template, found, w2.
  split; [exact Hres|]. cbn [amb doc stdout].
  repeat (split; [first [reflexivity | assumption]|]).
  unfold resolveAndProbe, bind. rewrite Hres.
  unfold deref. cbn [doc]. rewrite Hr1. cbn [doc]. rewrite Ht.
  unfold callWorld. cbn [amb]. rewrite Hprobe.
  destruct found; reflexivity.
Qed.

(** C9.  A resource whose type differs from a non-empty [--type] filter
    gets the empty forecast made for it: no entry of any kind, no call to
    a collaborator, and a document left as it was. *)
Theorem forecastForType_filtered (input : PredictionInput Stack) (st : St World) :
  ResourceType flags <> "" ->
  ResourceType flags <> typeName input ->
  exists f,
    forecastForType flags input st = Ok (f, st) /\
    Passed f = [] /\ Failed f = [] /\ GetNumChecked f = 0%nat.
Proof.
  intros Hne Hty. exists (makeForecast (typeName input) (logicalId input)).
  unfold forecastForType.
  apply String.eqb_neq in Hne, Hty. rewrite Hne, Hty. simpl. auto.
Qed.

(** C8 (as amended).  A resource that passes the [--type] filter, whose
    type has no registered predictor, with permission checking switched
    off, gets exactly one entry, the one of the existence probe: a pass
    entry "Does not exist" when the probe answers no, a fail entry
    "Already exists" when it answers yes. *)
Theorem forecastForType_generic_only (input : PredictionInput Stack)
    (st : St World) :
  passesFilter flags (typeName input) = true ->
  validInput input st = true ->
  SkipIAM flags = true ->
  forecasters !! typeName input = None ->
  exists st1 r1 template found w2 f st',
    resolveRefs input st = Ok (tt, st1) /\
    nodeAt (resource input) (doc st1) = Some r1 /\
    nodeAt (source input) (doc st1) = Some template /\
    ResourceAlreadyExists (typeName input) r1 (stackExists input) template
      (dc input) (world (amb st1)) = (found, w2) /\
    forecastForType flags input st = Ok (f, st') /\
    GetNumChecked f = 1%nat /\
    (found = false ->
     Passed f = [pretty (Line r1) +:+ ": " +:+ typeName input +:+ " "
                 +:+ logicalId input +:+ " - " +:+ "Does not exist"]
     /\ Failed f = []) /\
    (found = true ->
     Passed f = []
     /\ Failed f = [pretty (LineNumber (amb st)) +:+ ": " +:+ typeName input
                    +:+ " " +:+ logicalId input +:+ " - " +:+ "Already exists"]).
Proof.
  intros Hpass Hvalid Hskip Hnone.
  destruct (resolveAndProbe_valid input st Hvalid)
    as (st1 & r1 & template & found & w2 & Hres & _ & _ & Hr1 & Ht & Hprobe & Hrun).
  eexists st1, r1, template, found, w2, _, _.
  repeat (split; [eassumption|]).
  split.
  { unfold forecastForType. rewrite (passesFilter_guard _ Hpass).
    unfold bind. rewrite Hrun, Hskip. cbn [negb].
    rewrite runForecaster_eq, Hnone. reflexivity. }
  split; [apply GetNumChecked_Add|].
  split; intros ->; split; reflexivity.
Qed.

(** C4 (as amended).  For a resource that passes the [--type] filter the
    steps run in this order, each on the state the one before left:
    (a) reference resolution; (b) the existence probe, on the resolved
    resource, whose entry opens the accumulator; (c) unless [SkipIAM],
    the permission check, handed that accumulator; (d) when the permission
    check gave no error, the predictor registered for the type, if any,
    whose entries are appended to what (c) returned.  When the permission
    check errors the result is the empty [Forecast{}] and (d) does not
    run. *)
Theorem forecastForType_order (input : PredictionInput Stack) (st : St World) :
  passesFilter flags (typeName input) = true ->
  validInput input st = true ->
  exists st1 r1 template found w2 f1 st2,
    (* (a) *)
    resolveRefs input st = Ok (tt, st1) /\
    amb st1 = amb st /\
    nodeAt (resource input) (doc st1) = Some r1 /\
    nodeAt (source input) (doc st1) = Some template /\
    (* (b) *)
    ResourceAlreadyExists (typeName input) r1 (stackExists input) template
      (dc input) (world (amb st1)) = (found, w2) /\
    f1 = Add (if found then LineNumber (amb st) else Line r1)
           (makeForecast (typeName input) (logicalId input)) (negb found)
           (if found then "Already exists" else "Does not exist") /\
    st2 = {| amb := {| LineNumber := if found then LineNumber (amb st)
                                     else Line r1;
                       world := w2 |};
             doc := doc st1; stdout := stdout st |} /\
    (* (c), (d) *)
    let predictor (f2 : Forecast) (am : Ambient World) :=
      match forecasters !! typeName input with
      | Some fn =>
          let '(f3, am') := fn input (doc st1) am in
          Ok (Append f2 f3, {| amb := am'; doc := doc st1; stdout := stdout st |})
      | None => Ok (f2, {| amb := am; doc := doc st1; stdout := stdout st |})
      end in
    forecastForType flags input st =
    if SkipIAM flags then predictor f1 (amb st2)
    else
      let '((f2, err), am) := checkPermissions input (doc st1) f1 (amb st2) in
      match err with
      | Some _ =>
          Ok (zeroForecast, {| amb := am; doc := doc st1; stdout := stdout st |})
      | None => predictor f2 am
      end.
Proof.
  intros Hpass Hvalid.
  destruct (resolveAndProbe_valid input st Hvalid)
    as (st1 & r1 & template & found & w2 & Hres & Hamb & _ & Hr1 & Ht & Hprobe & Hrun).
  eexists st1, r1, template, found, w2, _, _.
  repeat (split; [first [eassumption | reflexivity]|]).
  cbv zeta. unfold forecastForType. rewrite (passesFilter_guard _ Hpass).
  unfold bind at 1. rewrite Hrun.
  destruct (SkipIAM flags); cbn [negb].
  - rewrite runForecaster_eq. reflexivity.
  - unfold bind, callAmbient. cbn [amb doc stdout].
    destruct (checkPermissions _ _ _ _) as [[f2 err] am].
    destruct err; [reflexivity|]. rewrite runForecaster_eq. reflexivity.
Qed.

(** C1 (as amended).  When the permission check of a resource returns an
    error, [forecastForType] gives up what it had collected for that
    resource and returns the empty [Forecast{}]; the predictor is not
    run.  Appending it changes nothing: the top-level accumulator still
    holds every entry of the resources before, and the loop body returns
    normally. *)
Theorem permission_error_drops_one_resource
    (src : loc) (stackName : string) (stack : Stack) (stackExists : bool)
    (dc : DeployConfig) (resources : loc) (i : nat) (top : Forecast)
    (st : St World) (input : PredictionInput Stack) (st0 : St World)
    (f1 : Forecast) (st2 : St World) (f2 : Forecast) (e : string)
    (am : Ambient World) :
  makeInput flags src stackName stack stackExists dc resources i st
  = Ok (input, st0) ->
  passesFilter flags (typeName input) = true ->
  SkipIAM flags = false ->
  resolveAndProbe input st0 = Ok (f1, st2) ->
  checkPermissions input (doc st2) f1 (amb st2) = ((f2, Some e), am) ->
  let st3 := {| amb := am; doc := doc st2; stdout := stdout st2 |} in
  forecastForType flags input st0 = Ok (zeroForecast, st3) /\
  predictResource flags src stackName stack stackExists dc resources i top st
  = Ok (top, st3).
Proof.
  intros Hinput Hpass Hskip Hrun Hperm st3.
  assert (Hf : forecastForType flags input st0 = Ok (zeroForecast, st3)).
  { unfold forecastForType. rewrite (passesFilter_guard _ Hpass).
    unfold bind at 1. rewrite Hrun, Hskip. cbn [negb].
    unfold bind, callAmbient. rewrite Hperm. reflexivity. }
  split; [exact Hf|].
  unfold predictResource, bind. rewrite Hinput, Hf.
  unfold ret. rewrite Append_zeroForecast. reflexivity.
Qed.

End ForecastForType.

(** ** The run *)

Section Predict.

Context `{ext : External}.
Variable flags : Flags.

(** C2 (as amended).  A template without a Resources section (the lookup
    of [Resources] in the root mapping finds nothing) makes [predict]
    panic: there is no forecast, nothing is printed, and the process ends
    with a non-zero status. *)
Theorem predict_missing_Resources (src : loc) (stackName : string)
    (stack : Stack) (stackExists : bool) (dc : DeployConfig) (st : St World)
    (root rootMap : Node) :
  nodeAt src (doc st) = Some root ->
  Content root !! 0%nat = Some rootMap ->
  getMapValue rootMap "Resources" = None ->
  predictAll flags src stackName stack stackExists dc st
  = Panic "Expected to find a Resources section in the template" /\
  predict flags src stackName stack stackExists dc st
  = Panic "Expected to find a Resources section in the template" /\
  exitStatus (predict flags src stackName stack stackExists dc st) <> 0%Z.
Proof.
  intros Hroot Hmap Hres.
  assert (Hall : predictAll flags src stackName stack stackExists dc st
                 = Panic "Expected to find a Resources section in the template").
  { unfold predictAll, bind, deref. rewrite Hroot, Hmap, Hres. reflexivity. }
  assert (Hp : predict flags src stackName stack stackExists dc st
               = Panic "Expected to find a Resources section in the template").
  { unfold predict, bind. rewrite Hall. reflexivity. }
  rewrite Hp. repeat split; [assumption | discriminate].
Qed.

(** C5.  The verdict of [predict] is [GetNumFailed() == 0] of the
    top-level forecast: without a failure message the process ends with
    status 0, with one or more it ends with a non-zero status. *)
Theorem predict_verdict (src : loc) (stackName : string) (stack : Stack)
    (stackExists : bool) (dc : DeployConfig) (st : St World)
    (top : Forecast) (st1 : St World) :
  predictAll flags src stackName stack stackExists dc st = Ok (top, st1) ->
  exists st',
    predict flags src stackName stack stackExists dc st
    = Ok (Nat.eqb (GetNumFailed top) 0, st') /\
    (GetNumFailed top = 0%nat ->
     exitStatus (predict flags src stackName stack stackExists dc st) = 0%Z) /\
    ((0 < GetNumFailed top)%nat ->
     exitStatus (predict flags src stackName stack stackExists dc st) <> 0%Z).
Proof.
  intros Hall.
  destruct (predictAll_keeps flags _ _ _ _ _ _ _ _ Hall) as [template Ht].
  destruct (report_Ok flags top (PredictTotalEstimate template stackExists) st1)
    as [st' Hrep].
  assert (Hp : predict flags src stackName stack stackExists dc st
               = Ok (Nat.eqb (GetNumFailed top) 0, st')).
  { unfold predict, bind. rewrite Hall. unfold deref. rewrite Ht. exact Hrep. }
  exists st'. rewrite Hp. split; [reflexivity|]. split.
  - intros ->. reflexivity.
  - intros Hpos. destruct (GetNumFailed top); [lia|]. simpl. discriminate.
Qed.

(** C7.  The total estimate is the sum of [estimate] over the resources of
    the template, every one with the action read off the stack-exists
    flag, and [estimate] is the table entry or 1 when there is none; so a
    template whose resource types are all unknown to the table is
    estimated at one second per resource. *)
Theorem PredictTotalEstimate_sum (template : Node) (stackExists : bool) :
  PredictTotalEstimate template stackExists
  = foldr Z.add 0%Z
      (map (fun r => estimate (typeNameOf r) (actionFor stackExists))
         (resourcesOf template)) /\
  (forall typeName action,
      estimate typeName action = default 1%Z (Estimates !! (typeName, action))) /\
  ((forall r, r ∈ resourcesOf template ->
              Estimates !! (typeNameOf r, actionFor stackExists) = None) ->
   PredictTotalEstimate template stackExists
   = Z.of_nat (length (resourcesOf template))).
Proof.
  assert (Hsum : forall action content,
             sumEstimates action content
             = foldr Z.add 0%Z
                 (map (fun r => estimate (typeNameOf r) action)
                    (resourceNodes content))).
  { intros action content.
    induction content as [| x | x y rest IH] using list_pair_ind;
      simpl; congruence. }
  assert (Htotal : PredictTotalEstimate template stackExists
            = foldr Z.add 0%Z
                (map (fun r => estimate (typeNameOf r) (actionFor stackExists))
                   (resourcesOf template))).
  { unfold PredictTotalEstimate, resourcesOf.
    destruct (Content template !! 0%nat) as [rootMap|]; [|reflexivity].
    destruct (getMapValue rootMap "Resources") as [[j resources]|];
      [apply Hsum | reflexivity]. }
  split; [exact Htotal|]. split.
  - intros typeName action. unfold estimate, GetResourceEstimate.
    destruct (Estimates !! (typeName, action)); reflexivity.
  - rewrite Htotal. generalize (resourcesOf template) as rs.
    induction rs as [|r rs IH]; intros Hunknown; [reflexivity|].
    cbn [map foldr length]. rewrite IH.
    + unfold estimate, GetResourceEstimate.
      rewrite (Hunknown r) by (apply list_elem_of_here). lia.
    + intros r' Hr'. apply Hunknown. apply list_elem_of_further, Hr'.
Qed.

End Predict.

(** ** The accumulator invariant *)

(** C6.  For every forecast, checked = passed + failed; [Add] keeps it and
    counts one more check on the side it was told, [Append] keeps it and
    adds the counts of the two forecasts. *)
Theorem GetNumChecked_invariant (f : Forecast) :
  GetNumChecked f = (GetNumPassed f + GetNumFailed f)%nat /\
  (forall (ln : Z) (passed : bool) (message : string),
      let f' := Add ln f passed message in
      GetNumChecked f' = (GetNumPassed f' + GetNumFailed f')%nat /\
      GetNumPassed f' = (GetNumPassed f + if passed then 1 else 0)%nat /\
      GetNumFailed f' = (GetNumFailed f + if passed then 0 else 1)%nat) /\
  (forall g : Forecast,
      let f' := Append f g in
      GetNumChecked f' = (GetNumPassed f' + GetNumFailed f')%nat /\
      GetNumPassed f' = (GetNumPassed f + GetNumPassed g)%nat /\
      GetNumFailed f' = (GetNumFailed f + GetNumFailed g)%nat).
Proof.
  split; [reflexivity|]. split.
  - intros ln passed message f'. split; [reflexivity|].
    unfold f', GetNumPassed, GetNumFailed, Add.
    destruct passed; simpl; rewrite ?length_app; simpl; lia.
  - intros g f'. split; [reflexivity|].
    unfold f', GetNumPassed, GetNumFailed, Append. simpl.
    rewrite !length_app. lia.
Qed.

(** ** The theorems at work on the recording account *)

Lemma forecastForType_filtered_witness :
  ResourceType Demo.flagsOnlyBuckets <> "" /\
  ResourceType Demo.flagsOnlyBuckets <> typeName Demo.queueInput /\
  (exists f,
     @forecastForType Demo.quiet Demo.flagsOnlyBuckets Demo.queueInput
       (Demo.start Demo.twoResources)
     = Ok (f, Demo.start Demo.twoResources) /\
     Passed f = [] /\ Failed f = [] /\ GetNumChecked f = 0%nat).
Proof.
  assert (H1 : ResourceType Demo.flagsOnlyBuckets <> "") by discriminate.
  assert (H2 : ResourceType Demo.flagsOnlyBuckets <> typeName Demo.queueInput)
    by discriminate.
  split; [exact H1|]. split; [exact H2|].
  exact (@forecastForType_filtered Demo.quiet Demo.flagsOnlyBuckets
           Demo.queueInput (Demo.start Demo.twoResources) H1 H2).
Defined.

(** With [--type AWS::S3::Bucket --skip-iam] a queue, which has no
    predictor, gets no entry at all. *)
Lemma forecastForType_generic_only_filtered :
  @forecasters Demo.quiet !! typeName Demo.queueInput = None /\
  SkipIAM Demo.flagsOnlyBuckets = true /\
  @forecastForType Demo.quiet Demo.flagsOnlyBuckets Demo.queueInput
    (Demo.start Demo.twoResources)
  = Ok (makeForecast "AWS::SQS::Queue" "Queue", Demo.start Demo.twoResources) /\
  GetNumChecked (makeForecast "AWS::SQS::Queue" "Queue") = 0%nat.
Proof.
  repeat split; vm_compute; reflexivity.
Qed.

Lemma forecastForType_generic_only_witness :
  let ext := Demo.quiet in
  let flags := Demo.flagsSkipIAM in
  let input := Demo.topicInput in
  let st := Demo.start Demo.twoResources in
  passesFilter flags (typeName input) = true /\
  @validInput ext input st = true /\
  SkipIAM flags = true /\
  @forecasters ext !! typeName input = None /\
  (exists st1 r1 template found w2 f st',
     @resolveRefs ext input st = Ok (tt, st1) /\
     nodeAt (resource input) (doc st1) = Some r1 /\
     nodeAt (source input) (doc st1) = Some template /\
     @ResourceAlreadyExists ext (typeName input) r1 (stackExists input) template
       (dc input) (world (amb st1)) = (found, w2) /\
     @forecastForType ext flags input st = Ok (f, st') /\
     GetNumChecked f = 1%nat /\
     (found = false ->
      Passed f = [pretty (Line r1) +:+ ": " +:+ typeName input +:+ " "
                  +:+ logicalId input +:+ " - " +:+ "Does not exist"]
      /\ Failed f = []) /\
     (found = true ->
      Passed f = []
      /\ Failed f = [pretty (LineNumber (amb st)) +:+ ": " +:+ typeName input
                     +:+ " " +:+ logicalId input +:+ " - " +:+ "Already exists"])).
Proof.
  intros ext flags input st.
  assert (H1 : passesFilter flags (typeName input) = true) by reflexivity.
  assert (H2 : @validInput ext input st = true) by (vm_compute; reflexivity).
  assert (H3 : SkipIAM flags = true) by reflexivity.
  assert (H4 : @forecasters ext !! typeName input = None)
    by (vm_compute; reflexivity).
  repeat (split; [assumption|]).
  exact (@forecastForType_generic_only ext flags input st H1 H2 H3 H4).
Defined.

(** Two ways in which a step is left out: the [--type] filter skips all
    of them, nothing is resolved and no collaborator is called; an error
    of the permission check skips the registered predictor and leaves no
    entry behind. *)
Lemma forecastForType_order_broken :
  @forecastForType Demo.throttled Demo.flagsOnlyBuckets Demo.topicInput
    (Demo.start Demo.twoResources)
  = Ok (makeForecast "AWS::SNS::Topic" "Topic", Demo.start Demo.twoResources)
  /\
  is_Some (@forecasters Demo.throttled !! typeName Demo.queueInput) /\
  @forecastForType Demo.throttled Demo.flagsDefault Demo.queueInput
    (Demo.start Demo.twoResources)
  = Ok (zeroForecast,
        {| amb := {| LineNumber := 7;
                     world := [Demo.CallExists "AWS::SQS::Queue" Demo.queueNode;
                               Demo.CallPermissions "Queue" Demo.queueProbed] |};
           doc := Demo.twoResources; stdout := [] |}).
Proof.
  split; [vm_compute; reflexivity|].
  split; [|vm_compute; reflexivity].
  vm_compute. eauto.
Qed.

Lemma forecastForType_order_witness :
  let ext := Demo.throttled in
  let flags := Demo.flagsDefault in
  let input := Demo.topicInput in
  let st := Demo.start Demo.twoResources in
  passesFilter flags (typeName input) = true /\
  @validInput ext input st = true /\
  (exists st1 r1 template found w2 f1 st2,
     @resolveRefs ext input st = Ok (tt, st1) /\
     amb st1 = amb st /\
     nodeAt (resource input) (doc st1) = Some r1 /\
     nodeAt (source input) (doc st1) = Some template /\
     @ResourceAlreadyExists ext (typeName input) r1 (stackExists input) template
       (dc input) (world (amb st1)) = (found, w2) /\
     f1 = Add (if found then LineNumber (amb st) else Line r1)
            (makeForecast (typeName input) (logicalId input)) (negb found)
            (if found then "Already exists" else "Does not exist") /\
     st2 = {| amb := {| LineNumber := if found then LineNumber (amb st)
                                      else Line r1;
                        world := w2 |};
              doc := doc st1; stdout := stdout st |} /\
     let predictor (f2 : Forecast) (am : Ambient (@World ext)) :=
       match @forecasters ext !! typeName input with
       | Some fn =>
           let '(f3, am') := fn input (doc st1) am in
           Ok (Append f2 f3, {| amb := am'; doc := doc st1; stdout := stdout st |})
       | None => Ok (f2, {| amb := am; doc := doc st1; stdout := stdout st |})
       end in
     @forecastForType ext flags input st =
     if SkipIAM flags then predictor f1 (amb st2)
     else
       let '((f2, err), am) := @checkPermissions ext input (doc st1) f1 (amb st2) in
       match err with
       | Some _ =>
           Ok (zeroForecast, {| amb := am; doc := doc st1; stdout := stdout st |})
       | None => predictor f2 am
       end).
Proof.
  intros ext flags input st.
  assert (H1 : passesFilter flags (typeName input) = true) by reflexivity.
  assert (H2 : @validInput ext input st = true) by (vm_compute; reflexivity).
  split; [exact H1|]. split; [exact H2|].
  exact (@forecastForType_order ext flags input st H1 H2).
Defined.

(** The simulator breaks down on [Queue], the second resource; the
    top-level forecast still carries the three entries of [Topic]. *)
Lemma permission_error_top_level_not_empty :
  exists top st',
    @predictAll Demo.throttled Demo.flagsDefault [] "demo" tt false Demo.named
      (Demo.start Demo.twoResources) = Ok (top, st') /\
    last (world (amb st')) = Some (Demo.CallPermissions "Queue" Demo.queueProbed) /\
    snd (fst (@checkPermissions Demo.throttled Demo.queueInput (doc st')
                Demo.queueProbed (amb st'))) = Some "throttled" /\
    top = {| TypeName := ""; LogicalId := "";
             Passed := ["3: AWS::SNS::Topic Topic - Does not exist";
                        "3: AWS::SNS::Topic Topic - may create"];
             Failed := ["3: AWS::SNS::Topic Topic - bucket not empty"] |} /\
    GetNumChecked top = 3%nat.
Proof.
  eexists _, _. split; [vm_compute; reflexivity|].
  repeat split; vm_compute; reflexivity.
Qed.

Lemma permission_error_drops_one_resource_witness :
  let ext := Demo.throttled in
  let flags := Demo.flagsDefault in
  let top := Add 3 (makeForecast "" "") true "Topic is fine" in
  let st := Demo.start Demo.twoResources in
  let st0 : St (@World ext) :=
    {| amb := {| LineNumber := 6; world := [Demo.CallIdentity] |};
       doc := Demo.twoResources; stdout := [] |} in
  let st2 : St (@World ext) :=
    {| amb := {| LineNumber := 7;
                 world := [Demo.CallIdentity;
                           Demo.CallExists "AWS::SQS::Queue" Demo.queueNode] |};
       doc := Demo.twoResources; stdout := [] |} in
  let f2 := Add 7 Demo.queueProbed true "may create" in
  let am : Ambient (@World ext) :=
    {| LineNumber := 7;
       world := [Demo.CallIdentity;
                 Demo.CallExists "AWS::SQS::Queue" Demo.queueNode;
                 Demo.CallPermissions "Queue" Demo.queueProbed] |} in
  @makeInput ext flags [] "demo" tt false Demo.named [0; 1]%nat 2 st
  = Ok (Demo.queueInput, st0) /\
  passesFilter flags (typeName Demo.queueInput) = true /\
  SkipIAM flags = false /\
  @resolveAndProbe ext Demo.queueInput st0 = Ok (Demo.queueProbed, st2) /\
  @checkPermissions ext Demo.queueInput (doc st2) Demo.queueProbed (amb st2)
  = ((f2, Some "throttled"), am) /\
  (let st3 := {| amb := am; doc := doc st2; stdout := stdout st2 |} in
   @forecastForType ext flags Demo.queueInput st0 = Ok (zeroForecast, st3) /\
   @predictResource ext flags [] "demo" tt false Demo.named [0; 1]%nat 2 top st
   = Ok (top, st3)).
Proof.
  intros ext flags top st st0 st2 f2 am.
  assert (H1 : @makeInput ext flags [] "demo" tt false Demo.named [0; 1]%nat 2 st
               = Ok (Demo.queueInput, st0)) by (vm_compute; reflexivity).
  assert (H2 : passesFilter flags (typeName Demo.queueInput) = true)
    by reflexivity.
  assert (H3 : SkipIAM flags = false) by reflexivity.
  assert (H4 : @resolveAndProbe ext Demo.queueInput st0
               = Ok (Demo.queueProbed, st2)) by (vm_compute; reflexivity).
  assert (H5 : @checkPermissions ext Demo.queueInput (doc st2) Demo.queueProbed
                 (amb st2) = ((f2, Some "throttled"), am))
    by (vm_compute; reflexivity).
  repeat (split; [assumption|]).
  exact (@permission_error_drops_one_resource ext flags [] "demo" tt false
           Demo.named [0; 1]%nat 2%nat top st Demo.queueInput st0
           Demo.queueProbed st2 f2 "throttled" am H1 H2 H3 H4 H5).
Defined.

(** A Resources section that is there and empty: no panic, an empty
    forecast, the verdict of success and exit status 0. *)
Lemma predict_empty_Resources_succeeds :
  @getMapValue Demo.quiet
    (Demo.mapping 1 [Demo.scalar 1 "Resources"; Demo.mapping 1 []]) "Resources"
  = Some (1%nat, Demo.mapping 1 []) /\
  @predictAll Demo.quiet Demo.flagsDefault [] "demo" tt false Demo.named
    (Demo.start Demo.emptyResources)
  = Ok (makeForecast "" "", Demo.start Demo.emptyResources) /\
  @predict Demo.quiet Demo.flagsDefault [] "demo" tt false Demo.named
    (Demo.start Demo.emptyResources)
  = Ok (true,
        {| amb := {| LineNumber := 0; world := [] |};
           doc := Demo.emptyResources;
           stdout := [Green "Clear skies! 🌞 All 0 checks passed. Estimated time: 0 seconds"] |}) /\
  exitStatus (@predict Demo.quiet Demo.flagsDefault [] "demo" tt false Demo.named
                (Demo.start Demo.emptyResources)) = 0%Z.
Proof.
  repeat split; vm_compute; reflexivity.
Qed.

Lemma predict_missing_Resources_witness :
  let ext := Demo.quiet in
  let flags := Demo.flagsDefault in
  let st := Demo.start Demo.noResources in
  let rootMap := Demo.mapping 1 [Demo.scalar 1 "Description";
                                 Demo.scalar 1 "nothing here"] in
  nodeAt [] (doc st) = Some Demo.noResources /\
  Content Demo.noResources !! 0%nat = Some rootMap /\
  @getMapValue ext rootMap "Resources" = None /\
  (@predictAll ext flags [] "demo" tt false Demo.named st
   = Panic "Expected to find a Resources section in the template" /\
   @predict ext flags [] "demo" tt false Demo.named st
   = Panic "Expected to find a Resources section in the template" /\
   exitStatus (@predict ext flags [] "demo" tt false Demo.named st) <> 0%Z).
Proof.
  intros ext flags st rootMap.
  assert (H1 : nodeAt [] (doc st) = Some Demo.noResources) by reflexivity.
  assert (H2 : Content Demo.noResources !! 0%nat = Some rootMap) by reflexivity.
  assert (H3 : @getMapValue ext rootMap "Resources" = None)
    by (vm_compute; reflexivity).
  repeat (split; [assumption|]).
  exact (@predict_missing_Resources ext flags [] "demo" tt false Demo.named st
           Demo.noResources rootMap H1 H2 H3).
Defined.

Lemma predict_verdict_witness :
  let ext := Demo.throttled in
  let flags := Demo.flagsDefault in
  let st := Demo.start Demo.twoResources in
  exists top st1,
    @predictAll ext flags [] "demo" tt false Demo.named st = Ok (top, st1) /\
    GetNumFailed top = 1%nat /\
    (exists st',
       @predict ext flags [] "demo" tt false Demo.named st
       = Ok (Nat.eqb (GetNumFailed top) 0, st') /\
       (GetNumFailed top = 0%nat ->
        exitStatus (@predict ext flags [] "demo" tt false Demo.named st) = 0%Z) /\
       ((0 < GetNumFailed top)%nat ->
        exitStatus (@predict ext flags [] "demo" tt false Demo.named st) <> 0%Z)).
Proof.
  intros ext flags st.
  eexists _, _. split; [vm_compute; reflexivity|].
  split; [reflexivity|].
  eapply (@predict_verdict ext flags [] "demo" tt false Demo.named st).
  vm_compute. reflexivity.
Defined.

Lemma PredictTotalEstimate_sum_witness :
  (forall r, r ∈ @resourcesOf Demo.quiet Demo.twoResources ->
             @Estimates Demo.quiet !! (@typeNameOf Demo.quiet r, actionFor true)
             = None) /\
  @PredictTotalEstimate Demo.quiet Demo.twoResources true = 2%Z /\
  @PredictTotalEstimate Demo.quiet Demo.twoResources false = (5 + (1 + 0))%Z.
Proof.
  assert (H : forall r, r ∈ @resourcesOf Demo.quiet Demo.twoResources ->
                @Estimates Demo.quiet !! (@typeNameOf Demo.quiet r, actionFor true)
                = None).
  { intros r Hr. apply list_elem_of_In in Hr. vm_compute in Hr.
    destruct Hr as [<-|[<-|[]]]; vm_compute; reflexivity. }
  split; [exact H|]. split.
  - exact (proj2 (proj2 (@PredictTotalEstimate_sum Demo.quiet Demo.twoResources
                           true)) H).
  - exact (proj1 (@PredictTotalEstimate_sum Demo.quiet Demo.twoResources false)).
Defined.

(** ** Two runs from start to end *)

(** One resource without a predictor, no stack yet, [--skip-iam], and the
    probe finds nothing: one check passed, none failed, exit status 0. *)
Example predict_clear_skies :
  @predict Demo.quiet Demo.flagsSkipIAM [] "demo" tt false Demo.named
    (Demo.start Demo.oneQueue)
  = Ok (true,
        {| amb := {| LineNumber := 3;
                     world := [Demo.CallIdentity;
                               Demo.CallExists "AWS::SQS::Queue" Demo.queueNode3] |};
           doc := Demo.oneQueue;
           stdout := [Green "Clear skies! 🌞 All 1 checks passed. Estimated time: 1 seconds"] |}).
Proof. vm_compute. reflexivity. Qed.

(** The same with a queue that exists already: one check failed, exit
    status 1. *)
Example predict_stormy_weather :
  @predict Demo.crowded Demo.flagsSkipIAM [] "demo" tt false Demo.named
    (Demo.start Demo.oneQueue)
  = Ok (false,
        {| amb := {| LineNumber := 2;
                     world := [Demo.CallIdentity;
                               Demo.CallExists "AWS::SQS::Queue" Demo.queueNode3] |};
           doc := Demo.oneQueue;
           stdout := [Red "Stormy weather ahead! 🌪"; Plain "";
                      Red "1 checks failed out of 1 total checks";
                      Red "2: AWS::SQS::Queue Queue - Already exists"] |})
  /\ exitStatus (@predict Demo.crowded Demo.flagsSkipIAM [] "demo" tt false
                   Demo.named (Demo.start Demo.oneQueue)) = 1%Z.
Proof. split; vm_compute; reflexivity. Qed.

(** * More of the code *)

(** ** The resolver on whole trees *)

Section ResolverTrees.

Variable dc : DeployConfig.

Lemma rangeParams_cases prop parent :
  rangeParams dc prop parent = parent
  \/ exists v, rangeParams dc prop parent = scalarNode v.
Proof.
  destruct (YamlKind_eqb (Kind parent) MappingNode) eqn:Hk.
  - apply YamlKind_eqb_eq in Hk. rewrite (rangeParams_mapping dc _ _ Hk).
    destruct (paramValue dc (Value prop)); eauto.
  - left. apply rangeParams_other. intros H. rewrite H in Hk. discriminate.
Qed.

Lemma rangeParams_unknown prop parent :
  paramValue dc (Value prop) = None -> rangeParams dc prop parent = parent.
Proof.
  intros Hnone.
  destruct (YamlKind_eqb (Kind parent) MappingNode) eqn:Hk.
  - apply YamlKind_eqb_eq in Hk. rewrite (rangeParams_mapping dc _ _ Hk), Hnone.
    reflexivity.
  - apply rangeParams_other. intros H. rewrite H in Hk. discriminate.
Qed.

Lemma wellFormed_setChild cur j c :
  wellFormed cur = true -> wellFormed c = true ->
  wellFormed (setChild cur j c) = true.
Proof.
  rewrite !(wellFormed_unfold cur), (wellFormed_unfold (setChild cur j c)).
  cbn [setChild Kind Content]. intros H Hc.
  apply andb_prop in H as [Hlen Hall]. rewrite length_insert, Hlen. simpl.
  apply forallb_forall. intros x Hx. rewrite forallb_forall in Hall.
  apply list_elem_of_In in Hx. apply list_elem_of_lookup in Hx as [i Hi].
  destruct (decide (i = j)) as [->|Hne].
  - destruct (decide (j < length (Content cur))) as [Hlt|Hge].
    + rewrite list_lookup_insert_eq in Hi by exact Hlt. congruence.
    + rewrite list_insert_ge in Hi by lia.
      apply Hall, list_elem_of_In, list_elem_of_lookup. eauto.
  - rewrite list_lookup_insert_ne in Hi by congruence.
    apply Hall, list_elem_of_In, list_elem_of_lookup. eauto.
Qed.

Lemma resolvePairs_keeps_wellFormed todo :
  Nat.even (length todo) = true ->
  Forall (fun c => forall name parent,
              wellFormed parent = true ->
              keepsWellFormed (resolveParamRefs name c dc parent)) todo ->
  forall i cur,
    wellFormed cur = true ->
    exists n', resolvePairs dc todo i cur = Ok n' /\ wellFormed n' = true.
Proof.
  induction todo as [| x | x y rest IH] using list_pair_ind;
    intros Hev Hall i cur Hcur; simpl.
  - destruct (negb _); eauto.
  - discriminate Hev.
  - destruct (negb _); [eauto|].
    inversion Hall as [|? ? _ Hall']; subst.
    inversion Hall' as [|? ? Hy Hrest]; subst.
    specialize (Hy (Value x) cur Hcur). unfold keepsWellFormed in Hy.
    destruct (resolveParamRefs (Value x) y dc cur) as [[cur'|y']|m];
      [| |contradiction].
    + apply IH; assumption.
    + apply IH; try assumption. apply wellFormed_setChild; assumption.
Qed.

Lemma resolveEach_keeps_wellFormed todo :
  Forall (fun c => forall name parent,
              wellFormed parent = true ->
              keepsWellFormed (resolveParamRefs name c dc parent)) todo ->
  forall j cur,
    wellFormed cur = true ->
    exists n', resolveEach dc todo j cur = Ok n' /\ wellFormed n' = true.
Proof.
  induction todo as [|x rest IH]; intros Hall j cur Hcur; simpl; [eauto|].
  inversion Hall as [|? ? Hx Hrest]; subst.
  specialize (Hx "" cur Hcur). unfold keepsWellFormed in Hx.
  destruct (resolveParamRefs "" x dc cur) as [[cur'|x']|m]; [| |contradiction].
  - apply IH; assumption.
  - apply IH; try assumption. apply wellFormed_setChild; assumption.
Qed.

Lemma resolveParamRefs_wf (name : string) (prop parent : Node) :
  wellFormed prop = true ->
  wellFormed parent = true ->
  keepsWellFormed (resolveParamRefs name prop dc parent).
Proof.
  unfold keepsWellFormed. revert name parent.
  induction prop as [k v l cs IH] using Node_ind. intros name parent Hwf Hparent.
  pose proof (wellFormed_children _ Hwf) as Hcs. simpl in Hcs.
  assert (Hall : Forall (fun c => forall name parent,
              wellFormed parent = true ->
              keepsWellFormed (resolveParamRefs name c dc parent)) cs).
  { apply Forall_forall. intros c Hc name' parent' Hp'.
    rewrite Forall_forall in IH, Hcs. apply IH; auto. }
  rewrite resolveParamRefs_unfold.
  destruct (isRefScalar name (mkNode k v l cs)).
  { destruct (rangeParams_cases (mkNode k v l cs) parent) as [->|[w ->]];
      [exact Hparent | reflexivity]. }
  cbn [Kind Content].
  destruct (YamlKind_eqb k MappingNode) eqn:Hk.
  - apply YamlKind_eqb_eq in Hk.
    pose proof (wellFormed_mapping_even _ Hwf Hk) as Hev. simpl in Hev.
    destruct (resolvePairs_keeps_wellFormed cs Hev Hall 0%nat _ Hwf)
      as (n' & -> & Hn'). exact Hn'.
  - destruct (YamlKind_eqb k SequenceNode); [|exact Hwf].
    destruct (resolveEach_keeps_wellFormed cs Hall 0%nat _ Hwf)
      as (n' & -> & Hn'). exact Hn'.
Qed.

Lemma wellFormed_resolved (n : Node) :
  wellFormed n = true -> wellFormed (resolved dc n) = true.
Proof.
  intros Hwf. pose proof (resolveParamRefs_wf "" n n Hwf Hwf) as H.
  unfold keepsWellFormed in H. unfold resolved.
  destruct (resolveParamRefs "" n dc n) as [[p|p]|m]; [exact H | exact H | contradiction].
Qed.

(** X1.  On well-formed trees [resolveParamRefs] does not panic, and the
    node it writes, the property or the parent, is well-formed again. *)
Theorem resolveParamRefs_keeps_wellFormed (name : string) (prop parent : Node) :
  wellFormed prop = true ->
  wellFormed parent = true ->
  match resolveParamRefs name prop dc parent with
  | Ok (TouchedProp prop') => wellFormed prop' = true
  | Ok (TouchedParent parent') => wellFormed parent' = true
  | Panic _ => False
  end.
Proof. exact (resolveParamRefs_wf name prop parent). Qed.

End ResolverTrees.

Lemma resolveParamRefs_keeps_wellFormed_witness :
  wellFormed Demo.topicProperties = true /\
  match resolveParamRefs "Properties" Demo.topicProperties Demo.named
          Demo.topicProperties with
  | Ok (TouchedProp prop') => wellFormed prop' = true
  | Ok (TouchedParent parent') => wellFormed parent' = true
  | Panic _ => False
  end.
Proof.
  assert (H : wellFormed Demo.topicProperties = true) by (vm_compute; reflexivity).
  split; [exact H|].
  exact (resolveParamRefs_keeps_wellFormed Demo.named "Properties"
           Demo.topicProperties Demo.topicProperties H H).
Defined.

Section ResolverUnknown.

Variable dc : DeployConfig.

#[local] Abbreviation untouched := (untouched dc).

Lemma refNames_unfold n :
  refNames n =
  (if YamlKind_eqb (Kind n) MappingNode then refNamesOfPairs (Content n) else [])
  ++ flat_map refNames (Content n).
Proof. destruct n as [k v l cs]. reflexivity. Qed.

Lemma setChild_same cur j c :
  Content cur !! j = Some c -> setChild cur j c = cur.
Proof.
  intros H. destruct cur as [k v l cs]. unfold setChild. simpl in *.
  rewrite list_insert_id by exact H. reflexivity.
Qed.

Lemma storeAt_same_node p n root :
  nodeAt p root = Some n -> storeAt p n root = root.
Proof.
  revert root. induction p as [|j p IH]; intros root H; simpl in *.
  - congruence.
  - destruct (Content root !! j) as [c|] eqn:Hc; [|discriminate].
    rewrite (IH c H). apply setChild_same, Hc.
Qed.

Lemma resolvePairs_unknown todo :
  Nat.even (length todo) = true ->
  Forall (fun x => paramValue dc x = None) (refNamesOfPairs todo) ->
  Forall untouched todo ->
  forall done cur,
    Content cur = done ++ todo ->
    resolvePairs dc todo (length done) cur = Ok cur.
Proof.
  induction todo as [| x | x y rest IH] using list_pair_ind;
    intros Hev Hnames Hall done cur Hcur.
  - apply resolvePairs_nil.
  - discriminate Hev.
  - cbn [resolvePairs]. rewrite Hcur, ltb_length_app. cbn [length Nat.eqb negb].
    inversion Hall as [|? ? _ Hall']; subst.
    inversion Hall' as [|? ? Hy Hrest]; subst.
    cbn [refNamesOfPairs] in Hnames. apply Forall_app in Hnames as [Hhead Hnames].
    assert (Hnext : Content cur = (done ++ [x; y]) ++ rest)
      by (rewrite Hcur, <- app_assoc; reflexivity).
    assert (Hlen : length (done ++ [x; y]) = S (S (length done)))
      by (rewrite length_app; simpl; lia).
    specialize (IH Hev Hnames Hrest (done ++ [x; y]) cur Hnext).
    rewrite Hlen in IH.
    destruct (isRefScalar (Value x) y) eqn:Hb.
    + rewrite resolveParamRefs_unfold, Hb.
      unfold isRefScalar in Hb. rewrite Hb in Hhead.
      inversion Hhead as [|? ? Hnone _]; subst.
      rewrite (rangeParams_unknown dc y cur Hnone). exact IH.
    + rewrite (Hy (Value x) cur Hb).
      rewrite setChild_same; [exact IH|].
      rewrite Hcur. rewrite lookup_app_r by lia.
      replace (S (length done) - length done)%nat with 1%nat by lia.
      reflexivity.
Qed.

Lemma resolveEach_unknown todo :
  Forall untouched todo ->
  forall done cur,
    Content cur = done ++ todo ->
    resolveEach dc todo (length done) cur = Ok cur.
Proof.
  induction todo as [|x rest IH]; intros Hall done cur Hcur; [reflexivity|].
  inversion Hall as [|? ? Hx Hrest]; subst.
  cbn [resolveEach]. rewrite (Hx "" cur (isRefScalar_empty x)).
  assert (Hnext : Content cur = (done ++ [x]) ++ rest)
    by (rewrite Hcur, <- app_assoc; reflexivity).
  specialize (IH Hrest (done ++ [x]) cur Hnext).
  replace (length (done ++ [x])) with (S (length done)) in IH
    by (rewrite length_app; simpl; lia).
  rewrite setChild_same; [exact IH|].
  rewrite Hcur, lookup_app_r by lia.
  replace (length done - length done)%nat with 0%nat by lia. reflexivity.
Qed.

(** A tree none of whose references names a parameter comes back as it
    went in. *)
Lemma resolveParamRefs_unknown (prop : Node) :
  wellFormed prop = true ->
  Forall (fun x => paramValue dc x = None) (refNames prop) ->
  untouched prop.
Proof.
  induction prop as [k v l cs IH] using Node_ind. intros Hwf Hnames name parent Hb.
  pose proof (wellFormed_children _ Hwf) as Hcs. simpl in Hcs.
  rewrite refNames_unfold in Hnames. cbn [Kind Content] in Hnames.
  apply Forall_app in Hnames as [Hdirect Hbelow].
  assert (Hall : Forall untouched cs).
  { apply Forall_forall. intros c Hc.
    rewrite Forall_forall in IH, Hcs. apply IH; auto.
    apply Forall_forall. intros x Hx. rewrite Forall_forall in Hbelow.
    apply Hbelow. apply list_elem_of_In, in_flat_map. exists c.
    split; apply list_elem_of_In; assumption. }
  rewrite resolveParamRefs_unfold, Hb. cbn [Kind Content].
  destruct (YamlKind_eqb k MappingNode) eqn:Hk.
  - apply YamlKind_eqb_eq in Hk.
    pose proof (wellFormed_mapping_even _ Hwf Hk) as Hev. simpl in Hev.
    pose proof (resolvePairs_unknown cs Hev Hdirect Hall [] (mkNode k v l cs))
      as H.
    cbn [length app] in H. rewrite H by reflexivity. reflexivity.
  - destruct (YamlKind_eqb k SequenceNode); [|reflexivity].
    pose proof (resolveEach_unknown cs Hall [] (mkNode k v l cs)) as H.
    cbn [length app] in H. rewrite H by reflexivity. reflexivity.
Qed.

(** A mapping with a key left without a value makes the loop read past
    the end of [Content]. *)
Lemma resolvePairs_dangling_key pre k cur :
  Nat.even (length pre) = true -> plainKeys pre = true ->
  Forall (fun c => wellFormed c = true) pre ->
  Content cur = pre ++ [k] ->
  resolvePairs dc (Content cur) 0 cur = Panic "index out of range".
Proof.
  intros Hev Hplain Hwf Hcur.
  pose proof (resolvePairs_app dc pre Hev Hplain Hwf [k] [] cur Hcur) as H.
  cbn [length app Nat.add] in H. rewrite Hcur, H.
  cbn [resolvePairs withContent Content].
  replace (length pre <? length (mapValues dc pre ++ [k]))%nat with true.
  - reflexivity.
  - symmetry. apply Nat.ltb_lt. rewrite length_app. simpl.
    assert (length (mapValues dc pre) = length pre); [|lia].
    clear. induction pre as [| x | x y l IHl] using list_pair_ind;
      simpl; congruence.
Qed.

End ResolverUnknown.

Section ResolveRefsMore.

Context `{ext : External}.

(** X2.  When no name referenced below the Properties mapping of a
    resource is a parameter of the deploy configuration, [resolveRefs]
    returns with the run state, the template included, exactly as it
    was. *)
Theorem resolveRefs_unknown_names (input : PredictionInput Stack)
    (st : St World) (r props : Node) (j : nat) :
  nodeAt (resource input) (doc st) = Some r ->
  getMapValue r "Properties" = Some (j, props) ->
  Kind props = MappingNode ->
  wellFormed props = true ->
  Forall (fun x => paramValue (dc input) x = None) (refNames props) ->
  resolveRefs input st = Ok (tt, st).
Proof.
  intros Hr Hp Hk Hwf Hnames.
  pose proof (resolveParamRefs_unknown (dc input) props Hwf Hnames "" props
                (isRefScalar_empty props)) as H.
  rewrite resolveParamRefs_unfold, isRefScalar_empty, Hk in H. simpl in H.
  assert (Hpairs : resolvePairs (dc input) (Content props) 0 props = Ok props).
  { destruct (resolvePairs (dc input) (Content props) 0 props);
      simpl in H; congruence. }
  rewrite (resolveRefs_props input st r j props props Hr Hp Hpairs).
  rewrite storeAt_same_node.
  - destruct st; reflexivity.
  - rewrite nodeAt_app, Hr. simpl.
    rewrite (getMapValue_lookup _ _ _ _ Hp). reflexivity.
Qed.

(** X3.  A Properties mapping whose last key has no value makes
    [resolveRefs] panic with an index out of range, once the pairs before
    it are done. *)
Theorem resolveRefs_dangling_key (input : PredictionInput Stack)
    (st : St World) (r props k : Node) (pre : list Node) (j : nat) :
  nodeAt (resource input) (doc st) = Some r ->
  getMapValue r "Properties" = Some (j, props) ->
  Content props = pre ++ [k] ->
  Nat.even (length pre) = true ->
  plainKeys pre = true ->
  Forall (fun c => wellFormed c = true) pre ->
  resolveRefs input st = Panic "index out of range".
Proof.
  intros Hr Hp Hcs Hev Hplain Hwf.
  unfold resolveRefs, bind, deref, liftResult. rewrite Hr, Hp.
  rewrite (resolvePairs_dangling_key (dc input) pre k props Hev Hplain Hwf Hcs).
  reflexivity.
Qed.

End ResolveRefsMore.

(** ** One resource at a time *)

Lemma nodeAt_storeAt_apart p : forall q n root,
  apart p q = true -> nodeAt q (storeAt p n root) = nodeAt q root.
Proof.
  induction p as [|a p IH]; intros q n root H; [discriminate|].
  destruct q as [|b q]; [discriminate|]. simpl in H |- *.
  destruct (Content root !! a) as [c|] eqn:Hc; [|reflexivity].
  cbn [setChild Content].
  destruct (Nat.eqb a b) eqn:Hab.
  - apply Nat.eqb_eq in Hab. subst b.
    rewrite list_lookup_insert_eq by (eapply lookup_lt_Some; eauto).
    rewrite Hc. apply IH, H.
  - apply Nat.eqb_neq in Hab.
    rewrite list_lookup_insert_ne by exact Hab. reflexivity.
Qed.

Lemma apart_app p q j : apart p q = true -> apart (p ++ j) q = true.
Proof.
  revert q. induction p as [|a p IH]; intros q H; [discriminate|].
  destruct q as [|b q]; [discriminate|]. simpl in *.
  destruct (Nat.eqb a b); [apply IH, H | reflexivity].
Qed.

Lemma apart_siblings p a b q :
  a <> b -> apart (p ++ [a]) (p ++ b :: q) = true.
Proof.
  intros Hab. induction p as [|c p IH]; simpl.
  - apply Nat.eqb_neq in Hab. rewrite Hab. reflexivity.
  - rewrite Nat.eqb_refl. exact IH.
Qed.

Section OneResource.

Context `{ext : External}.
Variable flags : Flags.

Lemma sameOutside_refl p (st : St World) : sameOutside p st st.
Proof. split; auto. Qed.

Lemma sameOutside_trans p (st1 st2 st3 : St World) :
  sameOutside p st1 st2 -> sameOutside p st2 st3 -> sameOutside p st1 st3.
Proof.
  intros [H1 H1'] [H2 H2']. split; [congruence|].
  intros q Hq. rewrite (H2' q Hq). apply H1', Hq.
Qed.

Lemma sameOutside_same p (st st' : St World) :
  doc st' = doc st -> stdout st' = stdout st -> sameOutside p st st'.
Proof. intros Hd Hs. split; [exact Hs|]. intros q _. rewrite Hd. reflexivity. Qed.

Lemma callWorld_stdout {A} (f : World -> A * World) st a st' :
  callWorld f st = Ok (a, st') -> stdout st' = stdout st.
Proof.
  unfold callWorld. destruct (f _). intros H. inversion H. reflexivity.
Qed.

Lemma callAmbient_stdout {A} (f : Node -> Ambient World -> A * Ambient World)
    st a st' :
  callAmbient f st = Ok (a, st') -> stdout st' = stdout st.
Proof.
  unfold callAmbient. destruct (f _ _). intros H. inversion H. reflexivity.
Qed.

Lemma runForecaster_stdout input f st f' st' :
  runForecaster input f st = Ok (f', st') -> stdout st' = stdout st.
Proof.
  rewrite runForecaster_eq. destruct (forecasters !! typeName input) as [fn|].
  - destruct (fn input (doc st) (amb st)). intros H. inversion H. reflexivity.
  - intros H. inversion H. reflexivity.
Qed.

Lemma resolveRefs_sameOutside input st u st' :
  resolveRefs input st = Ok (u, st') -> sameOutside (resource input) st st'.
Proof.
  intros H. unfold resolveRefs in H.
  apply bind_Ok in H as (r & st1 & Hr & H). apply deref_Ok in Hr as [-> Hr].
  destruct (getMapValue r "Properties") as [[j props]|].
  - apply bind_Ok in H as (props' & st2 & Hres & H).
    unfold liftResult in Hres. destruct (resolvePairs _ _ _ _); [|discriminate].
    inversion Hres; subst. unfold store in H. inversion H; subst.
    split; [reflexivity|]. intros q Hq. cbn [doc].
    apply nodeAt_storeAt_apart, apart_app, Hq.
  - inversion H. apply sameOutside_refl.
Qed.

Lemma resolveAndProbe_sameOutside input st f st' :
  resolveAndProbe input st = Ok (f, st') -> sameOutside (resource input) st st'.
Proof.
  intros H. unfold resolveAndProbe in H.
  apply bind_Ok in H as (u & st1 & H1 & H).
  apply resolveRefs_sameOutside in H1.
  apply bind_Ok in H as (r & st2 & H2 & H). apply deref_Ok in H2 as [-> _].
  apply bind_Ok in H as (t & st3 & H3 & H). apply deref_Ok in H3 as [-> _].
  apply bind_Ok in H as (found & st4 & H4 & H).
  pose proof (callWorld_doc _ _ _ _ H4) as Hd.
  pose proof (callWorld_stdout _ _ _ _ H4) as Hs.
  eapply sameOutside_trans; [exact H1|].
  destruct found.
  - unfold add in H. inversion H; subst. apply sameOutside_same; assumption.
  - apply bind_Ok in H as (u' & st5 & H5 & H).
    unfold setLineNumber in H5. inversion H5; subst.
    unfold add in H. inversion H; subst. apply sameOutside_same; assumption.
Qed.

Lemma forecastForType_sameOutside input st f st' :
  forecastForType flags input st = Ok (f, st') ->
  sameOutside (resource input) st st'.
Proof.
  intros H. unfold forecastForType in H.
  destruct (negb _ && negb _).
  { inversion H. apply sameOutside_refl. }
  apply bind_Ok in H as (f1 & st1 & H1 & H).
  apply resolveAndProbe_sameOutside in H1.
  eapply sameOutside_trans; [exact H1|].
  destruct (negb (SkipIAM flags)).
  - apply bind_Ok in H as ([f2 err] & st2 & H2 & H).
    pose proof (callAmbient_doc _ _ _ _ H2) as Hd.
    pose proof (callAmbient_stdout _ _ _ _ H2) as Hs.
    destruct err.
    + inversion H; subst. apply sameOutside_same; assumption.
    + eapply sameOutside_trans; [apply sameOutside_same; eassumption|].
      apply sameOutside_same;
        [eapply runForecaster_doc | eapply runForecaster_stdout]; exact H.
  - apply sameOutside_same;
      [eapply runForecaster_doc | eapply runForecaster_stdout]; exact H.
Qed.

Lemma makeInput_stdout src stackName stack stackExists dc resources i st input st' :
  makeInput flags src stackName stack stackExists dc resources i st
  = Ok (input, st') ->
  stdout st' = stdout st.
Proof.
  unfold makeInput. intros H.
  apply bind_Ok in H as (r & st1 & H1 & H). apply deref_Ok in H1 as [-> _].
  apply bind_Ok in H as (u & st2 & H2 & H).
  unfold setLineNumber in H2. inversion H2; subst; clear H2.
  apply bind_Ok in H as (rs & st3 & H3 & H). apply deref_Ok in H3 as [-> _].
  destruct (Content rs !! S i); [|discriminate].
  destruct (getMapValue _ "Type") as [[j typeNode]|]; [|discriminate].
  apply bind_Ok in H as (reg & st4 & H4 & H). apply callWorld_stdout in H4.
  apply bind_Ok in H as (caller & st5 & H5 & H). apply callWorld_stdout in H5.
  destruct caller as [callerArn|]; [|discriminate].
  destruct (negb _); [discriminate|].
  inversion H; subst. rewrite H5, H4. reflexivity.
Qed.

Lemma predictResource_sameOutside src stackName stack stackExists dc resources
    i forecast st f st' :
  predictResource flags src stackName stack stackExists dc resources i forecast st
  = Ok (f, st') ->
  sameOutside (resources ++ [S i]) st st'.
Proof.
  intros H. unfold predictResource in H.
  apply bind_Ok in H as (input & st1 & H1 & H).
  pose proof (makeInput_stdout _ _ _ _ _ _ _ _ _ _ H1) as Hs1.
  apply makeInput_Ok in H1 as (_ & Hr & Hd1).
  apply bind_Ok in H as (f1 & st2 & H2 & H). inversion H; subst st'.
  apply forecastForType_sameOutside in H2. rewrite Hr in H2.
  eapply sameOutside_trans; [apply sameOutside_same; eassumption | exact H2].
Qed.

(** X4.  Working on the resource in slot [i+1] of the Resources section
    prints nothing and leaves every other child of that section, keys and
    resources alike, reading as before, whatever the collaborators
    answer. *)
Theorem predictResource_other_resources (src : loc) (stackName : string)
    (stack : Stack) (stackExists : bool) (dc : DeployConfig) (resources : loc)
    (i : nat) (forecast : Forecast) (st : St World) (f : Forecast)
    (st' : St World) :
  predictResource flags src stackName stack stackExists dc resources i forecast st
  = Ok (f, st') ->
  stdout st' = stdout st /\
  forall k q, k <> S i ->
    nodeAt (resources ++ k :: q) (doc st') = nodeAt (resources ++ k :: q) (doc st).
Proof.
  intros H. apply predictResource_sameOutside in H as [Hs Hframe].
  split; [exact Hs|].
  intros k q Hk. apply Hframe, apart_siblings. congruence.
Qed.

(** X5.  The loop over the resources only ever appends: what the
    top-level forecast held when the loop started is still there, in the
    same order, at the front of what it holds at the end, and its two
    names are not touched. *)
Theorem rangeResources_appends (src : loc) (stackName : string)
    (stack : Stack) (stackExists : bool) (dc : DeployConfig) (resources : loc)
    (todo : list Node) (i : nat) (forecast : Forecast) (st : St World)
    (f : Forecast) (st' : St World) :
  rangeResources flags src stackName stack stackExists dc resources todo i
    forecast st = Ok (f, st') ->
  Passed forecast `prefix_of` Passed f /\
  Failed forecast `prefix_of` Failed f /\
  TypeName f = TypeName forecast /\ LogicalId f = LogicalId forecast.
Proof.
  revert i forecast st.
  induction todo as [|x todo IH]; intros i forecast st H.
  - inversion H; subst. auto.
  - cbn [rangeResources] in H. destruct (Nat.odd i).
    + eapply IH, H.
    + apply bind_Ok in H as (f1 & st1 & H1 & H).
      apply IH in H as (Hp & Hf & Ht & Hl).
      unfold predictResource in H1.
      apply bind_Ok in H1 as (input & st2 & _ & H1).
      apply bind_Ok in H1 as (f2 & st3 & _ & H1).
      inversion H1; subst f1. cbn [Append Passed Failed TypeName LogicalId] in *.
      repeat split; try assumption.
      * etransitivity; [|exact Hp]. apply prefix_app_r. reflexivity.
      * etransitivity; [|exact Hf]. apply prefix_app_r. reflexivity.
Qed.

End OneResource.

(** ** The walk over the Resources section *)

Lemma Split_length s sep : length (Split s sep) = S (countByte sep s).
Proof.
  induction s as [|a s IH]; simpl; [reflexivity|].
  destruct (Ascii.eqb a sep); simpl.
  - rewrite IH. reflexivity.
  - destruct (Split s sep) as [|t ts]; simpl in *; lia.
Qed.

Lemma Append_empty f t l : Append f (makeForecast t l) = f.
Proof. destruct f. unfold Append. simpl. rewrite !app_nil_r. reflexivity. Qed.

Section Walk.

Context `{ext : External}.
Variable flags : Flags.

Lemma nodeAt_child p j root c :
  nodeAt (p ++ [j]) root = Some c ->
  exists n, nodeAt p root = Some n /\ Content n !! j = Some c.
Proof.
  rewrite nodeAt_app. destruct (nodeAt p root) as [n|]; [|discriminate].
  simpl. destruct (Content n !! j) as [c'|] eqn:Hc; [|discriminate].
  intros H. inversion H; subst. eauto.
Qed.

Lemma predictResource_missing_Type src stackName stack stackExists dc resources
    i forecast (st : St World) k r :
  nodeAt (resources ++ [i]) (doc st) = Some k ->
  nodeAt (resources ++ [S i]) (doc st) = Some r ->
  getMapValue r "Type" = None ->
  predictResource flags src stackName stack stackExists dc resources i forecast st
  = Panic ("Expected " +:+ Value k +:+ " to have a Type").
Proof.
  intros Hk Hr Hnone.
  destruct (nodeAt_child _ _ _ _ Hr) as (rs & Hrs & Hc).
  unfold predictResource, bind at 1, makeInput, bind at 1, deref.
  rewrite Hk. unfold bind at 1, setLineNumber. unfold bind at 1.
  cbn [doc]. rewrite Hrs, Hc, Hnone. reflexivity.
Qed.

Lemma rangeResources_missing_Type src stackName stack stackExists dc resources
    i k r todo :
  Nat.even i = true ->
  getMapValue r "Type" = None ->
  forall i0 forecast (st : St World),
    i0 <= i -> i < i0 + length todo ->
    nodeAt (resources ++ [i]) (doc st) = Some k ->
    nodeAt (resources ++ [S i]) (doc st) = Some r ->
    exists msg,
      rangeResources flags src stackName stack stackExists dc resources todo i0
        forecast st = Panic msg.
Proof.
  intros Hev Hnone.
  induction todo as [|x todo IH]; intros i0 forecast st Hle Hlt Hk Hr.
  - simpl in Hlt. lia.
  - cbn [rangeResources]. destruct (Nat.odd i0) eqn:Hodd.
    + assert (i0 <> i).
      { intros ->. rewrite <- Nat.negb_even, Hev in Hodd. discriminate. }
      apply IH; [lia | simpl in Hlt; lia | assumption | assumption].
    + destruct (decide (i0 = i)) as [->|Hne].
      * unfold bind.
        rewrite (predictResource_missing_Type _ _ _ _ _ _ _ _ _ k r Hk Hr Hnone).
        eauto.
      * unfold bind.
        destruct (predictResource flags src stackName stack stackExists dc
                    resources i0 forecast st) as [[f1 st1]|msg] eqn:Hstep;
          [|eauto].
        apply predictResource_sameOutside in Hstep as [_ Hframe].
        assert (Hi : i <> S i0).
        { intros ->. rewrite Nat.even_succ, Hodd in Hev. discriminate. }
        apply IH; [lia | simpl in Hlt; lia | |].
        -- rewrite Hframe; [exact Hk | apply apart_siblings; congruence].
        -- rewrite Hframe; [exact Hr | apply apart_siblings; congruence].
Qed.

(** X6.  A template in which some resource has no Type never gets a
    verdict: wherever the resource stands and whatever the collaborators
    answer for the resources before it, [predict] panics, and the exit
    status is not 0. *)
Theorem predict_missing_Type (src : loc) (stackName : string) (stack : Stack)
    (stackExists : bool) (dc : DeployConfig) (st : St World)
    (root rootMap resources k r : Node) (j i : nat) :
  nodeAt src (doc st) = Some root ->
  Content root !! 0%nat = Some rootMap ->
  getMapValue rootMap "Resources" = Some (j, resources) ->
  Nat.even i = true ->
  Content resources !! i = Some k ->
  Content resources !! S i = Some r ->
  getMapValue r "Type" = None ->
  exists msg,
    predict flags src stackName stack stackExists dc st = Panic msg /\
    exitStatus (predict flags src stackName stack stackExists dc st) <> 0%Z.
Proof.
  intros Hroot Hmap Hres Hev Hk Hr Hnone.
  pose proof (getMapValue_lookup _ _ _ _ Hres) as Hj.
  assert (Hrs : nodeAt (src ++ [0%nat; j]) (doc st) = Some resources).
  { rewrite nodeAt_app, Hroot. simpl. rewrite Hmap, Hj. reflexivity. }
  destruct (rangeResources_missing_Type src stackName stack stackExists dc
              (src ++ [0%nat; j]) i k r (Content resources) Hev Hnone
              0%nat (makeForecast "" "") st) as [msg Hmsg].
  - lia.
  - apply lookup_lt_Some in Hk. lia.
  - rewrite nodeAt_app, Hrs. simpl. rewrite Hk. reflexivity.
  - rewrite nodeAt_app, Hrs. simpl. rewrite Hr. reflexivity.
  - exists msg.
    assert (Hp : predict flags src stackName stack stackExists dc st = Panic msg).
    { unfold predict, bind at 1, predictAll, bind at 1, deref.
      rewrite Hroot, Hmap, Hres, Hmsg. reflexivity. }
    rewrite Hp. split; [reflexivity | discriminate].
Qed.

Lemma makeInput_eq (src : loc) (stackName : string) (stack : Stack)
    (stackExists : bool) (dc : DeployConfig) (resources : loc) (i : nat)
    (st : St World) (k rs r typeNode : Node) (jt : nat) (cfgRegion : string)
    (w1 w2 : World) (caller : option string) :
  nodeAt (resources ++ [i]) (doc st) = Some k ->
  nodeAt resources (doc st) = Some rs ->
  Content rs !! S i = Some r ->
  getMapValue r "Type" = Some (jt, typeNode) ->
  awsRegion (world (amb st)) = (cfgRegion, w1) ->
  GetCallerArn w1 = (caller, w2) ->
  makeInput flags src stackName stack stackExists dc resources i st =
  match caller with
  | None => Panic "unable to get caller arn"
  | Some callerArn =>
      if (countByte ":" callerArn =? 5)%nat then
        Ok ({| source := src; stackName := stackName;
               resource := resources ++ [S i];
               logicalId := Value k; stackExists := stackExists;
               stack := stack; typeName := Value typeNode; dc := dc;
               env := {| partition := nth 1 (Split callerArn ":") "";
                         region := cfgRegion;
                         account := nth 4 (Split callerArn ":") "" |};
               roleArn := if String.eqb (RoleArn flags) "" then callerArn
                          else RoleArn flags |},
            {| amb := {| LineNumber := Line k; world := w2 |};
               doc := doc st; stdout := stdout st |})
      else Panic ("unexpected number of tokens in caller arn: " +:+ callerArn)
  end.
Proof.
  intros Hk Hrs Hr Hty Hreg Hcaller.
  unfold makeInput, bind at 1, deref. rewrite Hk.
  unfold bind at 1, setLineNumber. unfold bind at 1. cbn [doc].
  rewrite Hrs, Hr, Hty.
  unfold bind at 1, callWorld at 1. cbn [amb world]. rewrite Hreg.
  unfold bind at 1, callWorld at 1. cbn [amb world]. rewrite Hcaller.
  destruct caller as [callerArn|]; [|reflexivity].
  rewrite Split_length. cbn [Nat.eqb].
  destruct (countByte ":" callerArn =? 5)%nat; reflexivity.
Qed.

(** X7.  The caller identity is taken for a resource that has a Type.
    When it cannot be fetched the resource is not looked at: panic.  When
    it is fetched, it passes if and only if it holds exactly five colons;
    the partition is then its second field, the account its fifth, and the
    role is [--role-arn] or else the identity itself. *)
Theorem makeInput_caller_arn (src : loc) (stackName : string) (stack : Stack)
    (stackExists : bool) (dc : DeployConfig) (resources : loc) (i : nat)
    (st : St World) (k rs r typeNode : Node) (jt : nat) (cfgRegion : string)
    (w1 w2 : World) (caller : option string) :
  nodeAt (resources ++ [i]) (doc st) = Some k ->
  nodeAt resources (doc st) = Some rs ->
  Content rs !! S i = Some r ->
  getMapValue r "Type" = Some (jt, typeNode) ->
  awsRegion (world (amb st)) = (cfgRegion, w1) ->
  GetCallerArn w1 = (caller, w2) ->
  makeInput flags src stackName stack stackExists dc resources i st =
  match caller with
  | None => Panic "unable to get caller arn"
  | Some callerArn =>
      if (countByte ":" callerArn =? 5)%nat then
        Ok ({| source := src; stackName := stackName;
               resource := resources ++ [S i];
               logicalId := Value k; stackExists := stackExists;
               stack := stack; typeName := Value typeNode; dc := dc;
               env := {| partition := nth 1 (Split callerArn ":") "";
                         region := cfgRegion;
                         account := nth 4 (Split callerArn ":") "" |};
               roleArn := if String.eqb (RoleArn flags) "" then callerArn
                          else RoleArn flags |},
            {| amb := {| LineNumber := Line k; world := w2 |};
               doc := doc st; stdout := stdout st |})
      else Panic ("unexpected number of tokens in caller arn: " +:+ callerArn)
  end.
Proof.
  exact (makeInput_eq src stackName stack stackExists dc resources i st k rs r
           typeNode jt cfgRegion w1 w2 caller).
Qed.

Lemma rangeResources_all_filtered resources (rs : Node) (d : Node) todo :
  ResourceType flags <> "" ->
  (forall w, exists callerArn w',
      GetCallerArn w = (Some callerArn, w') /\ countByte ":" callerArn = 5%nat) ->
  nodeAt resources d = Some rs ->
  allOtherTypes (ResourceType flags) todo = true ->
  forall src stackName stack stackExists dc done forecast (st : St World),
    Content rs = done ++ todo ->
    Nat.even (length done) = true ->
    doc st = d ->
    exists st',
      rangeResources flags src stackName stack stackExists dc resources todo
        (length done) forecast st = Ok (forecast, st') /\
      doc st' = d /\ stdout st' = stdout st.
Proof.
  intros Hfilter Hcaller Hrs.
  induction todo as [| x | x y rest IH] using list_pair_ind;
    intros Hall src stackName stack stackExists dc done forecast st Hcs Hev Hd.
  - exists st. auto.
  - discriminate Hall.
  - cbn [allOtherTypes] in Hall. apply andb_prop in Hall as [Hty Hall].
    destruct (getMapValue y "Type") as [[jt typeNode]|] eqn:Htype;
      [|discriminate].
    apply negb_true_iff, String.eqb_neq in Hty.
    cbn [rangeResources].
    rewrite <- Nat.negb_even, Hev. cbn [negb].
    destruct (awsRegion (world (amb st))) as [cfgRegion w1] eqn:Hreg.
    destruct (Hcaller w1) as (callerArn & w2 & Harn & Hcount).
    assert (Hk : nodeAt (resources ++ [length done]) (doc st) = Some x).
    { rewrite Hd, nodeAt_app, Hrs. simpl. rewrite Hcs.
      rewrite lookup_app_r by lia.
      replace (length done - length done)%nat with 0%nat by lia. reflexivity. }
    assert (Hr : Content rs !! S (length done) = Some y).
    { rewrite Hcs, lookup_app_r by lia.
      replace (S (length done) - length done)%nat with 1%nat by lia.
      reflexivity. }
    assert (Hrs' : nodeAt resources (doc st) = Some rs) by (rewrite Hd; exact Hrs).
    unfold bind at 1, predictResource, bind at 1.
    rewrite (makeInput_eq src stackName stack stackExists dc resources
               (length done) st x rs y typeNode jt cfgRegion w1 w2
               (Some callerArn) Hk Hrs' Hr Htype Hreg Harn).
    rewrite Hcount. cbn [Nat.eqb].
    unfold bind at 1, forecastForType. cbn [typeName logicalId].
    apply String.eqb_neq in Hfilter. rewrite Hfilter.
    assert (Hne : String.eqb (ResourceType flags) (Value typeNode) = false).
    { apply String.eqb_neq. congruence. }
    rewrite Hne. cbn [negb andb]. unfold ret at 1. unfold ret at 1.
    rewrite Append_empty.
    replace (Nat.odd (S (length done))) with true
      by (rewrite Nat.odd_succ, Hev; reflexivity).
    specialize (IH Hall src stackName stack stackExists dc (done ++ [x; y])
                  forecast
                  {| amb := {| LineNumber := Line x; world := w2 |};
                     doc := doc st; stdout := stdout st |}).
    replace (length (done ++ [x; y])) with (S (S (length done))) in IH
      by (rewrite length_app; simpl; lia).
    apply IH.
    + rewrite Hcs, <- app_assoc. reflexivity.
    + cbn [Nat.even]. exact Hev.
    + exact Hd.
Qed.

(** X8.  With a [--type] filter that no resource of the template
    matches, and a caller identity that can be fetched, [predict] makes no
    check at all, leaves the template alone, and still reports success:
    zero checks passed, exit status 0. *)
Theorem predict_filter_matches_nothing (src : loc) (stackName : string)
    (stack : Stack) (stackExists : bool) (dc : DeployConfig) (st : St World)
    (root rootMap resources : Node) (j : nat) :
  ResourceType flags <> "" ->
  (forall w, exists callerArn w',
      GetCallerArn w = (Some callerArn, w') /\ countByte ":" callerArn = 5%nat) ->
  nodeAt src (doc st) = Some root ->
  Content root !! 0%nat = Some rootMap ->
  getMapValue rootMap "Resources" = Some (j, resources) ->
  allOtherTypes (ResourceType flags) (Content resources) = true ->
  exists st1 st',
    predictAll flags src stackName stack stackExists dc st
    = Ok (makeForecast "" "", st1) /\
    doc st1 = doc st /\
    predict flags src stackName stack stackExists dc st = Ok (true, st') /\
    exitStatus (predict flags src stackName stack stackExists dc st) = 0%Z.
Proof.
  intros Hfilter Hcaller Hroot Hmap Hres Hall.
  pose proof (getMapValue_lookup _ _ _ _ Hres) as Hj.
  assert (Hrs : nodeAt (src ++ [0%nat; j]) (doc st) = Some resources).
  { rewrite nodeAt_app, Hroot. simpl. rewrite Hmap, Hj. reflexivity. }
  destruct (rangeResources_all_filtered (src ++ [0%nat; j]) resources (doc st)
              (Content resources) Hfilter Hcaller Hrs Hall
              src stackName stack stackExists dc [] (makeForecast "" "") st)
    as (st1 & Hrun & Hd & Hs); [reflexivity | reflexivity | reflexivity |].
  cbn [length] in Hrun.
  assert (Hpa : predictAll flags src stackName stack stackExists dc st
                = Ok (makeForecast "" "", st1)).
  { unfold predictAll, bind, deref. rewrite Hroot, Hmap, Hres. exact Hrun. }
  destruct (report_Ok flags (makeForecast "" "")
              (PredictTotalEstimate root stackExists) st1) as [st' Hrep].
  assert (Hp : predict flags src stackName stack stackExists dc st = Ok (true, st')).
  { unfold predict, bind at 1. rewrite Hpa. unfold bind, deref.
    rewrite Hd, Hroot. exact Hrep. }
  exists st1, st'. rewrite Hp. auto.
Qed.

End Walk.

(** ** Resolving twice *)

Section ResolveTwice.

Variable dc : DeployConfig.

Lemma clean_unfold n :
  clean n =
  (if YamlKind_eqb (Kind n) MappingNode then
     match Content n with
     | [a; b] =>
         (String.eqb (Value a) "Ref" && YamlKind_eqb (Kind b) ScalarNode)
         || plainKeys (Content n)
     | _ => plainKeys (Content n)
     end
   else true)
  && forallb clean (Content n).
Proof. destruct n as [k v l cs]. reflexivity. Qed.

Lemma plainKeys_mapValues content :
  plainKeys (mapValues dc content) = plainKeys content.
Proof.
  induction content as [| x | x y rest IH] using list_pair_ind;
    simpl; congruence.
Qed.

Lemma mapValues_twice content :
  Forall (fun c => resolved dc (resolved dc c) = resolved dc c) content ->
  mapValues dc (mapValues dc content) = mapValues dc content.
Proof.
  induction content as [| x | x y rest IH] using list_pair_ind;
    intros Hall; simpl; try reflexivity.
  inversion Hall as [|? ? _ Hall']; subst.
  inversion Hall' as [|? ? Hy Hrest]; subst.
  rewrite Hy, (IH Hrest). reflexivity.
Qed.

Lemma resolved_leaf n :
  YamlKind_eqb (Kind n) MappingNode = false ->
  YamlKind_eqb (Kind n) SequenceNode = false ->
  resolved dc n = n.
Proof.
  intros Hm Hs. unfold resolved.
  rewrite resolveParamRefs_unfold, isRefScalar_empty, Hm, Hs. reflexivity.
Qed.

Lemma resolved_twice n :
  wellFormed n = true -> clean n = true ->
  resolved dc (resolved dc n) = resolved dc n.
Proof.
  induction n as [k v l cs IH] using Node_ind. intros Hwf Hclean.
  pose proof (wellFormed_children _ Hwf) as Hwfs. cbn [Content] in Hwfs.
  rewrite clean_unfold in Hclean. cbn [Kind Content] in Hclean.
  apply andb_prop in Hclean as [Hshape Hcleans].
  assert (Hall : Forall (fun c => resolved dc (resolved dc c) = resolved dc c) cs).
  { apply Forall_forall. intros c Hc. rewrite Forall_forall in IH, Hwfs.
    apply IH; auto. rewrite forallb_forall in Hcleans.
    apply Hcleans, list_elem_of_In, Hc. }
  pose proof (wellFormed_resolved dc _ Hwf) as Hwf'.
  destruct (YamlKind_eqb k MappingNode) eqn:Hk.
  - apply YamlKind_eqb_eq in Hk. subst k.
    assert (Hcases : (exists a b, cs = [a; b] /\
                        String.eqb (Value a) "Ref" = true /\
                        YamlKind_eqb (Kind b) ScalarNode = true)
                     \/ plainKeys cs = true).
    { destruct cs as [|a [|b [|c cs']]]; auto.
      apply orb_prop in Hshape as [H|H]; auto.
      apply andb_prop in H as [Ha Hb]. left. eauto. }
    destruct Hcases as [(a & b & -> & Ha & Hb)|Hplain].
    + assert (Href : isReference (Value b) (mkNode MappingNode v l [a; b]) = true).
      { unfold isReference. cbn [Kind Content YamlKind_eqb andb].
        rewrite Ha, Hb, String.eqb_refl. reflexivity. }
      pose proof (resolved_reference dc _ _ Href) as H1.
      destruct (paramValue dc (Value b)) eqn:E.
      * rewrite H1. apply resolved_leaf; reflexivity.
      * rewrite H1. exact H1.
    + rewrite (resolved_mapping dc (mkNode MappingNode v l cs) eq_refl Hwf Hplain)
        in Hwf' |- *.
      cbn [Content] in Hwf' |- *.
      rewrite (resolved_mapping dc
                 (withContent (mkNode MappingNode v l cs) (mapValues dc cs))
                 eq_refl Hwf').
      * unfold withContent. cbn [Kind Value Line Content].
        rewrite (mapValues_twice cs Hall). reflexivity.
      * cbn [withContent Content]. rewrite plainKeys_mapValues. exact Hplain.
  - destruct (YamlKind_eqb k SequenceNode) eqn:Hs.
    + apply YamlKind_eqb_eq in Hs. subst k.
      rewrite (resolved_sequence dc (mkNode SequenceNode v l cs) eq_refl Hwf)
        in Hwf' |- *.
      cbn [Content] in Hwf' |- *.
      rewrite (resolved_sequence dc
                 (withContent (mkNode SequenceNode v l cs) (map (resolved dc) cs))
                 eq_refl Hwf').
      unfold withContent. cbn [Kind Value Line Content]. f_equal.
      rewrite <- list_fmap_compose. apply list_fmap_ext.
      intros i c Hc. simpl. rewrite Forall_forall in Hall.
      apply Hall, list_elem_of_lookup. eauto.
    + assert (H1 : resolved dc (mkNode k v l cs) = mkNode k v l cs)
        by (apply resolved_leaf; assumption).
      rewrite H1. exact H1.
Qed.

(** X9.  On a tree that uses [Ref] the way templates do, a second run of
    [resolveParamRefs] over the outcome of the first changes nothing:
    resolved references are scalars and stay, unknown ones stay
    references. *)
Theorem resolveParamRefs_twice (name : string) (prop parent : Node) :
  wellFormed prop = true ->
  clean prop = true ->
  String.eqb name "Ref" = false ->
  exists prop',
    resolveParamRefs name prop dc parent = Ok (TouchedProp prop') /\
    resolveParamRefs name prop' dc parent = Ok (TouchedProp prop').
Proof.
  intros Hwf Hclean Hname.
  assert (Hb : forall n, isRefScalar name n = false)
    by (intros n; unfold isRefScalar; rewrite Hname; reflexivity).
  exists (resolved dc prop).
  split; [apply resolveParamRefs_resolved; auto|].
  rewrite (resolveParamRefs_resolved dc name _ parent
             (wellFormed_resolved dc _ Hwf) (Hb _)).
  rewrite (resolved_twice prop Hwf Hclean). reflexivity.
Qed.

End ResolveTwice.

(** ** The accumulator and the report *)

(** X10.  [Append] is associative, the empty forecast appended changes
    nothing, and the names of the receiver are the ones that stay. *)
Theorem Append_laws (f g h : Forecast) :
  Append (Append f g) h = Append f (Append g h) /\
  Append f zeroForecast = f /\
  TypeName (Append f g) = TypeName f /\
  LogicalId (Append f g) = LogicalId f /\
  Passed (Append zeroForecast g) = Passed g /\
  Failed (Append zeroForecast g) = Failed g.
Proof.
  repeat split.
  - unfold Append. simpl. rewrite !app_assoc. reflexivity.
  - apply Append_zeroForecast.
Qed.

Section Report.

Context `{ext : External}.
Variable flags : Flags.

Lemma printAll_eq colour reasons (st : St World) :
  printAll colour reasons st
  = Ok (tt, {| amb := amb st; doc := doc st;
               stdout := stdout st ++ map colour reasons |}).
Proof.
  revert st. induction reasons as [|reason rest IH]; intros st.
  - simpl. unfold ret. rewrite app_nil_r. destruct st; reflexivity.
  - cbn [printAll]. unfold bind, println. rewrite IH. cbn [amb doc stdout map].
    rewrite <- app_assoc. reflexivity.
Qed.

(** X11.  [report] never panics and never touches the ambient state or
    the template.  With failures it prints the storm line, an empty line,
    the count and every failure message in red, in the order they were
    collected; the passed messages follow, in green under their own
    count, only with [--all].  Without failures it prints the one green
    line and, with [--all], the passed messages. *)
Theorem report_output (forecast : Forecast) (totalSeconds : Z) (st : St World) :
  report flags forecast totalSeconds st =
  Ok (Nat.eqb (GetNumFailed forecast) 0,
      {| amb := amb st; doc := doc st;
         stdout :=
           stdout st ++
           if Nat.eqb (GetNumFailed forecast) 0 then
             Green ("Clear skies! 🌞 All " +:+ pretty (GetNumChecked forecast)
                    +:+ " checks passed. Estimated time: "
                    +:+ FormatEstimate totalSeconds)
             :: (if all flags then Plain "" :: map Green (Passed forecast)
                 else [])
           else
             Red "Stormy weather ahead! 🌪" :: Plain ""
             :: Red (pretty (GetNumFailed forecast) +:+ " checks failed out of "
                     +:+ pretty (GetNumChecked forecast) +:+ " total checks")
             :: map Red (Failed forecast)
             ++ (if all flags then
                   Plain ""
                   :: Green (pretty (GetNumPassed forecast)
                             +:+ " checks passed out of "
                             +:+ pretty (GetNumChecked forecast)
                             +:+ " total checks")
                   :: map Green (Passed forecast)
                 else []) |}).
Proof.
  unfold report.
  destruct (GetNumFailed forecast) as [|n] eqn:Hn; cbn [Nat.ltb Nat.leb Nat.eqb].
  - unfold bind at 1, println at 1. destruct (all flags).
    + unfold bind at 1 2, println at 1. rewrite printAll_eq.
      unfold ret. cbn [amb doc stdout]. rewrite <- !app_assoc. reflexivity.
    + unfold bind, ret. reflexivity.
  - unfold bind at 1, println at 1. unfold bind at 1, println at 1.
    unfold bind at 1, println at 1. unfold bind at 1. rewrite printAll_eq.
    cbn [amb doc stdout]. destruct (all flags).
    + unfold bind at 1 2, println at 1. unfold bind at 1, println at 1.
      rewrite printAll_eq. unfold ret. cbn [amb doc stdout].
      rewrite <- !app_assoc. reflexivity.
    + unfold bind, ret. rewrite <- !app_assoc, app_nil_r. reflexivity.
Qed.

End Report.

(** ** The fmt command *)

Section FmtRun.

Context `{lib : Fmt.Library}.

Lemma Fmt_Run_Ok flags args sys sys' :
  Fmt.Run flags args sys = Ok sys' ->
  exists fn input source,
    args !! 0%nat = Some fn /\
    Fmt.files sys !! fn = Some input /\
    Fmt.ReadString input = Val source /\
    let output := Fmt.Format (Fmt.formatterFor flags) source in
    if Fmt.verifyFlag flags then
      input = output /\ sys' = Fmt.Println "Formatted OK" sys
    else
      Fmt.VerifyOutput source output = None /\
      sys' = if Fmt.writeFlag flags then Fmt.WriteFile fn output sys
             else Fmt.Println output sys.
Proof.
  unfold Fmt.Run, Fmt.ReadFile. intros H.
  destruct (args !! 0%nat) as [fn|]; [|discriminate].
  destruct (Fmt.files sys !! fn) as [input|] eqn:Hin; [|discriminate].
  destruct (Fmt.ReadString input) as [source|e] eqn:Hsrc; [|discriminate].
  exists fn, input, source. repeat (split; [reflexivity|]). cbv zeta.
  destruct (Fmt.verifyFlag flags).
  - destruct (String.eqb input _) eqn:E; [|discriminate].
    apply String.eqb_eq in E. inversion H. auto.
  - destruct (Fmt.VerifyOutput source _); [discriminate|].
    destruct (Fmt.writeFlag flags); inversion H; auto.
Qed.

(** X12.  What a run of [fmt] that returns has done.  No file other than
    the one it was given has changed.  With [--verify] no file has changed
    and the one line printed is "Formatted OK", which takes the text of
    the file to be the formatter's output.  Without [--verify] and
    without [--write] no file has changed and the one line printed is the
    output.  With [--write] nothing is printed, whatever became of the
    write: the file holds the output when the write went through, the
    first bytes of it, or none, when it broke off, and what it held before
    when it was refused. *)
Theorem Fmt_Run_files (flags : Fmt.Flags) (args : list string)
    (sys sys' : Fmt.Sys) :
  Fmt.Run flags args sys = Ok sys' ->
  exists fn input source,
    args !! 0%nat = Some fn /\
    Fmt.files sys !! fn = Some input /\
    Fmt.ReadString input = Val source /\
    (forall other, other <> fn ->
                   Fmt.files sys' !! other = Fmt.files sys !! other) /\
    (Fmt.verifyFlag flags = true ->
     input = Fmt.Format (Fmt.formatterFor flags) source /\
     Fmt.files sys' = Fmt.files sys /\
     Fmt.printed sys' = Fmt.printed sys ++ ["Formatted OK"]) /\
    (Fmt.verifyFlag flags = false -> Fmt.writeFlag flags = false ->
     Fmt.files sys' = Fmt.files sys /\
     Fmt.printed sys'
     = Fmt.printed sys ++ [Fmt.Format (Fmt.formatterFor flags) source]) /\
    (Fmt.verifyFlag flags = false -> Fmt.writeFlag flags = true ->
     Fmt.printed sys' = Fmt.printed sys /\
     Fmt.files sys' !! fn =
     match Fmt.fate sys fn with
     | Fmt.Refused => Some input
     | Fmt.Torn n =>
         Some (String.substring 0 n
                 (Fmt.Format (Fmt.formatterFor flags) source))
     | Fmt.Written => Some (Fmt.Format (Fmt.formatterFor flags) source)
     end).
Proof.
  intros H. apply Fmt_Run_Ok in H as (fn & input & source & Hfn & Hin & Hsrc & H).
  exists fn, input, source. repeat (split; [assumption|]).
  cbv zeta in H. destruct (Fmt.verifyFlag flags).
  - destruct H as [Heq ->]. cbn [Fmt.Println Fmt.files Fmt.printed].
    repeat split; intros; try reflexivity; try assumption; discriminate.
  - destruct H as [_ ->]. destruct (Fmt.writeFlag flags).
    + unfold Fmt.WriteFile. split; [|split; [|split]].
      * intros other Hother.
        destruct (Fmt.fate sys fn); cbn [Fmt.files]; try reflexivity;
          apply lookup_insert_ne; congruence.
      * discriminate.
      * discriminate.
      * intros _ _.
        destruct (Fmt.fate sys fn); cbn [Fmt.files Fmt.printed];
          (split; [reflexivity|]); try exact Hin; apply lookup_insert_eq.
    + cbn [Fmt.Println Fmt.files Fmt.printed].
      repeat split; intros; try reflexivity; discriminate.
Qed.

(** X13.  Writing and then verifying agree.  If every output that
    [VerifyOutput] accepts parses back to a template that formats to the
    same text, then after [fmt --write] has returned and its write went
    through, [fmt --verify] on the same file with the same formatter
    flags returns too: it adds the line "Formatted OK" to what was
    printed and changes nothing else. *)
Theorem Fmt_write_then_verify (flags : Fmt.Flags) (fn : string)
    (sys sys' : Fmt.Sys) :
  (forall source,
      let output := Fmt.Format (Fmt.formatterFor flags) source in
      Fmt.VerifyOutput source output = None ->
      exists source',
        Fmt.ReadString output = Val source' /\
        Fmt.Format (Fmt.formatterFor flags) source' = output) ->
  Fmt.verifyFlag flags = false ->
  Fmt.writeFlag flags = true ->
  Fmt.fate sys fn = Fmt.Written ->
  Fmt.Run flags [fn] sys = Ok sys' ->
  Fmt.Run {| Fmt.compactFlag := Fmt.compactFlag flags;
             Fmt.jsonFlag := Fmt.jsonFlag flags;
             Fmt.verifyFlag := true;
             Fmt.writeFlag := Fmt.writeFlag flags |} [fn] sys'
  = Ok {| Fmt.files := Fmt.files sys'; Fmt.fate := Fmt.fate sys';
          Fmt.printed := Fmt.printed sys' ++ ["Formatted OK"] |}.
Proof.
  intros Hstable Hv Hw Hfate H.
  apply Fmt_Run_Ok in H as (fn' & input & source & Hfn & Hin & Hsrc & H).
  cbv zeta in H. rewrite Hv, Hw in H. destruct H as [Hok ->].
  simpl in Hfn. inversion Hfn; subst fn'.
  destruct (Hstable source Hok) as (source' & Hparse & Hsame).
  unfold Fmt.WriteFile. rewrite Hfate.
  unfold Fmt.Run, Fmt.ReadFile. cbn [lookup list_lookup Fmt.files].
  rewrite lookup_insert_eq, Hparse.
  unfold Fmt.formatterFor in *. cbn [Fmt.jsonFlag Fmt.compactFlag Fmt.verifyFlag].
  rewrite Hsame, String.eqb_refl. reflexivity.
Qed.

End FmtRun.

(** ** The CloudFormation client *)

Section CfnPaginate.

Context {W A : Type}.
Variable page : option string -> W -> (Cfn.GoError + list A * option string) * W.

Lemma paginate_Paged token w pages err w' :
  Cfn.Paged page token w pages err w' ->
  forall fuel gathered,
    length pages < fuel ->
    Cfn.paginate page fuel gathered token w
    = Some ((gathered ++ concat pages, err), w').
Proof.
  induction 1 as [token w items w' Hpage | token w err w' Hpage
                 | token w items t w1 pages err w' Hpage _ IH];
    intros fuel gathered Hfuel;
    (destruct fuel as [|fuel]; [simpl in Hfuel; lia|]);
    cbn [Cfn.paginate]; rewrite Hpage.
  - simpl. rewrite app_nil_r. reflexivity.
  - simpl. rewrite app_nil_r. reflexivity.
  - rewrite IH by (simpl in Hfuel; lia).
    simpl. rewrite <- app_assoc. reflexivity.
Qed.

End CfnPaginate.

Section CfnClient.

Context `{api : Cfn.Api}.

(** X14.  [ListStacks] asks for the live statuses and follows the tokens:
    when the service answers with a chain of pages, the result is all of
    them in the order received; when a call fails after some pages, the
    stacks gathered so far come back together with the error.  More
    calls than pages are all the loop needs. *)
Theorem ListStacks_pages (w w' : Cfn.Account)
    (pages : list (list Cfn.StackSummary)) (err : option Cfn.GoError)
    (fuel : nat) :
  Cfn.Paged (fun token => Cfn.ListStacksPage token Cfn.liveStatuses)
    None w pages err w' ->
  length pages < fuel ->
  Cfn.ListStacks fuel w = Some ((concat pages, err), w').
Proof.
  intros Hp Hfuel. unfold Cfn.ListStacks.
  rewrite (paginate_Paged _ _ _ _ _ _ Hp fuel [] Hfuel). reflexivity.
Qed.

(** X15.  [GetStackEvents] gathers the pages of events the same way: all
    of them in order, or the ones before the failed call with its
    error. *)
Theorem GetStackEvents_pages (stackName : string) (w w' : Cfn.Account)
    (pages : list (list Cfn.StackEvent)) (err : option Cfn.GoError)
    (fuel : nat) :
  Cfn.Paged (Cfn.DescribeStackEventsPage stackName) None w pages err w' ->
  length pages < fuel ->
  Cfn.GetStackEvents fuel stackName w = Some ((concat pages, err), w').
Proof.
  intros Hp Hfuel. unfold Cfn.GetStackEvents.
  rewrite (paginate_Paged _ _ _ _ _ _ Hp fuel [] Hfuel). reflexivity.
Qed.

(** X16.  [StackExists] answers true exactly when a stack of that name is
    on one of the pages of the listing.  When a call of the listing fails
    it answers false with the error, also when the name was on a page
    received before. *)
Theorem StackExists_pages (stackName : string) (w w' : Cfn.Account)
    (pages : list (list Cfn.StackSummary)) (err : option Cfn.GoError)
    (fuel : nat) :
  Cfn.Paged (fun token => Cfn.ListStacksPage token Cfn.liveStatuses)
    None w pages err w' ->
  length pages < fuel ->
  exists found,
    Cfn.StackExists fuel stackName w = Some ((found, err), w') /\
    (err = None ->
     (found = true <->
      exists s, s ∈ concat pages /\ Cfn.StackName s = stackName)) /\
    (err <> None -> found = false).
Proof.
  intros Hp Hfuel. unfold Cfn.StackExists, Cfn.ListStacks.
  rewrite (paginate_Paged _ _ _ _ _ _ Hp fuel [] Hfuel). cbn [app].
  destruct err as [e|].
  - exists false. split; [reflexivity|]. split; [discriminate | reflexivity].
  - eexists. split; [reflexivity|]. split; [|congruence].
    intros _. rewrite existsb_exists. split.
    + intros (s & Hs & Heq). exists s. split; [apply list_elem_of_In, Hs|].
      apply String.eqb_eq, Heq.
    + intros (s & Hs & Heq). exists s. split; [apply list_elem_of_In, Hs|].
      apply String.eqb_eq, Heq.
Qed.

(** X17.  [WaitUntilStackExists] gives up only on an error that is not an
    API error: the error it returns is one [DescribeStacks] gave and
    [errors.As] did not take for an API error, and a nil return follows
    a call that went through. *)
Theorem WaitUntilStackExists_return (fuel : nat) (stackName : string)
    (w w' : Cfn.Account) (r : option Cfn.GoError) :
  Cfn.WaitUntilStackExists fuel stackName w = Some (r, w') ->
  exists w0,
    match r with
    | Some err =>
        Cfn.apiError err = false /\
        Cfn.DescribeStacks stackName w0 = (inl err, w')
    | None => exists stacks, Cfn.DescribeStacks stackName w0 = (inr stacks, w')
    end.
Proof.
  revert w. induction fuel as [|fuel IH]; intros w H; [discriminate|].
  cbn [Cfn.WaitUntilStackExists] in H.
  destruct (Cfn.DescribeStacks stackName w) as [[err|stacks] w1] eqn:Hd.
  - destruct (Cfn.apiError err) eqn:Hapi; cbn [negb] in H.
    + apply IH in H. exact H.
    + inversion H; subst. exists w. auto.
  - inversion H; subst. exists w. eauto.
Qed.

(** X18.  [WaitUntilStackCreateComplete] does not look at how the
    creation ended: as long as [DescribeStacks] answers with one stack,
    it returns nil or goes on waiting, and it returns nil as soon as the
    status ends in [_COMPLETE] or in [_FAILED]. *)
Theorem WaitUntilStackCreateComplete_status_blind (stackName : string) :
  (forall w, exists stack w',
      Cfn.DescribeStacks stackName w = (inr [stack], w')) ->
  forall fuel w r w',
    Cfn.WaitUntilStackCreateComplete fuel stackName w = Some (r, w') ->
    r = None /\
    exists w0 stack,
      Cfn.DescribeStacks stackName w0 = (inr [stack], w') /\
      (HasSuffix (Cfn.StackStatus stack) "_COMPLETE" = true
       \/ HasSuffix (Cfn.StackStatus stack) "_FAILED" = true).
Proof.
  intros Hone fuel. induction fuel as [|fuel IH]; intros w r w' H; [discriminate|].
  cbn [Cfn.WaitUntilStackCreateComplete] in H.
  destruct (Hone w) as (stack & w1 & Hd). rewrite Hd in H.
  destruct (HasSuffix (Cfn.StackStatus stack) "_COMPLETE"
            || HasSuffix (Cfn.StackStatus stack) "_FAILED") eqn:Hend.
  - inversion H; subst. split; [reflexivity|]. exists w, stack.
    split; [exact Hd|]. apply orb_prop, Hend.
  - apply IH in H. exact H.
Qed.

Lemma awaitChangeSet_done fuel changeSetName stackName :
  forall w name w',
    Cfn.awaitChangeSet fuel changeSetName stackName w = Some ((name, None), w') ->
    name = changeSetName /\
    exists w0 status reason,
      Cfn.DescribeChangeSet changeSetName stackName w0
      = (inr (status, reason), w') /\
      status <> "FAILED" /\ HasSuffix status "_COMPLETE" = true.
Proof.
  induction fuel as [|fuel IH]; intros w name w' H; [discriminate|].
  cbn [Cfn.awaitChangeSet] in H.
  destruct (Cfn.DescribeChangeSet changeSetName stackName w)
    as [[err|[status reason]] w1] eqn:Hd; [discriminate|].
  destruct (String.eqb status "FAILED") eqn:Hf; [discriminate|].
  destruct (HasSuffix status "_COMPLETE") eqn:Hc.
  - inversion H; subst. split; [reflexivity|]. exists w, status, reason.
    split; [exact Hd|]. split; [apply String.eqb_neq, Hf | exact Hc].
  - apply IH in H. exact H.
Qed.

(** X19.  [CreateChangeSet] returns without an error only along one path:
    [StackExists] answered, the change set was asked for under the name
    "stack-seconds", as an UPDATE when the stack exists and as a CREATE
    when it does not, the request went through, and the last status seen
    ends in [_COMPLETE] and is not FAILED. *)
Theorem CreateChangeSet_success (fuel : nat) (template : Cfn.CfnTemplate)
    (params : list StackParameter) (tags : gmap string string)
    (stackName : string) (w w' : Cfn.Account) (name : string) :
  Cfn.CreateChangeSet fuel template params tags stackName w
  = Some ((name, None), w') ->
  exists found w1 seconds w2 w3 w0 status reason,
    Cfn.StackExists fuel stackName w = Some ((found, None), w1) /\
    Cfn.Now w1 = (seconds, w2) /\
    name = stackName +:+ "-" +:+ pretty seconds /\
    Cfn.CreateChangeSetCall
      {| Cfn.ChangeSetType := if found then "UPDATE" else "CREATE";
         Cfn.ChangeSetName := name;
         Cfn.ForStack := stackName;
         Cfn.TemplateBody := Cfn.FormatTemplate template;
         Cfn.Tags := Cfn.makeTags tags;
         Cfn.Parameters := params;
         Cfn.Capabilities := ["CAPABILITY_NAMED_IAM"; "CAPABILITY_AUTO_EXPAND"] |}
      w2 = (None, w3) /\
    Cfn.DescribeChangeSet name stackName w0 = (inr (status, reason), w') /\
    status <> "FAILED" /\ HasSuffix status "_COMPLETE" = true.
Proof.
  unfold Cfn.CreateChangeSet. intros H.
  destruct (Cfn.StackExists fuel stackName w) as [[[found [err|]] w1]|] eqn:Hex;
    try discriminate.
  destruct (Cfn.Now w1) as [seconds w2] eqn:Hnow.
  destruct (Cfn.CreateChangeSetCall _ w2) as [[err|] w3] eqn:Hcall;
    [discriminate|].
  apply awaitChangeSet_done in H as (-> & w0 & status & reason & Hd & Hf & Hc).
  exists found, w1, seconds, w2, w3, w0, status, reason.
  repeat split; assumption.
Qed.

(** X20.  [WaitUntilStackExists] has no timeout: while every call of
    [DescribeStacks] fails with an API error, as it does for a stack that
    does not exist, the loop goes round, and however many calls it is
    given it has not returned. *)
Theorem WaitUntilStackExists_no_timeout (stackName : string) :
  (forall w, exists err w',
      Cfn.DescribeStacks stackName w = (inl err, w') /\
      Cfn.apiError err = true) ->
  forall fuel w, Cfn.WaitUntilStackExists fuel stackName w = None.
Proof.
  intros Hfail fuel. induction fuel as [|fuel IH]; intros w; [reflexivity|].
  cbn [Cfn.WaitUntilStackExists].
  destruct (Hfail w) as (err & w' & -> & ->). cbn [negb]. apply IH.
Qed.

(** X21.  [WaitUntilStackCreateComplete] has no timeout either: while
    [DescribeStacks] answers with one stack whose status ends neither in
    [_COMPLETE] nor in [_FAILED], it has not returned, however many calls
    it is given. *)
Theorem WaitUntilStackCreateComplete_no_timeout (stackName : string) :
  (forall w, exists stack w',
      Cfn.DescribeStacks stackName w = (inr [stack], w') /\
      HasSuffix (Cfn.StackStatus stack) "_COMPLETE" = false /\
      HasSuffix (Cfn.StackStatus stack) "_FAILED" = false) ->
  forall fuel w, Cfn.WaitUntilStackCreateComplete fuel stackName w = None.
Proof.
  intros Hbusy fuel. induction fuel as [|fuel IH]; intros w; [reflexivity|].
  cbn [Cfn.WaitUntilStackCreateComplete].
  destruct (Hbusy w) as (stack & w' & -> & -> & ->). cbn [orb]. apply IH.
Qed.

End CfnClient.

(** X22.  [makeTags] turns the map into a list that has each entry of the
    map once and nothing else: a tag is in the list exactly when the map
    holds its value under its key, and the list is as long as the map is
    large. *)
Theorem makeTags_entries (tags : gmap string string) :
  (forall k v,
      {| Cfn.Key := k; Cfn.Value := v |} ∈ Cfn.makeTags tags <-> tags !! k = Some v) /\
  length (Cfn.makeTags tags) = size tags /\
  NoDup (Cfn.Key <$> Cfn.makeTags tags).
Proof.
  unfold Cfn.makeTags. split; [|split].
  - intros k v. rewrite list_elem_of_fmap. split.
    + intros ([k' v'] & Heq & Hin). inversion Heq; subst.
      apply elem_of_map_to_list, Hin.
    + intros H. exists (k, v). split; [reflexivity|].
      apply elem_of_map_to_list, H.
  - rewrite length_fmap. apply length_map_to_list.
  - rewrite <- list_fmap_compose. apply NoDup_fst_map_to_list.
Qed.

(** ** Templates that get a verdict *)

Section Returns.

Context `{ext : External}.
Variable flags : Flags.

Hypothesis caller_known :
  forall w, exists callerArn w',
    GetCallerArn w = (Some callerArn, w') /\ countByte ":" callerArn = 5%nat.

(** A resource whose pointers are good is always answered; without a
    filter, without the permission check and without a predictor the
    answer is the one entry of the existence probe. *)
Lemma forecastForType_returns input (st : St World) :
  validInput input st = true ->
  exists f st',
    forecastForType flags input st = Ok (f, st') /\
    (ResourceType flags = "" -> SkipIAM flags = true ->
     forecasters !! typeName input = None -> GetNumChecked f = 1%nat).
Proof.
  intros Hv. unfold forecastForType.
  destruct (String.eqb (ResourceType flags) "") eqn:Hfilter; cbn [negb andb].
  2:{ destruct (negb (String.eqb (ResourceType flags) (typeName input))).
      - eexists _, _. split; [reflexivity|].
        intros Hf. apply String.eqb_neq in Hfilter. contradiction.
      - destruct (resolveAndProbe_valid input st Hv)
          as (st1 & r1 & template & found & w2 & _ & _ & _ & _ & _ & _ & Hrun).
        unfold bind at 1. rewrite Hrun.
        assert (Hrf : forall f0 st0, exists f st',
                   runForecaster input f0 st0 = Ok (f, st')).
        { intros f0 st0. rewrite runForecaster_eq.
          destruct (forecasters !! typeName input) as [fn|].
          - destruct (fn input (doc st0) (amb st0)). eexists _, _. reflexivity.
          - eexists _, _. reflexivity. }
        destruct (negb (SkipIAM flags)).
        + unfold bind at 1, callAmbient. cbn [doc amb].
          destruct (checkPermissions _ _ _ _) as [[f err] am].
          destruct err.
          * eexists _, _. split; [reflexivity|].
            intros Hf. apply String.eqb_neq in Hfilter. contradiction.
          * match goal with |- context [runForecaster input ?f0 ?st0] =>
              destruct (Hrf f0 st0) as (f' & st' & ->) end.
            eexists _, _. split; [reflexivity|].
            intros Hf. apply String.eqb_neq in Hfilter. contradiction.
        + match goal with |- context [runForecaster input ?f0 ?st0] =>
            destruct (Hrf f0 st0) as (f' & st' & ->) end.
          eexists _, _. split; [reflexivity|].
          intros Hf. apply String.eqb_neq in Hfilter. contradiction. }
  destruct (resolveAndProbe_valid input st Hv)
    as (st1 & r1 & template & found & w2 & _ & _ & _ & _ & _ & _ & Hrun).
  unfold bind at 1. rewrite Hrun.
  destruct (SkipIAM flags) eqn:Hskip; cbn [negb].
  - rewrite runForecaster_eq.
    destruct (forecasters !! typeName input) as [fn|] eqn:Hfn.
    + destruct (fn input _ _). eexists _, _. split; [reflexivity|].
      intros _ _ Hnone. discriminate.
    + eexists _, _. split; [reflexivity|]. intros _ _ _.
      destruct found; reflexivity.
  - unfold bind at 1, callAmbient. cbn [doc amb].
    destruct (checkPermissions _ _ _ _) as [[f err] am].
    destruct err.
    + eexists _, _. split; [reflexivity|]. intros _ Hs. discriminate.
    + rewrite runForecaster_eq.
      destruct (forecasters !! typeName input) as [fn|].
      * destruct (fn input _ _). eexists _, _. split; [reflexivity|].
        intros _ Hs. discriminate.
      * eexists _, _. split; [reflexivity|]. intros _ Hs. discriminate.
Qed.

Lemma predictResource_returns src stackName stack stackExists dc resources i
    forecast (st : St World) k r :
  src `prefix_of` resources ->
  nodeAt (resources ++ [i]) (doc st) = Some k ->
  nodeAt (resources ++ [S i]) (doc st) = Some r ->
  (match getMapValue r "Type" with Some _ => true | None => false end) = true ->
  wellFormed r = true ->
  propertiesPaired r = true ->
  exists f st',
    predictResource flags src stackName stack stackExists dc resources i
      forecast st = Ok (Append forecast f, st') /\
    (ResourceType flags = "" -> SkipIAM flags = true ->
     forecasters !! typeNameOf r = None -> GetNumChecked f = 1%nat).
Proof.
  intros Hpre Hk Hr Hty Hwf Hpp.
  destruct (nodeAt_child _ _ _ _ Hr) as (rs & Hrs & Hc).
  destruct (getMapValue r "Type") as [[jt typeNode]|] eqn:Htype; [|discriminate].
  destruct (awsRegion (world (amb st))) as [cfgRegion w1] eqn:Hreg.
  destruct (caller_known w1) as (callerArn & w2 & Harn & Hcount).
  unfold predictResource, bind at 1.
  rewrite (makeInput_eq flags src stackName stack stackExists dc resources
             i st k rs r typeNode jt cfgRegion w1 w2
             (Some callerArn) Hk Hrs Hc Htype Hreg Harn).
  rewrite Hcount. cbn [Nat.eqb]. unfold bind at 1.
  match goal with |- context [forecastForType flags ?input ?st1] =>
    destruct (forecastForType_returns input st1) as (f & st' & Hrun & Hone)
  end.
  { unfold validInput. cbn [source resource doc].
    rewrite Hr, Hwf, Hpp.
    rewrite bool_decide_eq_true_2; [reflexivity|].
    etransitivity; [exact Hpre | apply prefix_app_r; reflexivity]. }
  rewrite Hrun.
  eexists _, _. split; [reflexivity|].
  intros Hf Hs Hnone. apply Hone; [assumption | assumption |].
  cbn [typeName]. unfold typeNameOf in Hnone. rewrite Htype in Hnone. exact Hnone.
Qed.

Lemma rangeResources_returns src stackName stack stackExists dc resources todo :
  src `prefix_of` resources ->
  typedResources todo = true ->
  forall i forecast (st : St World),
    Nat.even i = true ->
    (forall k c, todo !! k = Some c ->
                 nodeAt (resources ++ [i + k]) (doc st) = Some c) ->
    exists f st',
      rangeResources flags src stackName stack stackExists dc resources todo i
        forecast st = Ok (f, st') /\
      (ResourceType flags = "" -> SkipIAM flags = true ->
       noPredictors todo = true ->
       GetNumChecked f = GetNumChecked forecast + length (resourceNodes todo)).
Proof.
  intros Hpre.
  induction todo as [| x | x y rest IH] using list_pair_ind;
    intros Hall i forecast st Hev Hinv.
  - exists forecast, st. split; [reflexivity|]. intros _ _ _. simpl. lia.
  - discriminate Hall.
  - cbn [typedResources] in Hall.
    apply andb_prop in Hall as [Hall Hrest].
    apply andb_prop in Hall as [Hall Hpp].
    apply andb_prop in Hall as [Hty Hwf].
    assert (Hk : nodeAt (resources ++ [i]) (doc st) = Some x).
    { rewrite <- (Hinv 0%nat x eq_refl). rewrite Nat.add_0_r. reflexivity. }
    assert (Hr : nodeAt (resources ++ [S i]) (doc st) = Some y).
    { rewrite <- (Hinv 1%nat y eq_refl).
      replace (i + 1)%nat with (S i) by lia. reflexivity. }
    destruct (predictResource_returns src stackName stack stackExists dc
                resources i forecast st x y Hpre Hk Hr Hty Hwf Hpp)
      as (f1 & st1 & Hstep & Hone).
    pose proof (predictResource_sameOutside _ _ _ _ _ _ _ _ _ _ _ _ Hstep)
      as [_ Hframe].
    destruct (IH Hrest (S (S i)) (Append forecast f1) st1) as (f & st' & Hrun & Hcount).
    + cbn [Nat.even]. exact Hev.
    + intros k c Hc. rewrite Hframe.
      * rewrite <- (Hinv (S (S k)) c Hc).
        replace (i + S (S k))%nat with (S (S i) + k)%nat by lia. reflexivity.
      * apply apart_siblings. lia.
    + exists f, st'. split.
      * cbn [rangeResources]. rewrite <- Nat.negb_even, Hev. cbn [negb].
        unfold bind at 1. rewrite Hstep.
        replace (Nat.odd (S i)) with true
          by (rewrite Nat.odd_succ, Hev; reflexivity).
        exact Hrun.
      * intros Hf Hs Hnp. cbn [noPredictors] in Hnp.
        apply andb_prop in Hnp as [Hnone Hnp].
        assert (Hfn : forecasters !! typeNameOf y = None)
          by (destruct (forecasters !! typeNameOf y); [discriminate|reflexivity]).
        rewrite (Hcount Hf Hs Hnp), GetNumChecked_Append, (Hone Hf Hs Hfn).
        cbn [resourceNodes length]. lia.
Qed.

Lemma predictAll_returns src stackName stack stackExists dc (st : St World)
    root rootMap resources j :
  nodeAt src (doc st) = Some root ->
  Content root !! 0%nat = Some rootMap ->
  getMapValue rootMap "Resources" = Some (j, resources) ->
  typedResources (Content resources) = true ->
  exists top st1,
    predictAll flags src stackName stack stackExists dc st = Ok (top, st1) /\
    (ResourceType flags = "" -> SkipIAM flags = true ->
     noPredictors (Content resources) = true ->
     GetNumChecked top = length (resourceNodes (Content resources))).
Proof.
  intros Hroot Hmap Hres Hall.
  pose proof (getMapValue_lookup _ _ _ _ Hres) as Hj.
  assert (Hrs : nodeAt (src ++ [0%nat; j]) (doc st) = Some resources).
  { rewrite nodeAt_app, Hroot. simpl. rewrite Hmap, Hj. reflexivity. }
  destruct (rangeResources_returns src stackName stack stackExists dc
              (src ++ [0%nat; j]) (Content resources)
              (prefix_app_r src src [0%nat; j] (reflexivity src)) Hall
              0%nat (makeForecast "" "") st eq_refl)
    as (top & st1 & Hrun & Hcount).
  { intros k c Hc. rewrite nodeAt_app, Hrs. simpl. rewrite Hc. reflexivity. }
  exists top, st1. split.
  - unfold predictAll, bind, deref. rewrite Hroot, Hmap, Hres. exact Hrun.
  - intros Hf Hs Hnp. rewrite (Hcount Hf Hs Hnp). reflexivity.
Qed.

(** X23.  A template gets its verdict.  When the caller identity can be
    fetched and every resource of the Resources section has a Type and is
    a well-formed tree, [predict] does not panic, whatever the
    collaborators answer: it returns true exactly when the top-level
    forecast holds no failure, and the exit status is 0 or 1. *)
Theorem predict_returns (src : loc) (stackName : string) (stack : Stack)
    (stackExists : bool) (dc : DeployConfig) (st : St World)
    (root rootMap resources : Node) (j : nat) :
  nodeAt src (doc st) = Some root ->
  Content root !! 0%nat = Some rootMap ->
  getMapValue rootMap "Resources" = Some (j, resources) ->
  typedResources (Content resources) = true ->
  exists top st1 st',
    predictAll flags src stackName stack stackExists dc st = Ok (top, st1) /\
    predict flags src stackName stack stackExists dc st
    = Ok (Nat.eqb (GetNumFailed top) 0, st') /\
    exitStatus (predict flags src stackName stack stackExists dc st)
    = (if Nat.eqb (GetNumFailed top) 0 then 0 else 1)%Z.
Proof.
  intros Hroot Hmap Hres Hall.
  destruct (predictAll_returns src stackName stack stackExists dc st root
              rootMap resources j Hroot Hmap Hres Hall)
    as (top & st1 & Hpa & _).
  destruct (predictAll_keeps _ _ _ _ _ _ _ _ _ Hpa) as [template Ht].
  destruct (report_Ok flags top (PredictTotalEstimate template stackExists) st1)
    as [st' Hrep].
  assert (Hp : predict flags src stackName stack stackExists dc st
               = Ok (Nat.eqb (GetNumFailed top) 0, st')).
  { unfold predict, bind at 1. rewrite Hpa. unfold bind, deref.
    rewrite Ht. exact Hrep. }
  exists top, st1, st'. rewrite Hp. split; [exact Hpa|]. split; [reflexivity|].
  unfold exitStatus. destruct (Nat.eqb (GetNumFailed top) 0); reflexivity.
Qed.

(** X24.  One check for each resource.  Without [--type], with
    [--skip-iam] and with no predictor registered for any type of the
    template, the top-level forecast of such a template holds exactly one
    check for each resource: the entry of its existence probe. *)
Theorem predictAll_one_check_each (src : loc) (stackName : string)
    (stack : Stack) (stackExists : bool) (dc : DeployConfig) (st : St World)
    (root rootMap resources : Node) (j : nat) :
  ResourceType flags = "" ->
  SkipIAM flags = true ->
  nodeAt src (doc st) = Some root ->
  Content root !! 0%nat = Some rootMap ->
  getMapValue rootMap "Resources" = Some (j, resources) ->
  typedResources (Content resources) = true ->
  noPredictors (Content resources) = true ->
  exists top st1,
    predictAll flags src stackName stack stackExists dc st = Ok (top, st1) /\
    GetNumChecked top = length (resourceNodes (Content resources)) /\
    2 * GetNumChecked top = length (Content resources).
Proof.
  intros Hf Hs Hroot Hmap Hres Hall Hnp.
  destruct (predictAll_returns src stackName stack stackExists dc st root
              rootMap resources j Hroot Hmap Hres Hall)
    as (top & st1 & Hpa & Hcount).
  exists top, st1. split; [exact Hpa|].
  rewrite (Hcount Hf Hs Hnp). split; [reflexivity|].
  clear -Hall. generalize (Content resources) Hall. clear.
  intros l. induction l as [| x | x y rest IH] using list_pair_ind; intros Hall.
  - reflexivity.
  - discriminate Hall.
  - cbn [typedResources] in Hall. apply andb_prop in Hall as [_ Hrest].
    cbn [resourceNodes length]. specialize (IH Hrest). lia.
Qed.

End Returns.

(** ** The theorems of this part at work *)

Lemma resolveRefs_unknown_names_witness :
  let st := Demo.start Demo.twoResources in
  nodeAt (resource Samples.topicInputOther) (doc st) = Some Samples.topicResource /\
  @getMapValue Demo.quiet Samples.topicResource "Properties"
  = Some (3%nat, Demo.topicProperties) /\
  Kind Demo.topicProperties = MappingNode /\
  wellFormed Demo.topicProperties = true /\
  Forall (fun x => paramValue (dc Samples.topicInputOther) x = None)
    (refNames Demo.topicProperties) /\
  @resolveRefs Demo.quiet Samples.topicInputOther st = Ok (tt, st).
Proof.
  intros st.
  assert (H1 : nodeAt (resource Samples.topicInputOther) (doc st)
               = Some Samples.topicResource) by (vm_compute; reflexivity).
  assert (H2 : @getMapValue Demo.quiet Samples.topicResource "Properties"
               = Some (3%nat, Demo.topicProperties)) by (vm_compute; reflexivity).
  assert (H3 : Kind Demo.topicProperties = MappingNode) by reflexivity.
  assert (H4 : wellFormed Demo.topicProperties = true) by (vm_compute; reflexivity).
  assert (H5 : Forall (fun x => paramValue (dc Samples.topicInputOther) x = None)
                 (refNames Demo.topicProperties))
    by (repeat constructor).
  repeat (split; [assumption|]).
  exact (@resolveRefs_unknown_names Demo.quiet Samples.topicInputOther st
           Samples.topicResource Demo.topicProperties 3%nat H1 H2 H3 H4 H5).
Defined.

Lemma resolveRefs_dangling_key_witness :
  let st := Demo.start Samples.danglingTemplate in
  let pre := [Demo.scalar 5 "TopicName"; Demo.scalar 5 "alerts"] in
  let k := Demo.scalar 6 "Orphan" in
  nodeAt (resource Demo.topicInput) (doc st) = Some Samples.danglingResource /\
  @getMapValue Demo.quiet Samples.danglingResource "Properties"
  = Some (3%nat, Samples.danglingProperties) /\
  Content Samples.danglingProperties = pre ++ [k] /\
  Nat.even (length pre) = true /\
  plainKeys pre = true /\
  Forall (fun c => wellFormed c = true) pre /\
  @resolveRefs Demo.quiet Demo.topicInput st = Panic "index out of range".
Proof.
  intros st pre k.
  assert (H1 : nodeAt (resource Demo.topicInput) (doc st)
               = Some Samples.danglingResource) by (vm_compute; reflexivity).
  assert (H2 : @getMapValue Demo.quiet Samples.danglingResource "Properties"
               = Some (3%nat, Samples.danglingProperties))
    by (vm_compute; reflexivity).
  assert (H3 : Content Samples.danglingProperties = pre ++ [k]) by reflexivity.
  assert (H4 : Nat.even (length pre) = true) by reflexivity.
  assert (H5 : plainKeys pre = true) by reflexivity.
  assert (H6 : Forall (fun c => wellFormed c = true) pre) by (repeat constructor).
  repeat (split; [assumption|]).
  exact (@resolveRefs_dangling_key Demo.quiet Demo.topicInput st
           Samples.danglingResource Samples.danglingProperties k pre 3%nat
           H1 H2 H3 H4 H5 H6).
Defined.

Lemma predictResource_other_resources_witness :
  let st := Demo.start Demo.twoResources in
  exists f st',
    @predictResource Demo.quiet Demo.flagsSkipIAM [] "demo" tt false Demo.named
      [0; 1]%nat 0 (makeForecast "" "") st = Ok (f, st') /\
    (stdout st' = stdout st /\
     forall k q, k <> 1%nat ->
       nodeAt ([0; 1]%nat ++ k :: q) (doc st')
       = nodeAt ([0; 1]%nat ++ k :: q) (doc st)).
Proof.
  intros st. eexists _, _. split; [vm_compute; reflexivity|].
  eapply (@predictResource_other_resources Demo.quiet Demo.flagsSkipIAM [] "demo"
            tt false Demo.named [0; 1]%nat 0%nat (makeForecast "" "") st).
  vm_compute. reflexivity.
Defined.

Lemma rangeResources_appends_witness :
  let st := Demo.start Demo.twoResources in
  let before := Add 1 (makeForecast "" "") true "collected before" in
  exists f st',
    @rangeResources Demo.throttled Demo.flagsDefault [] "demo" tt false
      Demo.named [0; 1]%nat (Content Samples.resourcesOfTwo) 0 before st
    = Ok (f, st') /\
    (Passed before `prefix_of` Passed f /\
     Failed before `prefix_of` Failed f /\
     TypeName f = TypeName before /\ LogicalId f = LogicalId before).
Proof.
  intros st before. eexists _, _. split; [vm_compute; reflexivity|].
  eapply (@rangeResources_appends Demo.throttled Demo.flagsDefault [] "demo" tt
            false Demo.named [0; 1]%nat (Content Samples.resourcesOfTwo) 0%nat
            before st).
  vm_compute. reflexivity.
Defined.

Lemma predict_missing_Type_witness :
  let st := Demo.start Samples.untypedTemplate in
  let rootMap := Demo.mapping 1 [Demo.scalar 1 "Resources";
                                 Samples.resourcesWithUntyped] in
  nodeAt [] (doc st) = Some Samples.untypedTemplate /\
  Content Samples.untypedTemplate !! 0%nat = Some rootMap /\
  @getMapValue Demo.quiet rootMap "Resources"
  = Some (1%nat, Samples.resourcesWithUntyped) /\
  Nat.even 2 = true /\
  Content Samples.resourcesWithUntyped !! 2%nat = Some (Demo.scalar 6 "Queue") /\
  Content Samples.resourcesWithUntyped !! 3%nat = Some Samples.untyped /\
  @getMapValue Demo.quiet Samples.untyped "Type" = None /\
  (exists msg,
     @predict Demo.quiet Demo.flagsSkipIAM [] "demo" tt false Demo.named st
     = Panic msg /\
     exitStatus (@predict Demo.quiet Demo.flagsSkipIAM [] "demo" tt false
                   Demo.named st) <> 0%Z).
Proof.
  intros st rootMap.
  assert (H1 : nodeAt [] (doc st) = Some Samples.untypedTemplate) by reflexivity.
  assert (H2 : Content Samples.untypedTemplate !! 0%nat = Some rootMap)
    by reflexivity.
  assert (H3 : @getMapValue Demo.quiet rootMap "Resources"
               = Some (1%nat, Samples.resourcesWithUntyped))
    by (vm_compute; reflexivity).
  assert (H4 : Nat.even 2 = true) by reflexivity.
  assert (H5 : Content Samples.resourcesWithUntyped !! 2%nat
               = Some (Demo.scalar 6 "Queue")) by reflexivity.
  assert (H6 : Content Samples.resourcesWithUntyped !! 3%nat
               = Some Samples.untyped) by reflexivity.
  assert (H7 : @getMapValue Demo.quiet Samples.untyped "Type" = None)
    by (vm_compute; reflexivity).
  repeat (split; [assumption|]).
  exact (@predict_missing_Type Demo.quiet Demo.flagsSkipIAM [] "demo" tt false
           Demo.named st Samples.untypedTemplate rootMap
           Samples.resourcesWithUntyped (Demo.scalar 6 "Queue") Samples.untyped
           1%nat 2%nat H1 H2 H3 H4 H5 H6 H7).
Defined.

Lemma makeInput_caller_arn_witness :
  let st := Demo.start Demo.twoResources in
  let k := Demo.scalar 2 "Topic" in
  let typeNode := Demo.scalar 3 "AWS::SNS::Topic" in
  nodeAt ([0; 1]%nat ++ [0%nat]) (doc st) = Some k /\
  nodeAt [0; 1]%nat (doc st) = Some Samples.resourcesOfTwo /\
  Content Samples.resourcesOfTwo !! 1%nat = Some Samples.topicResource /\
  @getMapValue Demo.quiet Samples.topicResource "Type" = Some (1%nat, typeNode) /\
  @awsRegion Demo.quiet (world (amb st)) = ("us-east-1", []) /\
  @GetCallerArn Demo.quiet [] = (Demo.admin, [Demo.CallIdentity]) /\
  @makeInput Demo.quiet Demo.flagsDefault [] "demo" tt false Demo.named
    [0; 1]%nat 0 st
  = Ok (Demo.topicInput,
        {| amb := {| LineNumber := 2; world := [Demo.CallIdentity] |};
           doc := Demo.twoResources; stdout := [] |}).
Proof.
  intros st k typeNode.
  assert (H1 : nodeAt ([0; 1]%nat ++ [0%nat]) (doc st) = Some k) by reflexivity.
  assert (H2 : nodeAt [0; 1]%nat (doc st) = Some Samples.resourcesOfTwo)
    by reflexivity.
  assert (H3 : Content Samples.resourcesOfTwo !! 1%nat
               = Some Samples.topicResource) by reflexivity.
  assert (H4 : @getMapValue Demo.quiet Samples.topicResource "Type"
               = Some (1%nat, typeNode)) by (vm_compute; reflexivity).
  assert (H5 : @awsRegion Demo.quiet (world (amb st)) = ("us-east-1", []))
    by reflexivity.
  assert (H6 : @GetCallerArn Demo.quiet [] = (Demo.admin, [Demo.CallIdentity]))
    by reflexivity.
  repeat (split; [assumption|]).
  exact (@makeInput_caller_arn Demo.quiet Demo.flagsDefault [] "demo" tt false
           Demo.named [0; 1]%nat 0%nat st k Samples.resourcesOfTwo
           Samples.topicResource typeNode 1%nat "us-east-1" []
           [Demo.CallIdentity] Demo.admin H1 H2 H3 H4 H5 H6).
Defined.

Lemma predict_filter_matches_nothing_witness :
  let st := Demo.start Demo.twoResources in
  ResourceType Demo.flagsOnlyBuckets <> "" /\
  (forall w, exists callerArn w',
      @GetCallerArn Demo.quiet w = (Some callerArn, w')
      /\ countByte ":" callerArn = 5%nat) /\
  nodeAt [] (doc st) = Some Demo.twoResources /\
  Content Demo.twoResources !! 0%nat = Some Samples.rootOfTwo /\
  @getMapValue Demo.quiet Samples.rootOfTwo "Resources"
  = Some (1%nat, Samples.resourcesOfTwo) /\
  @allOtherTypes Demo.quiet (ResourceType Demo.flagsOnlyBuckets)
    (Content Samples.resourcesOfTwo) = true /\
  (exists st1 st',
     @predictAll Demo.quiet Demo.flagsOnlyBuckets [] "demo" tt false Demo.named st
     = Ok (makeForecast "" "", st1) /\
     doc st1 = doc st /\
     @predict Demo.quiet Demo.flagsOnlyBuckets [] "demo" tt false Demo.named st
     = Ok (true, st') /\
     exitStatus (@predict Demo.quiet Demo.flagsOnlyBuckets [] "demo" tt false
                   Demo.named st) = 0%Z).
Proof.
  intros st.
  assert (H1 : ResourceType Demo.flagsOnlyBuckets <> "") by discriminate.
  assert (H2 : forall w, exists callerArn w',
             @GetCallerArn Demo.quiet w = (Some callerArn, w')
             /\ countByte ":" callerArn = 5%nat).
  { intros w. eexists _, _. split; reflexivity. }
  assert (H3 : nodeAt [] (doc st) = Some Demo.twoResources) by reflexivity.
  assert (H4 : Content Demo.twoResources !! 0%nat = Some Samples.rootOfTwo)
    by reflexivity.
  assert (H5 : @getMapValue Demo.quiet Samples.rootOfTwo "Resources"
               = Some (1%nat, Samples.resourcesOfTwo)) by (vm_compute; reflexivity).
  assert (H6 : @allOtherTypes Demo.quiet (ResourceType Demo.flagsOnlyBuckets)
                 (Content Samples.resourcesOfTwo) = true)
    by (vm_compute; reflexivity).
  repeat (split; [assumption|]).
  exact (@predict_filter_matches_nothing Demo.quiet Demo.flagsOnlyBuckets []
           "demo" tt false Demo.named st Demo.twoResources Samples.rootOfTwo
           Samples.resourcesOfTwo 1%nat H1 H2 H3 H4 H5 H6).
Defined.

Lemma resolveParamRefs_twice_witness :
  wellFormed Demo.topicProperties = true /\
  clean Demo.topicProperties = true /\
  String.eqb "Properties" "Ref" = false /\
  (exists prop',
     resolveParamRefs "Properties" Demo.topicProperties Demo.named
       Demo.topicProperties = Ok (TouchedProp prop') /\
     resolveParamRefs "Properties" prop' Demo.named Demo.topicProperties
     = Ok (TouchedProp prop')).
Proof.
  assert (H1 : wellFormed Demo.topicProperties = true) by (vm_compute; reflexivity).
  assert (H2 : clean Demo.topicProperties = true) by (vm_compute; reflexivity).
  assert (H3 : String.eqb "Properties" "Ref" = false) by reflexivity.
  repeat (split; [assumption|]).
  exact (resolveParamRefs_twice Demo.named "Properties" Demo.topicProperties
           Demo.topicProperties H1 H2 H3).
Defined.

Lemma Fmt_Run_files_witness :
  exists sys',
    @Fmt.Run Samples.marker Samples.writeFlags ["b.yaml"] Samples.disk = Ok sys' /\
    Fmt.fate Samples.disk "b.yaml" = Fmt.Torn 2 /\
    Fmt.files sys' !! "b.yaml" = Some "# " /\
    Fmt.files sys' !! "a.yaml" = Some "Resources: {}" /\
    Fmt.printed sys' = [] /\
    exists fn input source,
      ["b.yaml"] !! 0%nat = Some fn /\
      Fmt.files Samples.disk !! fn = Some input /\
      @Fmt.ReadString Samples.marker input = Val source /\
      (forall other, other <> fn ->
                     Fmt.files sys' !! other = Fmt.files Samples.disk !! other) /\
      (Fmt.verifyFlag Samples.writeFlags = true ->
       input = @Fmt.Format Samples.marker
                 (@Fmt.formatterFor Samples.marker Samples.writeFlags) source /\
       Fmt.files sys' = Fmt.files Samples.disk /\
       Fmt.printed sys' = Fmt.printed Samples.disk ++ ["Formatted OK"]) /\
      (Fmt.verifyFlag Samples.writeFlags = false ->
       Fmt.writeFlag Samples.writeFlags = false ->
       Fmt.files sys' = Fmt.files Samples.disk /\
       Fmt.printed sys'
       = Fmt.printed Samples.disk
         ++ [@Fmt.Format Samples.marker
               (@Fmt.formatterFor Samples.marker Samples.writeFlags) source]) /\
      (Fmt.verifyFlag Samples.writeFlags = false ->
       Fmt.writeFlag Samples.writeFlags = true ->
       Fmt.printed sys' = Fmt.printed Samples.disk /\
       Fmt.files sys' !! fn =
       match Fmt.fate Samples.disk fn with
       | Fmt.Refused => Some input
       | Fmt.Torn n =>
           Some (String.substring 0 n
                   (@Fmt.Format Samples.marker
                      (@Fmt.formatterFor Samples.marker Samples.writeFlags)
                      source))
       | Fmt.Written =>
           Some (@Fmt.Format Samples.marker
                   (@Fmt.formatterFor Samples.marker Samples.writeFlags) source)
       end).
Proof.
  eexists. split; [vm_compute; reflexivity|].
  split; [reflexivity|]. split; [vm_compute; reflexivity|].
  split; [vm_compute; reflexivity|]. split; [reflexivity|].
  eapply (@Fmt_Run_files Samples.marker Samples.writeFlags ["b.yaml"]
            Samples.disk).
  vm_compute. reflexivity.
Defined.

Lemma Fmt_write_then_verify_witness :
  (forall source,
      let output := @Fmt.Format Samples.marker
                      (@Fmt.formatterFor Samples.marker Samples.writeFlags) source in
      @Fmt.VerifyOutput Samples.marker source output = None ->
      exists source',
        @Fmt.ReadString Samples.marker output = Val source' /\
        @Fmt.Format Samples.marker
          (@Fmt.formatterFor Samples.marker Samples.writeFlags) source' = output) /\
  Fmt.verifyFlag Samples.writeFlags = false /\
  Fmt.writeFlag Samples.writeFlags = true /\
  Fmt.fate Samples.disk "a.yaml" = Fmt.Written /\
  exists sys',
    @Fmt.Run Samples.marker Samples.writeFlags ["a.yaml"] Samples.disk = Ok sys' /\
    Fmt.files sys' !! "a.yaml" = Some "# Resources: {}" /\
    @Fmt.Run Samples.marker
      {| Fmt.compactFlag := Fmt.compactFlag Samples.writeFlags;
         Fmt.jsonFlag := Fmt.jsonFlag Samples.writeFlags;
         Fmt.verifyFlag := true;
         Fmt.writeFlag := Fmt.writeFlag Samples.writeFlags |} ["a.yaml"] sys'
    = Ok {| Fmt.files := Fmt.files sys'; Fmt.fate := Fmt.fate sys';
            Fmt.printed := Fmt.printed sys' ++ ["Formatted OK"] |}.
Proof.
  assert (H1 : forall source,
      let output := @Fmt.Format Samples.marker
                      (@Fmt.formatterFor Samples.marker Samples.writeFlags) source in
      @Fmt.VerifyOutput Samples.marker source output = None ->
      exists source',
        @Fmt.ReadString Samples.marker output = Val source' /\
        @Fmt.Format Samples.marker
          (@Fmt.formatterFor Samples.marker Samples.writeFlags) source' = output).
  { intros source output _. subst output. cbn.
    destruct (String.prefix "# " source) eqn:Hp.
    - exists source. rewrite Hp.
      destruct source as [|a s]; [discriminate Hp|]. split; reflexivity.
    - exists (String "#" (String " " source)). split; [reflexivity|].
      cbn. destruct source; reflexivity. }
  assert (H2 : Fmt.verifyFlag Samples.writeFlags = false) by reflexivity.
  assert (H3 : Fmt.writeFlag Samples.writeFlags = true) by reflexivity.
  assert (H4 : Fmt.fate Samples.disk "a.yaml" = Fmt.Written) by reflexivity.
  repeat (split; [assumption|]).
  eexists. split; [vm_compute; reflexivity|].
  split; [vm_compute; reflexivity|].
  eapply (@Fmt_write_then_verify Samples.marker Samples.writeFlags "a.yaml"
            Samples.disk _ H1 H2 H3 H4).
  vm_compute. reflexivity.
Defined.

Lemma ListStacks_pages_witness :
  let pages :=
    [[{| Cfn.StackName := "alpha"; Cfn.SummaryStatus := "CREATE_COMPLETE" |};
      {| Cfn.StackName := "beta"; Cfn.SummaryStatus := "UPDATE_COMPLETE" |}];
     [{| Cfn.StackName := "gamma"; Cfn.SummaryStatus := "CREATE_FAILED" |}]] in
  Cfn.Paged (fun token => @Cfn.ListStacksPage Samples.counting token Cfn.liveStatuses)
    None 0%nat pages None 2%nat /\
  length pages < 3 /\
  @Cfn.ListStacks Samples.counting 3 0%nat = Some ((concat pages, None), 2%nat).
Proof.
  intros pages.
  assert (H1 : Cfn.Paged
                 (fun token => @Cfn.ListStacksPage Samples.counting token
                                 Cfn.liveStatuses)
                 None 0%nat pages None 2%nat).
  { eapply Cfn.Paged_more; [reflexivity|]. apply Cfn.Paged_last. reflexivity. }
  assert (H2 : length pages < 3) by (simpl; lia).
  repeat (split; [assumption|]).
  exact (@ListStacks_pages Samples.counting 0%nat 2%nat pages None 3%nat H1 H2).
Defined.

Lemma GetStackEvents_pages_witness :
  Cfn.Paged (@Cfn.DescribeStackEventsPage Samples.counting "demo")
    None 0%nat [["created"]] (Some Samples.failure) 2%nat /\
  length [["created"]] < 2 /\
  @Cfn.GetStackEvents Samples.counting 2 "demo" 0%nat
  = Some ((concat [["created"]], Some Samples.failure), 2%nat).
Proof.
  assert (H1 : Cfn.Paged (@Cfn.DescribeStackEventsPage Samples.counting "demo")
                 None 0%nat [["created"]] (Some Samples.failure) 2%nat).
  { eapply Cfn.Paged_more; [reflexivity|]. apply Cfn.Paged_failed. reflexivity. }
  assert (H2 : length [["created"]] < 2) by (simpl; lia).
  repeat (split; [assumption|]).
  exact (@GetStackEvents_pages Samples.counting "demo" 0%nat 2%nat [["created"]]
           (Some Samples.failure) 2%nat H1 H2).
Defined.

Lemma StackExists_pages_witness :
  let pages :=
    [[{| Cfn.StackName := "alpha"; Cfn.SummaryStatus := "CREATE_COMPLETE" |};
      {| Cfn.StackName := "beta"; Cfn.SummaryStatus := "UPDATE_COMPLETE" |}];
     [{| Cfn.StackName := "gamma"; Cfn.SummaryStatus := "CREATE_FAILED" |}]] in
  Cfn.Paged (fun token => @Cfn.ListStacksPage Samples.counting token Cfn.liveStatuses)
    None 0%nat pages None 2%nat /\
  length pages < 3 /\
  (exists found,
     @Cfn.StackExists Samples.counting 3 "gamma" 0%nat
     = Some ((found, None), 2%nat) /\
     (@None Cfn.GoError = None ->
      (found = true <->
       exists s, s ∈ concat pages /\ Cfn.StackName s = "gamma")) /\
     (@None Cfn.GoError <> None -> found = false)).
Proof.
  intros pages.
  assert (H1 : Cfn.Paged
                 (fun token => @Cfn.ListStacksPage Samples.counting token
                                 Cfn.liveStatuses)
                 None 0%nat pages None 2%nat).
  { eapply Cfn.Paged_more; [reflexivity|]. apply Cfn.Paged_last. reflexivity. }
  assert (H2 : length pages < 3) by (simpl; lia).
  repeat (split; [assumption|]).
  exact (@StackExists_pages Samples.counting "gamma" 0%nat 2%nat pages None
           3%nat H1 H2).
Defined.

Lemma WaitUntilStackExists_return_witness :
  @Cfn.WaitUntilStackExists Samples.counting 1 "demo" 0%nat = Some (None, 1%nat) /\
  (exists w0 stacks,
     @Cfn.DescribeStacks Samples.counting "demo" w0 = (inr stacks, 1%nat)).
Proof.
  assert (H1 : @Cfn.WaitUntilStackExists Samples.counting 1 "demo" 0%nat
               = Some (None, 1%nat)) by reflexivity.
  split; [exact H1|].
  exact (@WaitUntilStackExists_return Samples.counting 1%nat "demo" 0%nat 1%nat
           None H1).
Defined.

Lemma WaitUntilStackCreateComplete_status_blind_witness :
  (forall w, exists stack w',
      @Cfn.DescribeStacks Samples.counting "demo" w = (inr [stack], w')) /\
  @Cfn.WaitUntilStackCreateComplete Samples.counting 5 "demo" 0%nat
  = Some (None, 3%nat) /\
  (@None Cfn.GoError = None /\
   exists w0 stack,
     @Cfn.DescribeStacks Samples.counting "demo" w0 = (inr [stack], 3%nat) /\
     (HasSuffix (Cfn.StackStatus stack) "_COMPLETE" = true
      \/ HasSuffix (Cfn.StackStatus stack) "_FAILED" = true)).
Proof.
  assert (H1 : forall w, exists stack w',
             @Cfn.DescribeStacks Samples.counting "demo" w = (inr [stack], w')).
  { intros w. eexists _, _. reflexivity. }
  assert (H2 : @Cfn.WaitUntilStackCreateComplete Samples.counting 5 "demo" 0%nat
               = Some (None, 3%nat)) by (vm_compute; reflexivity).
  split; [exact H1|]. split; [exact H2|].
  exact (@WaitUntilStackCreateComplete_status_blind Samples.counting "demo" H1
           5%nat 0%nat None 3%nat H2).
Defined.

Lemma CreateChangeSet_success_witness :
  exists w',
    @Cfn.CreateChangeSet Samples.counting 3 "Resources: {}" [] ∅ "alpha" 0%nat
    = Some (("alpha-1700000000", None), w') /\
    exists found w1 seconds w2 w3 w0 status reason,
      @Cfn.StackExists Samples.counting 3 "alpha" 0%nat
      = Some ((found, None), w1) /\
      @Cfn.Now Samples.counting w1 = (seconds, w2) /\
      "alpha-1700000000" = "alpha" +:+ "-" +:+ pretty seconds /\
      @Cfn.CreateChangeSetCall Samples.counting
        {| Cfn.ChangeSetType := if found then "UPDATE" else "CREATE";
           Cfn.ChangeSetName := "alpha-1700000000";
           Cfn.ForStack := "alpha";
           Cfn.TemplateBody := @Cfn.FormatTemplate Samples.counting "Resources: {}";
           Cfn.Tags := Cfn.makeTags ∅;
           Cfn.Parameters := [];
           Cfn.Capabilities := ["CAPABILITY_NAMED_IAM"; "CAPABILITY_AUTO_EXPAND"] |}
        w2 = (None, w3) /\
      @Cfn.DescribeChangeSet Samples.counting "alpha-1700000000" "alpha" w0
      = (inr (status, reason), w') /\
      status <> "FAILED" /\ HasSuffix status "_COMPLETE" = true.
Proof.
  eexists. split; [vm_compute; reflexivity|].
  eapply (@CreateChangeSet_success Samples.counting 3%nat "Resources: {}" [] ∅
            "alpha" 0%nat).
  vm_compute. reflexivity.
Defined.

Lemma predict_returns_witness :
  let st := Demo.start Demo.twoResources in
  (forall w, exists callerArn w',
      @GetCallerArn Demo.throttled w = (Some callerArn, w')
      /\ countByte ":" callerArn = 5%nat) /\
  nodeAt [] (doc st) = Some Demo.twoResources /\
  Content Demo.twoResources !! 0%nat = Some Samples.rootOfTwo /\
  @getMapValue Demo.throttled Samples.rootOfTwo "Resources"
  = Some (1%nat, Samples.resourcesOfTwo) /\
  @typedResources Demo.throttled (Content Samples.resourcesOfTwo) = true /\
  (exists top st1 st',
     @predictAll Demo.throttled Demo.flagsDefault [] "demo" tt false Demo.named st
     = Ok (top, st1) /\
     @predict Demo.throttled Demo.flagsDefault [] "demo" tt false Demo.named st
     = Ok (Nat.eqb (GetNumFailed top) 0, st') /\
     exitStatus (@predict Demo.throttled Demo.flagsDefault [] "demo" tt false
                   Demo.named st)
     = (if Nat.eqb (GetNumFailed top) 0 then 0 else 1)%Z).
Proof.
  intros st.
  assert (H1 : forall w, exists callerArn w',
             @GetCallerArn Demo.throttled w = (Some callerArn, w')
             /\ countByte ":" callerArn = 5%nat).
  { intros w. eexists _, _. split; reflexivity. }
  assert (H2 : nodeAt [] (doc st) = Some Demo.twoResources) by reflexivity.
  assert (H3 : Content Demo.twoResources !! 0%nat = Some Samples.rootOfTwo)
    by reflexivity.
  assert (H4 : @getMapValue Demo.throttled Samples.rootOfTwo "Resources"
               = Some (1%nat, Samples.resourcesOfTwo)) by (vm_compute; reflexivity).
  assert (H5 : @typedResources Demo.throttled (Content Samples.resourcesOfTwo)
               = true) by (vm_compute; reflexivity).
  repeat (split; [assumption|]).
  exact (@predict_returns Demo.throttled Demo.flagsDefault H1 [] "demo" tt false
           Demo.named st Demo.twoResources Samples.rootOfTwo
           Samples.resourcesOfTwo 1%nat H2 H3 H4 H5).
Defined.

Lemma predictAll_one_check_each_witness :
  let st := Demo.start Demo.twoResources in
  (forall w, exists callerArn w',
      @GetCallerArn Demo.crowded w = (Some callerArn, w')
      /\ countByte ":" callerArn = 5%nat) /\
  ResourceType Demo.flagsSkipIAM = "" /\
  SkipIAM Demo.flagsSkipIAM = true /\
  nodeAt [] (doc st) = Some Demo.twoResources /\
  Content Demo.twoResources !! 0%nat = Some Samples.rootOfTwo /\
  @getMapValue Demo.crowded Samples.rootOfTwo "Resources"
  = Some (1%nat, Samples.resourcesOfTwo) /\
  @typedResources Demo.crowded (Content Samples.resourcesOfTwo) = true /\
  @noPredictors Demo.crowded (Content Samples.resourcesOfTwo) = true /\
  (exists top st1,
     @predictAll Demo.crowded Demo.flagsSkipIAM [] "demo" tt false Demo.named st
     = Ok (top, st1) /\
     GetNumChecked top
     = length (@resourceNodes (Content Samples.resourcesOfTwo)) /\
     2 * GetNumChecked top = length (Content Samples.resourcesOfTwo)).
Proof.
  intros st.
  assert (H1 : forall w, exists callerArn w',
             @GetCallerArn Demo.crowded w = (Some callerArn, w')
             /\ countByte ":" callerArn = 5%nat).
  { intros w. eexists _, _. split; reflexivity. }
  assert (Hf : ResourceType Demo.flagsSkipIAM = "") by reflexivity.
  assert (Hs : SkipIAM Demo.flagsSkipIAM = true) by reflexivity.
  assert (H2 : nodeAt [] (doc st) = Some Demo.twoResources) by reflexivity.
  assert (H3 : Content Demo.twoResources !! 0%nat = Some Samples.rootOfTwo)
    by reflexivity.
  assert (H4 : @getMapValue Demo.crowded Samples.rootOfTwo "Resources"
               = Some (1%nat, Samples.resourcesOfTwo)) by (vm_compute; reflexivity).
  assert (H5 : @typedResources Demo.crowded (Content Samples.resourcesOfTwo)
               = true) by (vm_compute; reflexivity).
  assert (H6 : @noPredictors Demo.crowded (Content Samples.resourcesOfTwo)
               = true) by (vm_compute; reflexivity).
  repeat (split; [assumption|]).
  exact (@predictAll_one_check_each Demo.crowded Demo.flagsSkipIAM H1 []
           "demo" tt false Demo.named st Demo.twoResources Samples.rootOfTwo
           Samples.resourcesOfTwo 1%nat Hf Hs H2 H3 H4 H5 H6).
Defined.

Lemma WaitUntilStackExists_no_timeout_witness :
  (forall w, exists err w',
      @Cfn.DescribeStacks Samples.pending "ghost" w = (inl err, w') /\
      Cfn.apiError err = true) /\
  @Cfn.WaitUntilStackExists Samples.pending 1000 "ghost" 0%nat = None.
Proof.
  assert (H1 : forall w, exists err w',
             @Cfn.DescribeStacks Samples.pending "ghost" w = (inl err, w') /\
             Cfn.apiError err = true).
  { intros w. eexists _, _. split; reflexivity. }
  split; [exact H1|].
  exact (@WaitUntilStackExists_no_timeout Samples.pending "ghost" H1 1000%nat
           0%nat).
Defined.

Lemma WaitUntilStackCreateComplete_no_timeout_witness :
  (forall w, exists stack w',
      @Cfn.DescribeStacks Samples.pending "demo" w = (inr [stack], w') /\
      HasSuffix (Cfn.StackStatus stack) "_COMPLETE" = false /\
      HasSuffix (Cfn.StackStatus stack) "_FAILED" = false) /\
  @Cfn.WaitUntilStackCreateComplete Samples.pending 1000 "demo" 0%nat = None.
Proof.
  assert (H1 : forall w, exists stack w',
             @Cfn.DescribeStacks Samples.pending "demo" w = (inr [stack], w') /\
             HasSuffix (Cfn.StackStatus stack) "_COMPLETE" = false /\
             HasSuffix (Cfn.StackStatus stack) "_FAILED" = false).
  { intros w. eexists _, _. split; [reflexivity|]. split; vm_compute; reflexivity. }
  split; [exact H1|].
  exact (@WaitUntilStackCreateComplete_no_timeout Samples.pending "demo" H1
           1000%nat 0%nat).
Defined.
